(** * Trading Hub page (frontend/pages/orchestration/trading/app.py)

    A shallow embedding of the page's data-fetching helpers, its order
    actions, its table renderers and its trade-execution block, together
    with the properties the page's description states about them.

    Python values are the JSON-shaped values the backend client hands back.
    Effects (backend requests, Streamlit output, session state, the clock)
    are threaded through a small state-and-exception monad; the backend,
    pandas, plotly and the user's input are parameters.  The chart, the
    selectors at the top of the script and [show_trading_data] follow the
    renderers; labels are given without their emoji. *)

From Stdlib Require Import ZArith List String Ascii Bool Lia.
From Stdlib Require Import Floats.SpecFloat.
Import ListNotations.

Local Open Scope string_scope.
Local Open Scope Z_scope.

(** ** Python values *)

(** [None], [bool], [int], [float], [str], [list] and [dict].  A dict keeps
    its items in insertion order, as Python's does; keys are values too
    (only hashable ones can be stored, see [dict_store]). *)
#[local] Unset Elimination Schemes.
Inductive pyval : Type :=
| PNone
| PBool (b : bool)
| PInt (n : Z)
| PFloat (f : spec_float)
| PStr (s : string)
| PList (xs : list pyval)
| PDict (kvs : list (pyval * pyval)).
#[local] Set Elimination Schemes.

Definition isinstance_list (v : pyval) : bool :=
  match v with PList _ => true | _ => false end.

Definition isinstance_dict (v : pyval) : bool :=
  match v with PDict _ => true | _ => false end.

(** [hash(v)] succeeds on everything but lists and dicts. *)
Definition hashable (v : pyval) : bool :=
  match v with PList _ | PDict _ => false | _ => true end.

(** Python's name for the type of a value, as error messages print it. *)
Definition type_name (v : pyval) : string :=
  match v with
  | PNone => "NoneType"
  | PBool _ => "bool"
  | PInt _ => "int"
  | PFloat _ => "float"
  | PStr _ => "str"
  | PList _ => "list"
  | PDict _ => "dict"
  end.

(** *** Numbers

    [bool], [int] and [float] compare by exact numeric value
    ([True == 1 == 1.0]).  A finite number is [m * 2^e]. *)
Inductive numv : Type :=
| NFin (m e : Z)
| NInf (neg : bool)
| NNan.

Definition num_of_float (f : spec_float) : numv :=
  match f with
  | S754_zero _ => NFin 0 0
  | S754_infinity s => NInf s
  | S754_nan => NNan
  | S754_finite s m e => NFin (if s then Z.neg m else Z.pos m) e
  end.

Definition num_of (v : pyval) : option numv :=
  match v with
  | PBool b => Some (NFin (if b then 1 else 0) 0)
  | PInt n => Some (NFin n 0)
  | PFloat f => Some (num_of_float f)
  | _ => None
  end.

Definition num_eqb (x y : numv) : bool :=
  match x, y with
  | NFin m1 e1, NFin m2 e2 =>
      let e := Z.min e1 e2 in
      Z.shiftl m1 (e1 - e) =? Z.shiftl m2 (e2 - e)
  | NInf s1, NInf s2 => Bool.eqb s1 s2
  | NNan, NNan => true
  | _, _ => false
  end.

(** *** Equality

    [same_or_eq x y] is the test CPython's containers use, [x is y or
    x == y].  Values here carry no object identity; the identity shortcut
    only ever differs from [==] on NaN, and two NaNs are taken to be the
    same object.  Dicts compare regardless of item order. *)
Definition atom_eqb (x y : pyval) : bool :=
  match x, y with
  | PNone, PNone => true
  | PStr s, PStr t => String.eqb s t
  | _, _ =>
      match num_of x, num_of y with
      | Some a, Some b => num_eqb a b
      | _, _ => false
      end
  end.

Fixpoint assoc_find (k : pyval) (d : list (pyval * pyval)) : option pyval :=
  match d with
  | [] => None
  | (k', v) :: rest => if atom_eqb k' k then Some v else assoc_find k rest
  end.

Fixpoint same_or_eq (x y : pyval) {struct x} : bool :=
  match x with
  | PList xs =>
      match y with
      | PList ys =>
          (fix all2 (l : list pyval) (r : list pyval) {struct l} : bool :=
             match l, r with
             | [], [] => true
             | a :: l', b :: r' => same_or_eq a b && all2 l' r'
             | _, _ => false
             end) xs ys
      | _ => false
      end
  | PDict d =>
      match y with
      | PDict d' =>
          Nat.eqb (List.length d) (List.length d') &&
          (fix sub (l : list (pyval * pyval)) {struct l} : bool :=
             match l with
             | [] => true
             | (k, v) :: l' =>
                 match assoc_find k d' with
                 | Some v' => same_or_eq v v' && sub l'
                 | None => false
                 end
             end) d
      | _ => false
      end
  | _ => atom_eqb x y
  end.

(** [x == y]: as above, except that a NaN is unequal to everything. *)
Definition py_eq (x y : pyval) : bool :=
  match x, y with
  | PFloat S754_nan, _ | _, PFloat S754_nan => false
  | _, _ => same_or_eq x y
  end.

(** [bool(v)] *)
Definition truthy (v : pyval) : bool :=
  match v with
  | PNone => false
  | PBool b => b
  | PInt n => negb (n =? 0)
  | PFloat f => match f with S754_zero _ => false | _ => true end
  | PStr s => negb (String.eqb s "")
  | PList xs => match xs with [] => false | _ => true end
  | PDict d => match d with [] => false | _ => true end
  end.

(** ** Exceptions and results *)

(** Instances of [Exception]: the ones the interpreter raises for the
    operations used on this page, and [Raised] for whatever an external
    call (backend client, pandas, Streamlit formatting) raises. *)
Inductive exn : Type :=
| Raised (cls msg : string)
| TypeError (msg : string)
| AttributeError (msg : string)
| KeyError (key : pyval)
| IndexError (msg : string).

(** Streamlit's script-control signals.  They derive from [BaseException],
    so an [except Exception] clause does not catch them. *)
Inductive control : Type := Rerun | Stop.

Inductive result (A : Type) : Type :=
| Ok (a : A)
| Exc (e : exn)
| Ctl (c : control).

Arguments Ok {A} a.
Arguments Exc {A} e.
Arguments Ctl {A} c.

(** ** Operations on values *)

(** Dict lookup by key; [None] when the key is absent. *)
Definition dict_lookup (k : pyval) (d : list (pyval * pyval)) : option pyval :=
  assoc_find k d.

(** [d[k] = v], [k] hashable: an existing key keeps its place (and its key
    object), a new one goes last. *)
Fixpoint dict_put (k v : pyval) (d : list (pyval * pyval)) : list (pyval * pyval) :=
  match d with
  | [] => [(k, v)]
  | (k', v') :: rest =>
      if atom_eqb k' k then (k', v) :: rest else (k', v') :: dict_put k v rest
  end.

Definition unhashable (k : pyval) : exn :=
  TypeError ("unhashable type: '" ++ type_name k ++ "'").

Definition dict_store (k v : pyval) (d : list (pyval * pyval))
  : result (list (pyval * pyval)) :=
  if hashable k then Ok (dict_put k v d) else Exc (unhashable k).

Definition no_attribute (v : pyval) (a : string) : exn :=
  AttributeError ("'" ++ type_name v ++ "' object has no attribute '" ++ a ++ "'").

(** [v.get(k, default)] *)
Definition py_get (v k default : pyval) : result pyval :=
  match v with
  | PDict d =>
      if hashable k then
        Ok (match dict_lookup k d with Some x => x | None => default end)
      else Exc (unhashable k)
  | _ => Exc (no_attribute v "get")
  end.

(** [v.items()] *)
Definition py_items (v : pyval) : result (list (pyval * pyval)) :=
  match v with
  | PDict d => Ok d
  | _ => Exc (no_attribute v "items")
  end.

Fixpoint chars (s : string) : list pyval :=
  match s with
  | EmptyString => []
  | String c rest => PStr (String c EmptyString) :: chars rest
  end.

(** The items a [for] loop (or a comprehension) goes through. *)
Definition py_iter (v : pyval) : result (list pyval) :=
  match v with
  | PList xs => Ok xs
  | PDict d => Ok (map fst d)
  | PStr s => Ok (chars s)
  | _ => Exc (TypeError ("'" ++ type_name v ++ "' object is not iterable"))
  end.

Fixpoint is_substring (s t : string) : bool :=
  String.prefix s t ||
  match t with
  | EmptyString => false
  | String _ t' => is_substring s t'
  end.

(** [x in v] *)
Definition py_contains (x v : pyval) : result bool :=
  match v with
  | PDict d =>
      if hashable x then
        Ok (match dict_lookup x d with Some _ => true | None => false end)
      else Exc (unhashable x)
  | PList xs => Ok (existsb (fun y => same_or_eq y x) xs)
  | PStr t =>
      match x with
      | PStr s => Ok (is_substring s t)
      | _ => Exc (TypeError "'in <string>' requires string as left operand")
      end
  | _ => Exc (TypeError ("argument of type '" ++ type_name v ++ "' is not iterable"))
  end.

(** An index into a sequence of length [len]; negative indices count from
    the end. *)
Definition seq_index (i len : Z) : option nat :=
  let j := if i <? 0 then i + len else i in
  if (0 <=? j) && (j <? len) then Some (Z.to_nat j) else None.

Definition int_index (k : pyval) : option Z :=
  match k with
  | PInt n => Some n
  | PBool b => Some (if b then 1 else 0)
  | _ => None
  end.

(** [v[k]] *)
Definition py_getitem (v k : pyval) : result pyval :=
  match v with
  | PDict d =>
      if hashable k then
        match dict_lookup k d with
        | Some x => Ok x
        | None => Exc (KeyError k)
        end
      else Exc (unhashable k)
  | PList xs =>
      match int_index k with
      | Some i =>
          match seq_index i (Z.of_nat (List.length xs)) with
          | Some n => match nth_error xs n with
                      | Some x => Ok x
                      | None => Exc (IndexError "list index out of range")
                      end
          | None => Exc (IndexError "list index out of range")
          end
      | None => Exc (TypeError "list indices must be integers or slices")
      end
  | PStr s =>
      match int_index k with
      | Some i =>
          match seq_index i (Z.of_nat (List.length (chars s))) with
          | Some n => match nth_error (chars s) n with
                      | Some x => Ok x
                      | None => Exc (IndexError "string index out of range")
                      end
          | None => Exc (IndexError "string index out of range")
          end
      | None => Exc (TypeError "string indices must be integers")
      end
  | _ => Exc (TypeError ("'" ++ type_name v ++ "' object is not subscriptable"))
  end.

(** [**d] at a call site: [d] must be a dict whose keys are all strings. *)
Fixpoint kwargs_of (d : list (pyval * pyval)) : option (list (string * pyval)) :=
  match d with
  | [] => Some []
  | (PStr name, v) :: rest =>
      match kwargs_of rest with
      | Some kw => Some ((name, v) :: kw)
      | None => None
      end
  | _ :: _ => None
  end.

Definition py_kwargs (v : pyval) : result (list (string * pyval)) :=
  match v with
  | PDict d =>
      match kwargs_of d with
      | Some kw => Ok kw
      | None => Exc (TypeError "keywords must be strings")
      end
  | _ => Exc (TypeError ("argument after ** must be a mapping, not " ++ type_name v))
  end.

(** ** The backend client, Streamlit output and the page's state *)

(** The client methods the page calls, with their arguments. *)
Inductive request : Type :=
| ListAccounts
| ListCredentials (account : pyval)
| GetAvailableCandlesFeed
| GetPositions (limit : pyval)
| GetActiveOrders (limit : pyval)
| GetOrders (limit : pyval)
| GetCandles (connector trading_pair interval max_records : pyval)
| GetPrices (connector trading_pairs : pyval)
| PlaceOrder (kwargs : list (string * pyval))
| CancelOrder (account_name connector_name client_order_id : pyval)
| GetState (account_names : pyval).

(** A client call hands back a value or raises. *)
Inductive outcome : Type :=
| Return (v : pyval)
| Raise (e : exn).

(** What an f-string interpolates into a message. *)
Inductive fmt_arg : Type :=
| FExn (e : exn)
| FVal (v : pyval).

Inductive ui_kind : Type :=
| st_error | st_warning | st_success | st_info
| st_subheader | st_metric | st_dataframe | st_data_editor | st_spinner | st_button.

(** What the page does that can be seen from outside, in order: the
    requests it sends to the backend, each with the answer it got, and
    what it tells Streamlit to show. *)
Inductive event : Type :=
| Request (rq : request) (answer : outcome)
| Ui (kind : ui_kind) (text : string) (args : list fmt_arg).

(** A message shown to the user: [st.error], [st.warning], [st.success]
    or [st.info]. *)
Definition is_message (ev : event) : bool :=
  match ev with
  | Ui (st_error | st_warning | st_success | st_info) _ _ => true
  | _ => false
  end.

(** [st.session_state], with the keys the script initialises at its top;
    the two [last_fetch_*] keys exist only once [get_market_data] has
    written them. *)
Record session_state : Type := mk_session {
  selected_account : pyval;
  selected_connector : pyval;
  selected_market : pyval;
  candles_connector : pyval;
  auto_refresh_enabled : pyval;
  chart_interval : pyval;
  max_candles : pyval;
  last_fetch_time : option pyval;
  last_fetch_timestamp : option pyval
}.

Definition initial_session : session_state :=
  {| selected_account := PNone;
     selected_connector := PNone;
     selected_market :=
       PDict [(PStr "connector", PStr "binance_perpetual");
              (PStr "trading_pair", PStr "BTC-USDT")];
     candles_connector := PNone;
     auto_refresh_enabled := PBool false;
     chart_interval := PStr "1m";
     max_candles := PInt 100;
     last_fetch_time := None;
     last_fetch_timestamp := None |}.

Definition set_last_fetch_time (v : pyval) (s : session_state) : session_state :=
  {| selected_account := selected_account s;
     selected_connector := selected_connector s;
     selected_market := selected_market s;
     candles_connector := candles_connector s;
     auto_refresh_enabled := auto_refresh_enabled s;
     chart_interval := chart_interval s;
     max_candles := max_candles s;
     last_fetch_time := Some v;
     last_fetch_timestamp := last_fetch_timestamp s |}.

Definition set_last_fetch_timestamp (v : pyval) (s : session_state) : session_state :=
  {| selected_account := selected_account s;
     selected_connector := selected_connector s;
     selected_market := selected_market s;
     candles_connector := candles_connector s;
     auto_refresh_enabled := auto_refresh_enabled s;
     chart_interval := chart_interval s;
     max_candles := max_candles s;
     last_fetch_time := last_fetch_time s;
     last_fetch_timestamp := Some v |}.

(** Binary64 arithmetic, for the fetch-time bookkeeping. *)
Definition float_sub : spec_float -> spec_float -> spec_float := SFsub 53 1024.
Definition float_mul : spec_float -> spec_float -> spec_float := SFmul 53 1024.
Definition float_of_int (n : Z) : spec_float := binary_normalize 53 1024 n 0 false.

Arguments float_of_int : simpl never.
Arguments float_mul : simpl never.
Arguments float_sub : simpl never.

(** Sequencing of value operations that may raise. *)
Definition rbind {A C} (r : result A) (k : A -> result C) : result C :=
  match r with
  | Ok a => k a
  | Exc e => Exc e
  | Ctl c => Ctl c
  end.

Notation "x <~ r ;; k" := (rbind r (fun x => k))
  (at level 61, r at next level, right associativity).

(** ** pandas and Streamlit, as far as the page uses them

    Both are external.  The page builds a [DataFrame] from a record list,
    asks whether it is empty, reads its column labels, filters it by a
    boolean column, walks its rows and sums a column.  The operations are
    functions of the values they are given: they hand back new objects and
    leave their arguments alone. *)
Class Pandas : Type := {
  DataFrame : Type;
  Series : Type;
  (** [pd.DataFrame(data)] *)
  pd_DataFrame : pyval -> result DataFrame;
  (** [df.empty] *)
  df_empty : DataFrame -> bool;
  (** [df.columns] *)
  df_columns : DataFrame -> list pyval;
  (** [df[df[col]]] *)
  df_where : DataFrame -> pyval -> result DataFrame;
  (** [len(df)] *)
  df_len : DataFrame -> Z;
  (** the rows of [df.iterrows()] *)
  df_iterrows : DataFrame -> list Series;
  (** [row.get(key, default)] *)
  series_get : Series -> pyval -> pyval -> pyval;
  (** [df[col].sum()] *)
  df_sum : DataFrame -> pyval -> result pyval;
  (** [format(v, spec)], as an f-string with a format spec applies it *)
  py_format : pyval -> string -> result string
}.

(** What the user has entered in the trade-execution widgets. *)
Record trade_widgets : Type := mk_trade_widgets {
  order_type : string;          (* selectbox over "market", "limit" *)
  order_side : string;          (* selectbox over "buy", "sell" *)
  order_amount : spec_float;    (* number_input "Amount" *)
  order_price : spec_float;     (* number_input "Price", limit orders only *)
  place_clicked : bool          (* the "Place Order" button *)
}.

Section Page.

(** The backend is external: any state machine answering requests. *)
Variable B : Type.
Variable backend : B -> request -> outcome * B.

(** [clock n] is what the [n]-th call of [time.time()] reads. *)
Variable clock : nat -> spec_float.

Context {pandas : Pandas}.

(** What the user did in the orders editor: the frame [st.data_editor]
    hands back for the frame it was given, and whether the
    "Cancel Selected" button was pressed. *)
Variable orders_editor : DataFrame -> DataFrame.
Variable cancel_clicked : bool.

(** The world a run of the page acts on.  [objects] holds the record
    lists handed to the table renderers, by reference. *)
Record world : Type := mk_world {
  backend_state : B;
  session : session_state;
  objects : list pyval;
  ticks : nat;
  trace : list event
}.

Definition M (A : Type) : Type := world -> result A * world.

Definition ret {A} (a : A) : M A := fun w => (Ok a, w).

Definition bind {A C} (m : M A) (k : A -> M C) : M C :=
  fun w =>
    match m w with
    | (Ok a, w') => k a w'
    | (Exc e, w') => (Exc e, w')
    | (Ctl c, w') => (Ctl c, w')
    end.

Definition lift {A} (r : result A) : M A := fun w => (r, w).

(** [try: body / except Exception as e: handler e] *)
Definition try_except {A} (body : M A) (handler : exn -> M A) : M A :=
  fun w =>
    match body w with
    | (Exc e, w') => handler e w'
    | other => other
    end.

Definition emit (ev : event) : M unit :=
  fun w =>
    (Ok tt,
     {| backend_state := backend_state w; session := session w;
        objects := objects w; ticks := ticks w;
        trace := trace w ++ [ev] |}%list).

(** A call of a backend client method. *)
Definition call (rq : request) : M pyval :=
  fun w =>
    let (o, b') := backend (backend_state w) rq in
    let w' := {| backend_state := b'; session := session w;
                 objects := objects w; ticks := ticks w;
                 trace := trace w ++ [Request rq o] |}%list in
    match o with
    | Return v => (Ok v, w')
    | Raise e => (Exc e, w')
    end.

(** [time.time()] *)
Definition time_time : M spec_float :=
  fun w =>
    (Ok (clock (ticks w)),
     {| backend_state := backend_state w; session := session w;
        objects := objects w; ticks := S (ticks w); trace := trace w |}).

Definition get_session : M session_state := fun w => (Ok (session w), w).

Definition update_session (f : session_state -> session_state) : M unit :=
  fun w =>
    (Ok tt,
     {| backend_state := backend_state w; session := f (session w);
        objects := objects w; ticks := ticks w; trace := trace w |}).

(** Reading the object a renderer's argument refers to ([None] stands in
    for a reference to nothing, which Python does not have). *)
Definition load (l : nat) : M pyval :=
  fun w => (Ok (nth l (objects w) PNone), w).

Definition ui (kind : ui_kind) (text : string) (args : list fmt_arg) : M unit :=
  emit (Ui kind text args).

Notation "x <- m ;; k" := (bind m (fun x => k))
  (at level 61, m at next level, right associativity).
Notation "m ;; k" := (bind m (fun _ => k))
  (at level 61, right associativity).

(** ** Fetching data *)

Fixpoint fetch_credentials (accounts : list pyval)
    (credentials_list : list (pyval * pyval)) : M (list (pyval * pyval)) :=
  match accounts with
  | [] => ret credentials_list
  | account :: rest =>
      credentials <- call (ListCredentials account) ;;
      credentials_list' <- lift (dict_store account credentials credentials_list) ;;
      fetch_credentials rest credentials_list'
  end.

Definition get_accounts_and_credentials : M (pyval * pyval) :=
  try_except
    (accounts_list <- call ListAccounts ;;
     accounts <- lift (py_iter accounts_list) ;;
     credentials_list <- fetch_credentials accounts [] ;;
     ret (accounts_list, PDict credentials_list))
    (fun e =>
       ui st_error "Failed to fetch accounts: " [FExn e] ;;
       ret (PList [], PDict [])).

Definition get_candles_connectors : M pyval :=
  try_except
    (call GetAvailableCandlesFeed)
    (fun e =>
       ui st_warning "Could not fetch candles feed connectors: " [FExn e] ;;
       ret (PList [])).

Definition get_positions : M pyval :=
  try_except
    (response <- call (GetPositions (PInt 100)) ;;
     if isinstance_list response then ret response
     else if isinstance_dict response then
       status <- lift (py_get response (PStr "status") PNone) ;;
       if py_eq status (PStr "success")
       then lift (py_get response (PStr "data") (PList []))
       else ret (PList [])
     else ret (PList []))
    (fun e =>
       ui st_error "Failed to fetch positions: " [FExn e] ;;
       ret (PList [])).

Definition get_active_orders : M pyval :=
  try_except
    (response <- call (GetActiveOrders (PInt 100)) ;;
     if isinstance_list response then ret response
     else if isinstance_dict response then
       status <- lift (py_get response (PStr "status") PNone) ;;
       if py_eq status (PStr "success")
       then lift (py_get response (PStr "data") (PList []))
       else ret (PList [])
     else ret (PList []))
    (fun e =>
       ui st_error "Failed to fetch active orders: " [FExn e] ;;
       ret (PList [])).

Definition get_order_history : M pyval :=
  try_except
    (response <- call (GetOrders (PInt 50)) ;;
     if isinstance_list response then ret response
     else if isinstance_dict response then
       status <- lift (py_get response (PStr "status") PNone) ;;
       if py_eq status (PStr "success")
       then lift (py_get response (PStr "data") (PList []))
       else ret (PList [])
     else ret (PList []))
    (fun _ => ret (PList [])).

(** The dict comprehension over a list price response:
    [{item.get("trading_pair", "unknown"): item.get("price", 0)
      for item in price_response if isinstance(item, dict)}]. *)
Fixpoint prices_of_items (items : list pyval) (prices : list (pyval * pyval))
    : result (list (pyval * pyval)) :=
  match items with
  | [] => Ok prices
  | item :: rest =>
      if isinstance_dict item then
        key <~ py_get item (PStr "trading_pair") (PStr "unknown") ;;
        value <~ py_get item (PStr "price") (PInt 0) ;;
        prices' <~ dict_store key value prices ;;
        prices_of_items rest prices'
      else prices_of_items rest prices
  end.

Definition get_market_data
    (connector trading_pair interval max_records candles_connector : pyval)
    : M (pyval * pyval) :=
  start_time <- time_time ;;
  try_except
    (candles <-
       try_except
         (let candles_conn :=
            if truthy candles_connector then candles_connector else connector in
          candles_response <-
            call (GetCandles candles_conn trading_pair interval max_records) ;;
          if isinstance_list candles_response then ret candles_response
          else if isinstance_dict candles_response then
            status <- lift (py_get candles_response (PStr "status") PNone) ;;
            if py_eq status (PStr "success")
            then lift (py_get candles_response (PStr "data") (PList []))
            else ret (PList [])
          else ret (PList []))
         (fun e =>
            ui st_warning "Could not fetch candles: " [FExn e] ;;
            ret (PList [])) ;;
     prices <-
       try_except
         (price_response <- call (GetPrices connector (PList [trading_pair])) ;;
          if isinstance_dict price_response then
            has_status <- lift (py_contains (PStr "status") price_response) ;;
            succeeded <-
              (if has_status : bool then
                 status <- lift (py_get price_response (PStr "status") PNone) ;;
                 ret (py_eq status (PStr "success"))
               else ret false) ;;
            if succeeded : bool then
              lift (py_get price_response (PStr "data") (PDict []))
            else
              has_prices <- lift (py_contains (PStr "prices") price_response) ;;
              if has_prices : bool then
                lift (py_get price_response (PStr "prices") (PDict []))
              else ret price_response
          else if isinstance_list price_response then
            items <- lift (py_iter price_response) ;;
            prices <- lift (prices_of_items items []) ;;
            ret (PDict prices)
          else ret (PDict []))
         (fun e =>
            ui st_warning "Could not fetch prices: " [FExn e] ;;
            ret (PDict [])) ;;
     now <- time_time ;;
     update_session
       (set_last_fetch_time
          (PFloat (float_mul (float_sub now start_time) (float_of_int 1000)))) ;;
     stamp <- time_time ;;
     update_session (set_last_fetch_timestamp (PFloat stamp)) ;;
     ret (candles, prices))
    (fun e =>
       ui st_error "Failed to fetch market data: " [FExn e] ;;
       ret (PList [], PDict [])).

(** ** Order actions *)

Definition place_order (order_data : pyval) : M bool :=
  try_except
    (kwargs <- lift (py_kwargs order_data) ;;
     response <- call (PlaceOrder kwargs) ;;
     status <- lift (py_get response (PStr "status") PNone) ;;
     if py_eq status (PStr "success") then
       order_id <- lift (py_get response (PStr "order_id") PNone) ;;
       ui st_success "Order placed successfully! Order ID: " [FVal order_id] ;;
       ret true
     else
       message <- lift (py_get response (PStr "message") (PStr "Unknown error")) ;;
       ui st_error "Failed to place order: " [FVal message] ;;
       ret false)
    (fun e =>
       ui st_error "Failed to place order: " [FExn e] ;;
       ret false).

Definition cancel_order (account_name connector_name order_id : pyval) : M bool :=
  try_except
    (response <- call (CancelOrder account_name connector_name order_id) ;;
     status <- lift (py_get response (PStr "status") PNone) ;;
     if py_eq status (PStr "success") then
       ui st_success "Order {} cancelled successfully!" [FVal order_id] ;;
       ret true
     else
       message <- lift (py_get response (PStr "message") (PStr "Unknown error")) ;;
       ui st_error "Failed to cancel order: " [FVal message] ;;
       ret false)
    (fun e =>
       ui st_error "Failed to cancel order: " [FExn e] ;;
       ret false).

(** ** Balances *)

(** The inner loop of [get_balances]: one record per token of an
    exchange, appended to [balances]. *)
Fixpoint balances_of_tokens (exchange : pyval) (tokens : list pyval)
    (balances : list pyval) : result (list pyval) :=
  match tokens with
  | [] => Ok balances
  | token_info :: rest =>
      token <~ py_getitem token_info (PStr "token") ;;
      units <~ py_getitem token_info (PStr "units") ;;
      available_units <~ py_getitem token_info (PStr "available_units") ;;
      price <~ py_getitem token_info (PStr "price") ;;
      value <~ py_getitem token_info (PStr "value") ;;
      balances_of_tokens exchange rest
        (balances ++ [PDict [(PStr "exchange", exchange);
                             (PStr "token", token);
                             (PStr "total", units);
                             (PStr "available", available_units);
                             (PStr "price", price);
                             (PStr "value", value)]])%list
  end.

(** The outer loop, over the [(exchange, tokens)] items of the account. *)
Fixpoint balances_of_exchanges (items : list (pyval * pyval))
    (balances : list pyval) : result (list pyval) :=
  match items with
  | [] => Ok balances
  | (exchange, tokens) :: rest =>
      token_infos <~ py_iter tokens ;;
      balances' <~ balances_of_tokens exchange token_infos balances ;;
      balances_of_exchanges rest balances'
  end.

Definition get_balances : M pyval :=
  try_except
    (st <- get_session ;;
     if negb (truthy (selected_account st)) then ret (PList [])
     else
       portfolio_state <- call (GetState (PList [selected_account st])) ;;
       present <- lift (py_contains (selected_account st) portfolio_state) ;;
       if present : bool then
         exchanges <- lift (py_getitem portfolio_state (selected_account st)) ;;
         items <- lift (py_items exchanges) ;;
         balances <- lift (balances_of_exchanges items []) ;;
         ret (PList balances)
       else ret (PList []))
    (fun e =>
       ui st_error "Failed to fetch balances: " [FExn e] ;;
       ret (PList [])).

(** ** Tables

    A renderer is handed a reference [l] to the record list; the list
    itself sits in [objects]. *)

Definition st_rerun : M unit := fun w => (Ctl Rerun, w).

Definition render_positions_table (l : nat) : M unit :=
  positions_data <- load l ;;
  if negb (truthy positions_data) then ui st_info "No open positions found." []
  else
    df <- lift (pd_DataFrame positions_data) ;;
    if df_empty df then ui st_info "No open positions found." []
    else
      ui st_subheader "Open Positions" [] ;;
      ui st_dataframe "positions" [].

Fixpoint cancel_each (rows : list Series) : M unit :=
  match rows with
  | [] => ret tt
  | order :: rest =>
      cancel_order (series_get order (PStr "account_name") (PStr ""))
                   (series_get order (PStr "connector_name") (PStr ""))
                   (series_get order (PStr "client_order_id") (PStr "")) ;;
      cancel_each rest
  end.

Definition render_orders_table (l : nat) : M unit :=
  orders_data <- load l ;;
  if negb (truthy orders_data) then ui st_info "No active orders found." []
  else
    df <- lift (pd_DataFrame orders_data) ;;
    if df_empty df then ui st_info "No active orders found." []
    else
      ui st_subheader "Active Orders" [] ;;
      let disabled :=
        filter (fun col => negb (py_eq col (PStr "cancel"))) (df_columns df) in
      ui st_data_editor "orders_editor" (map FVal disabled) ;;
      let edited_df := orders_editor df in
      if existsb (fun col => same_or_eq col (PStr "cancel")) (df_columns edited_df)
      then
        selected_orders <- lift (df_where edited_df (PStr "cancel")) ;;
        if negb (df_empty selected_orders) then
          ui st_button "Cancel Selected ({}) Orders"
             [FVal (PInt (df_len selected_orders))] ;;
          if cancel_clicked then
            ui st_spinner "Cancelling orders..." [] ;;
            cancel_each (df_iterrows selected_orders) ;;
            st_rerun
          else ret tt
        else ret tt
      else ret tt.

Definition render_order_history_table (l : nat) : M unit :=
  order_history <- load l ;;
  if negb (truthy order_history) then ui st_info "No order history found." []
  else
    df <- lift (pd_DataFrame order_history) ;;
    if df_empty df then ui st_info "No order history found." []
    else
      ui st_subheader "Order History" [] ;;
      ui st_dataframe "order_history" [].

Definition render_balances_table : M unit :=
  balances <- get_balances ;;
  if negb (truthy balances) then ui st_info "No balances found." []
  else
    df <- lift (pd_DataFrame balances) ;;
    if df_empty df then ui st_info "No balances found." []
    else
      st <- get_session ;;
      ui st_subheader "Account Balances - " [FVal (selected_account st)] ;;
      total_value <- lift (df_sum df (PStr "value")) ;;
      shown <- lift (py_format total_value ",.2f") ;;
      ui st_metric "Total Portfolio Value" [FVal (PStr shown)] ;;
      ui st_dataframe "balances" [].

(** ** Trade execution

    The block under "Execute Trade": the widgets' values come in as
    [wd]. *)
Definition execute_trade (wd : trade_widgets) : M unit :=
  st <- get_session ;;
  if truthy (selected_account st) && truthy (selected_connector st) then
    let amount := order_amount wd in
    let price :=
      if String.eqb (order_type wd) "limit" then PFloat (order_price wd) else PNone in
    (ui st_button "Place Order" [] ;;
     if place_clicked wd then
       if SFltb (float_of_int 0) amount then
         trading_pair <- lift (py_getitem (selected_market st) (PStr "trading_pair")) ;;
         let order_data :=
           [(PStr "account_name", selected_account st);
            (PStr "connector_name", selected_connector st);
            (PStr "trading_pair", trading_pair);
            (PStr "order_type", PStr (order_type wd));
            (PStr "trade_type", PStr (order_side wd));
            (PStr "amount", PFloat amount)] in
         let order_data :=
           if String.eqb (order_type wd) "limit" && truthy price
           then dict_put (PStr "price") price order_data
           else order_data in
         place_order (PDict order_data) ;;
         ret tt
       else ui st_error "Please enter a valid amount" []
     else ret tt) ;;
    trading_pair <- lift (py_getitem (selected_market st) (PStr "trading_pair")) ;;
    ui st_info "Trading on {} with {}"
       [FVal (selected_connector st); FVal trading_pair]
  else
    ui st_warning "Please select an account and exchange to execute trades" [].

End Page.

Arguments backend_state {B} w.
Arguments session {B} w.
Arguments objects {B} w.
Arguments ticks {B} w.
Arguments trace {B} w.
Arguments mk_world {B} backend_state session objects ticks trace.
Arguments ret {B A} a w.
Arguments bind {B A C} m k w.
Arguments lift {B A} r w.
Arguments try_except {B A} body handler w.
Arguments emit {B} ev w.
Arguments call {B} backend rq w.
Arguments get_session {B} w.
Arguments load {B} l w.
Arguments ui {B} kind text args w.
Arguments st_rerun {B} w.
Arguments cancel_each {B} backend {pandas} rows w.
Arguments fetch_credentials {B} backend accounts credentials_list w.
Arguments get_accounts_and_credentials {B} backend w.
Arguments get_candles_connectors {B} backend w.
Arguments get_positions {B} backend w.
Arguments get_active_orders {B} backend w.
Arguments get_order_history {B} backend w.
Arguments get_market_data {B} backend clock
  connector trading_pair interval max_records candles_connector w.
Arguments place_order {B} backend order_data w.
Arguments cancel_order {B} backend account_name connector_name order_id w.
Arguments get_balances {B} backend w.
Arguments render_positions_table {B pandas} l w.
Arguments render_orders_table {B} backend {pandas} orders_editor cancel_clicked l w.
Arguments render_order_history_table {B pandas} l w.
Arguments render_balances_table {B} backend {pandas} w.
Arguments execute_trade {B} backend wd w.

(** ** Vocabulary of the properties *)

(** A result that is no script-control signal. *)
Definition no_ctl {A} (r : result A) : Prop :=
  match r with
  | Ctl _ => False
  | _ => True
  end.

(** What a run added to the trace. *)
Definition new_events {B} (before after : world B) : list event :=
  skipn (List.length (trace before)) (trace after).

(** The answer of the backend, in state [b], to request [rq]. *)
Definition answer {B} (backend : B -> request -> outcome * B) (b : B) (rq : request)
  : outcome := fst (backend b rq).

(** The normal form of a list-or-envelope response, in the words of the
    page's description: a list stands for itself, a dict whose "status" is
    "success" stands for its "data" (the empty list when it has none),
    anything else for the empty list. *)
Definition normalize_response (r : pyval) : pyval :=
  match r with
  | PList _ => r
  | PDict d =>
      match dict_lookup (PStr "status") d with
      | Some status =>
          if py_eq status (PStr "success") then
            match dict_lookup (PStr "data") d with
            | Some data => data
            | None => PList []
            end
          else PList []
      | None => PList []
      end
  | _ => PList []
  end.

(** The world after a run that moved the backend to [b'] and added [evs]
    to the trace. *)
Definition advance {B} (w : world B) (b' : B) (evs : list event) : world B :=
  mk_world b' (session w) (objects w) (ticks w) (trace w ++ evs)%list.

(** *** Market data *)

(** The candles [get_market_data] ends up with, given the answer to its
    candles request. *)
Definition candles_of_answer (o : outcome) : pyval :=
  match o with
  | Return r => normalize_response r
  | Raise _ => PList []
  end.

(** The key and the value a dict element of a list price response
    contributes. *)
Definition price_entry (item : pyval) : pyval * pyval :=
  match item with
  | PDict d =>
      (match dict_lookup (PStr "trading_pair") d with
       | Some name => name
       | None => PStr "unknown"
       end,
       match dict_lookup (PStr "price") d with
       | Some price => price
       | None => PInt 0
       end)
  | _ => (PNone, PNone)
  end.

Definition price_entries (items : list pyval) : list (pyval * pyval) :=
  map price_entry (filter isinstance_dict items).

Definition put_entry (d : list (pyval * pyval)) (kv : pyval * pyval)
  : list (pyval * pyval) := dict_put (fst kv) (snd kv) d.

(** The first key among [entries] that cannot be hashed. *)
Definition first_unhashable (entries : list (pyval * pyval)) : option pyval :=
  find (fun k => negb (hashable k)) (map fst entries).

(** The prices a dict response stands for: its "data" when its "status"
    is "success"; else its "prices" field when it has one; else the
    response itself. *)
Definition prices_of_dict (d : list (pyval * pyval)) : pyval :=
  let otherwise :=
    match dict_lookup (PStr "prices") d with
    | Some prices => prices
    | None => PDict d
    end in
  match dict_lookup (PStr "status") d with
  | Some status =>
      if py_eq status (PStr "success") then
        match dict_lookup (PStr "data") d with
        | Some data => data
        | None => PDict []
        end
      else otherwise
  | None => otherwise
  end.

(** The prices [get_market_data] ends up with, given the answer to its
    prices request. *)
Definition prices_of_answer (o : outcome) : pyval :=
  match o with
  | Return (PDict d) => prices_of_dict d
  | Return (PList items) =>
      match first_unhashable (price_entries items) with
      | None => PDict (fold_left put_entry (price_entries items) [])
      | Some _ => PDict []
      end
  | Return _ => PDict []
  | Raise _ => PDict []
  end.

(** The exception, if any, that the prices block of [get_market_data]
    catches. *)
Definition prices_failure (o : outcome) : option exn :=
  match o with
  | Raise e => Some e
  | Return (PList items) =>
      match first_unhashable (price_entries items) with
      | Some k => Some (unhashable k)
      | None => None
      end
  | Return _ => None
  end.

Definition candles_failure (o : outcome) : option exn :=
  match o with
  | Raise e => Some e
  | Return _ => None
  end.

Definition warning_of (text : string) (failure : option exn) : list event :=
  match failure with
  | Some e => [Ui st_warning text [FExn e]]
  | None => []
  end.

(** The prices as the page's description has them: three shapes and
    nothing else. *)
Definition prices_of_three_shapes (r : pyval) : pyval :=
  match r with
  | PList items =>
      match first_unhashable (price_entries items) with
      | None => PDict (fold_left put_entry (price_entries items) [])
      | Some _ => PDict []
      end
  | PDict d =>
      match dict_lookup (PStr "status") d with
      | Some status =>
          if py_eq status (PStr "success") then
            match dict_lookup (PStr "data") d with
            | Some data => data
            | None => PDict []
            end
          else
            match dict_lookup (PStr "prices") d with
            | Some prices => prices
            | None => PDict []
            end
      | None =>
          match dict_lookup (PStr "prices") d with
          | Some prices => prices
          | None => PDict []
          end
      end
  | _ => PDict []
  end.

(** The session after [get_market_data], called when the clock had been
    read [n] times, has done its bookkeeping. *)
Definition session_after_fetch (clock : nat -> spec_float) (n : nat)
    (s : session_state) : session_state :=
  set_last_fetch_timestamp (PFloat (clock (S (S n))))
    (set_last_fetch_time
       (PFloat (float_mul (float_sub (clock (S n)) (clock n)) (float_of_int 1000)))
       s).

(** The requests [get_market_data] sends. *)
Definition candles_request
    (connector trading_pair interval max_records candles_connector : pyval) : request :=
  GetCandles (if truthy candles_connector then candles_connector else connector)
             trading_pair interval max_records.

Definition prices_request (connector trading_pair : pyval) : request :=
  GetPrices connector (PList [trading_pair]).

(** Whether a response is a dict whose "status" equals "success". *)
Definition status_is_success (r : pyval) : bool :=
  match r with
  | PDict d =>
      match dict_lookup (PStr "status") d with
      | Some status => py_eq status (PStr "success")
      | None => false
      end
  | _ => false
  end.

(** Whether some backend request among [evs] raised. *)
Definition raised_in (evs : list event) : bool :=
  existsb (fun ev => match ev with
                     | Request _ (Raise _) => true
                     | _ => false
                     end) evs.

(** *** Order actions *)

(** A field of a dict response, [default] when it is missing. *)
Definition field_or (default : pyval) (name : string) (d : list (pyval * pyval)) : pyval :=
  match dict_lookup (PStr name) d with
  | Some x => x
  | None => default
  end.

(** Whether the backend accepted an order action. *)
Definition accepted (o : outcome) : bool :=
  match o with
  | Return r => status_is_success r
  | Raise _ => false
  end.

(** What [place_order] and [cancel_order] tell the user about the answer
    they got: [on_success] when it reports success, an error otherwise. *)
Definition order_feedback (failure : string) (on_success : list (pyval * pyval) -> event)
    (o : outcome) : event :=
  match o with
  | Raise e => Ui st_error failure [FExn e]
  | Return (PDict d) =>
      if status_is_success (PDict d) then on_success d
      else Ui st_error failure [FVal (field_or (PStr "Unknown error") "message" d)]
  | Return r => Ui st_error failure [FExn (no_attribute r "get")]
  end.

Definition order_placed (d : list (pyval * pyval)) : event :=
  Ui st_success "Order placed successfully! Order ID: "
     [FVal (field_or PNone "order_id" d)].

Definition order_cancelled (order_id : pyval) (d : list (pyval * pyval)) : event :=
  Ui st_success "Order {} cancelled successfully!" [FVal order_id].

(** The requests among the events of a run. *)
Definition requests_of (evs : list event) : list request :=
  flat_map (fun ev => match ev with
                      | Request rq _ => [rq]
                      | Ui _ _ _ => []
                      end) evs.

(** The messages among the events of a run. *)
Definition messages_of (evs : list event) : list event := filter is_message evs.

(** *** Balances *)

(** What [get_balances] makes of the portfolio state [r] it was handed,
    for the selected [account]. *)
Definition balances_of_state (account r : pyval) : result (list pyval) :=
  present <~ py_contains account r ;;
  if present : bool then
    exchanges <~ py_getitem r account ;;
    items <~ py_items exchanges ;;
    balances_of_exchanges items []
  else Ok [].

(** A field of a token record, [None] when it is missing. *)
Definition token_field (name : string) (token_info : pyval) : pyval :=
  match token_info with
  | PDict d => field_or PNone name d
  | _ => PNone
  end.

(** The balance record of one token of one exchange, in the words of the
    page's description. *)
Definition balance_record (exchange token_info : pyval) : pyval :=
  PDict [(PStr "exchange", exchange);
         (PStr "token", token_field "token" token_info);
         (PStr "total", token_field "units" token_info);
         (PStr "available", token_field "available_units" token_info);
         (PStr "price", token_field "price" token_info);
         (PStr "value", token_field "value" token_info)].

Definition has_field (d : list (pyval * pyval)) (name : string) : bool :=
  match dict_lookup (PStr name) d with
  | Some _ => true
  | None => false
  end.

(** A token record: a dict with the five fields the page reads. *)
Definition is_token_record (token_info : pyval) : bool :=
  match token_info with
  | PDict d =>
      forallb (has_field d) ["token"; "units"; "available_units"; "price"; "value"]
  | _ => false
  end.

(** The tokens listed under an exchange. *)
Definition tokens_of (tokens : pyval) : list pyval :=
  match tokens with
  | PList token_infos => token_infos
  | _ => []
  end.

(** An entry of an account: an exchange with its list of token records. *)
Definition is_exchange_entry (entry : pyval * pyval) : bool :=
  match snd entry with
  | PList token_infos => forallb is_token_record token_infos
  | _ => false
  end.

(** One balance record per (exchange, token) entry, in order. *)
Definition expected_balances (exchanges : list (pyval * pyval)) : list pyval :=
  flat_map (fun entry => map (balance_record (fst entry)) (tokens_of (snd entry)))
           exchanges.

(** The token entries the loop goes through under an exchange: the
    elements of a list, and also the keys of a dict or the characters of a
    string, which a [for] accepts as well. *)
Definition token_entries (tokens : pyval) : list pyval :=
  match py_iter tokens with
  | Ok token_infos => token_infos
  | _ => []
  end.

(** An exchange whose tokens can be gone through and are token records,
    every one of them. *)
Definition lists_token_records (entry : pyval * pyval) : bool :=
  match py_iter (snd entry) with
  | Ok token_infos => forallb is_token_record token_infos
  | _ => false
  end.

Definition balances_of_entries (exchanges : list (pyval * pyval)) : list pyval :=
  flat_map (fun entry => map (balance_record (fst entry)) (token_entries (snd entry)))
           exchanges.

(** The balances in the words of the page's description, for the selected
    [account] and the response [r]: nothing when the account is not in
    the response, one record per (exchange, token) entry when the account
    maps to a dict of exchanges that all list token records, and [None],
    for the cases in which the page gives up, otherwise. *)
Definition listed_balances (account r : pyval) : option (list pyval) :=
  match py_contains account r with
  | Ok false => Some []
  | Ok true =>
      match py_getitem r account with
      | Ok (PDict exchanges) =>
          if forallb lists_token_records exchanges
          then Some (balances_of_entries exchanges)
          else None
      | _ => None
      end
  | _ => None
  end.

(** *** What a run may touch *)

Definition event_allowed (allowed : request -> bool) (ev : event) : bool :=
  match ev with
  | Request rq _ => allowed rq
  | Ui _ _ _ => true
  end.

(** From [w] to [w'] the objects stayed as they were, and every request
    sent in between is an [allowed] one. *)
Definition keeps {B} (allowed : request -> bool) (w w' : world B) : Prop :=
  objects w' = objects w /\
  exists evs, trace w' = (trace w ++ evs)%list /\
              forallb (event_allowed allowed) evs = true.

Definition respects {B A} (allowed : request -> bool) (m : M B A) : Prop :=
  forall w, keeps allowed w (snd (m w)).

Definition no_request (rq : request) : bool := false.

Definition is_cancel (rq : request) : bool :=
  match rq with CancelOrder _ _ _ => true | _ => false end.

Definition is_place (rq : request) : bool :=
  match rq with PlaceOrder _ => true | _ => false end.

Definition is_get_state (rq : request) : bool :=
  match rq with GetState _ => true | _ => false end.

(** *** Trade execution *)

(** The keyword arguments the trade block hands to [place_order]: the
    session's account and connector, the market's trading pair, and the
    widgets' values; the price goes along for a limit order with a
    non-zero price. *)
Definition forwarded_order (s : session_state) (trading_pair : pyval)
    (wd : trade_widgets) : list (string * pyval) :=
  ([("account_name", selected_account s);
    ("connector_name", selected_connector s);
    ("trading_pair", trading_pair);
    ("order_type", PStr (order_type wd));
    ("trade_type", PStr (order_side wd));
    ("amount", PFloat (order_amount wd))] ++
   (if String.eqb (order_type wd) "limit" && truthy (PFloat (order_price wd))
    then [("price", PFloat (order_price wd))]
    else []))%list.

(** [amount > 0] *)
Definition positive (amount : spec_float) : bool := SFltb (float_of_int 0) amount.

(** ** Examples to run the page on *)

(** A backend without state, answering by a table. *)
Definition scripted (answers : request -> outcome) : unit -> request -> outcome * unit :=
  fun _ rq => (answers rq, tt).

(** The world of a fresh session. *)
Definition fresh_world : world unit := mk_world tt initial_session [] 0%nat [].

Definition frozen_clock : nat -> spec_float := fun _ => S754_zero false.

Definition success_envelope (data : pyval) : pyval :=
  PDict [(PStr "status", PStr "success"); (PStr "data", data)].

(** A price response that is neither a list nor an envelope. *)
Definition direct_prices : pyval := PDict [(PStr "BTC-USDT", PInt 50000)].

(** A backend whose candles feed is down. *)
Definition candles_down (rq : request) : outcome :=
  match rq with
  | GetCandles _ _ _ _ => Raise (Raised "ConnectionError" "candles feed unavailable")
  | _ => Return direct_prices
  end.

(** A list price response whose only element names its pair by a list. *)
Definition pair_as_list : list pyval :=
  [PDict [(PStr "trading_pair", PList [PStr "BTC"; PStr "USDT"]);
          (PStr "price", PInt 1)]].

Definition market_data_example {B} (backend : B -> request -> outcome * B)
    (w : world B) : result (pyval * pyval) * world B :=
  get_market_data backend frozen_clock
    (PStr "binance") (PStr "BTC-USDT") (PStr "1m") (PInt 100) PNone w.

(** A portfolio state with one account holding two tokens on one exchange
    and one on another. *)
Definition token_record (token : string) (units available price value : Z) : pyval :=
  PDict [(PStr "token", PStr token); (PStr "units", PInt units);
         (PStr "available_units", PInt available);
         (PStr "price", PInt price); (PStr "value", PInt value)].

Definition sample_exchanges : list (pyval * pyval) :=
  [(PStr "binance", PList [token_record "BTC" 2 1 50000 100000;
                           token_record "USDT" 500 500 1 500]);
   (PStr "kucoin", PList [token_record "ETH" 3 3 2000 6000])].

Definition sample_portfolio : pyval :=
  PDict [(PStr "master_account", PDict sample_exchanges)].

Definition with_account {B} (account : pyval) (w : world B) : world B :=
  mk_world (backend_state w)
    (mk_session account (selected_connector (session w))
       (selected_market (session w)) (candles_connector (session w))
       (auto_refresh_enabled (session w)) (chart_interval (session w))
       (max_candles (session w)) (last_fetch_time (session w))
       (last_fetch_timestamp (session w)))
    (objects w) (ticks w) (trace w).

Definition backend_down : unit -> request -> outcome * unit :=
  scripted (fun _ => Raise (Raised "ConnectionError" "backend unreachable")).

(** A small stand-in for pandas: a frame is the list of its records. *)
Definition records_of (data : pyval) : list pyval :=
  match data with
  | PList rows => rows
  | _ => []
  end.

Definition record_field (row key default : pyval) : pyval :=
  match row with
  | PDict d => match dict_lookup key d with
               | Some v => v
               | None => default
               end
  | _ => default
  end.

Definition record_keys (row : pyval) : list pyval :=
  match row with
  | PDict d => map fst d
  | _ => []
  end.

#[local] Instance record_frames : Pandas := {|
  DataFrame := list pyval;
  Series := pyval;
  pd_DataFrame := fun data => Ok (records_of data);
  df_empty := fun df => match df with [] => true | _ => false end;
  df_columns := fun df => flat_map record_keys df;
  df_where := fun df col => Ok (filter (fun row => truthy (record_field row col PNone)) df);
  df_len := fun df => Z.of_nat (List.length df);
  df_iterrows := fun df => df;
  series_get := record_field;
  df_sum := fun df col => Ok (PInt 0);
  py_format := fun v spec => Ok spec
|}.

(** Half a bitcoin, as a binary64. *)
Definition half : spec_float := S754_finite false 4503599627370496 (-53).

(** A session with an account and an exchange selected. *)
Definition trading_session : session_state :=
  mk_session (PStr "master_account") (PStr "binance")
    (PDict [(PStr "connector", PStr "binance"); (PStr "trading_pair", PStr "BTC-USDT")])
    PNone (PBool false) (PStr "1m") (PInt 100) None None.

Definition trading_world : world unit := mk_world tt trading_session [] 0%nat [].

Definition market_buy (amount : spec_float) : trade_widgets :=
  mk_trade_widgets "market" "buy" amount (S754_zero false) true.

(** ** More examples *)

(** A backend with two accounts, one exchange each. *)
Definition two_accounts (rq : request) : outcome :=
  match rq with
  | ListAccounts => Return (PList [PStr "master_account"; PStr "sub_account"])
  | ListCredentials (PStr "master_account") =>
      Return (PList [PDict [(PStr "connector_name", PStr "binance")]])
  | ListCredentials _ =>
      Return (PList [PDict [(PStr "connector_name", PStr "kucoin")]])
  | _ => Return PNone
  end.

(** A backend one of whose accounts is named by a list. *)
Definition account_as_list (rq : request) : outcome :=
  match rq with
  | ListAccounts => Return (PList [PStr "master_account"; PList [PStr "sub"]])
  | _ => Return (PList [])
  end.

(** A portfolio state one of whose token records has lost its "value". *)
Definition broken_exchanges : list (pyval * pyval) :=
  [(PStr "binance", PList [token_record "BTC" 2 1 50000 100000;
                           PDict [(PStr "token", PStr "USDT"); (PStr "units", PInt 500);
                                  (PStr "available_units", PInt 500);
                                  (PStr "price", PInt 1)]])].

Definition broken_portfolio : pyval :=
  PDict [(PStr "master_account", PDict broken_exchanges)].


(** Whether a run of an order action returned [True]. *)
Definition accepts {B} (run : result bool * world B) : bool :=
  match fst run with
  | Ok b => b
  | _ => false
  end.

(** The cancel request the orders table sends for a ticked row. *)
Definition cancel_request_of {pandas : Pandas} (order : Series) : request :=
  CancelOrder (series_get order (PStr "account_name") (PStr ""))
              (series_get order (PStr "connector_name") (PStr ""))
              (series_get order (PStr "client_order_id") (PStr "")).

(** Two active orders, both ticked for cancelling. *)
Definition two_ticked_orders : pyval :=
  PList [PDict [(PStr "client_order_id", PStr "o-1"); (PStr "cancel", PBool true);
                (PStr "account_name", PStr "master_account");
                (PStr "connector_name", PStr "binance")];
         PDict [(PStr "client_order_id", PStr "o-2"); (PStr "cancel", PBool true);
                (PStr "account_name", PStr "master_account");
                (PStr "connector_name", PStr "kucoin")]].

(** A backend that refuses every cancellation. *)
Definition refusing : unit -> request -> outcome * unit :=
  scripted (fun _ => Return (PDict [(PStr "status", PStr "error")])).

Definition limit_buy (amount price : spec_float) : trade_widgets :=
  mk_trade_widgets "limit" "buy" amount price true.

(** * The rest of the page *)

(** ** Session state as the script finds it

    Before anything else the script gives each of its seven session keys a
    value unless the key is there already.  Here the session is the bare
    dict; [session_of] reads it into the record the functions above work
    on. *)

(** [if name not in st.session_state: st.session_state[name] = default] *)
Definition setdefault (name : string) (default : pyval)
    (state : list (pyval * pyval)) : list (pyval * pyval) :=
  match dict_lookup (PStr name) state with
  | Some _ => state
  | None => dict_put (PStr name) default state
  end.

Definition initialize_session_state (state : list (pyval * pyval))
  : list (pyval * pyval) :=
  let state := setdefault "selected_account" PNone state in
  let state := setdefault "selected_connector" PNone state in
  let state :=
    setdefault "selected_market"
      (PDict [(PStr "connector", PStr "binance_perpetual");
              (PStr "trading_pair", PStr "BTC-USDT")]) state in
  let state := setdefault "candles_connector" PNone state in
  let state := setdefault "auto_refresh_enabled" (PBool false) state in
  let state := setdefault "chart_interval" (PStr "1m") state in
  setdefault "max_candles" (PInt 100) state.

(** The value the script's first lines give a key that has none. *)
Definition session_default (name : string) : option pyval :=
  if String.eqb "selected_account" name then Some PNone
  else if String.eqb "selected_connector" name then Some PNone
  else if String.eqb "selected_market" name then
    Some (PDict [(PStr "connector", PStr "binance_perpetual");
                 (PStr "trading_pair", PStr "BTC-USDT")])
  else if String.eqb "candles_connector" name then Some PNone
  else if String.eqb "auto_refresh_enabled" name then Some (PBool false)
  else if String.eqb "chart_interval" name then Some (PStr "1m")
  else if String.eqb "max_candles" name then Some (PInt 100)
  else None.

(** The session record of a session dict that has the seven keys. *)
Definition session_of (state : list (pyval * pyval)) : option session_state :=
  match dict_lookup (PStr "selected_account") state,
        dict_lookup (PStr "selected_connector") state,
        dict_lookup (PStr "selected_market") state,
        dict_lookup (PStr "candles_connector") state,
        dict_lookup (PStr "auto_refresh_enabled") state,
        dict_lookup (PStr "chart_interval") state,
        dict_lookup (PStr "max_candles") state with
  | Some account, Some connector, Some market, Some candles, Some refresh,
    Some interval, Some candles_max =>
      Some (mk_session account connector market candles refresh interval candles_max
              (dict_lookup (PStr "last_fetch_time") state)
              (dict_lookup (PStr "last_fetch_timestamp") state))
  | _, _, _, _, _, _, _ => None
  end.

(** ** The chart

    plotly is external too.  A figure is taken for what has been put into
    it: its traces, its annotations, and the layout settings it was
    updated with. *)

(** [try: body / except Exception as e: handler e], for code without
    effects. *)
Definition rtry {A} (body : result A) (handler : exn -> result A) : result A :=
  match body with
  | Exc e => handler e
  | other => other
  end.

(** [len(v)] *)
Definition py_len (v : pyval) : result pyval :=
  match v with
  | PList xs => Ok (PInt (Z.of_nat (List.length xs)))
  | PDict d => Ok (PInt (Z.of_nat (List.length d)))
  | PStr s => Ok (PInt (Z.of_nat (String.length s)))
  | _ => Exc (TypeError ("object of type '" ++ type_name v ++ "' has no len()"))
  end.

(** What the chart needs of pandas and plotly beyond the above. *)
Class Plotting {pandas : Pandas} : Type := {
  Column : Type;
  Trace : Type;
  (** [df[key]] *)
  df_column : DataFrame -> pyval -> result Column;
  (** [df.index] *)
  df_index : DataFrame -> Column;
  (** [pd.to_datetime(col, unit='s')] *)
  pd_to_datetime : Column -> result Column;
  (** [df] after [df[key] = col] *)
  df_assign : DataFrame -> pyval -> Column -> DataFrame;
  (** [go.Candlestick(x=, open=, high=, low=, close=, ...)] *)
  go_Candlestick : Column -> Column -> Column -> Column -> Column -> result Trace;
  (** [float(v)] *)
  py_float : pyval -> result pyval
}.

Section Chart.

Context {pandas : Pandas} {plotting : Plotting}.

Record figure : Type := mk_figure {
  fig_traces : list Trace;
  fig_annotations : list (string * list fmt_arg);
  fig_layout : list (pyval * pyval)
}.

(** [go.Figure()] *)
Definition go_Figure : figure := mk_figure [] [] [].

(** [fig.add_annotation(text=..., xref="paper", yref="paper", x=0.5, y=0.5,
    showarrow=False)] *)
Definition add_annotation (text : string) (args : list fmt_arg) (fig : figure) : figure :=
  mk_figure (fig_traces fig) (fig_annotations fig ++ [(text, args)])%list
            (fig_layout fig).

(** [fig.add_trace(trace)] *)
Definition add_trace (trace : Trace) (fig : figure) : figure :=
  mk_figure (fig_traces fig ++ [trace])%list (fig_annotations fig) (fig_layout fig).

(** [fig.update_layout], handed the layout as keyword arguments *)
Definition update_layout (layout : list (pyval * pyval)) (fig : figure) : figure :=
  mk_figure (fig_traces fig) (fig_annotations fig)
            (fold_left (fun d kv => dict_put (fst kv) (snd kv) d) layout (fig_layout fig)).

Definition get_default_layout (title height width : pyval) : list (pyval * pyval) :=
  let layout :=
    [(PStr "template", PStr "plotly_dark");
     (PStr "plot_bgcolor", PStr "rgba(0, 0, 0, 0)");
     (PStr "paper_bgcolor", PStr "rgba(0, 0, 0, 0.1)");
     (PStr "font", PDict [(PStr "color", PStr "white"); (PStr "size", PInt 12)]);
     (PStr "height", height);
     (PStr "width", width);
     (PStr "margin", PDict [(PStr "l", PInt 20); (PStr "r", PInt 20);
                            (PStr "t", PInt 50); (PStr "b", PInt 20)]);
     (PStr "xaxis_rangeslider_visible", PBool false);
     (PStr "hovermode", PStr "x unified");
     (PStr "showlegend", PBool false)] in
  if truthy title then dict_put (PStr "title") title layout else layout.

(** A figure that only says something: the chart's two fallbacks. *)
Definition note_figure (text : string) (args : list fmt_arg) : figure :=
  update_layout (get_default_layout PNone (PInt 600) (PInt 1100))
    (add_annotation text args go_Figure).

Definition in_columns (name : string) (df : DataFrame) : bool :=
  existsb (fun col => same_or_eq col (PStr name)) (df_columns df).

Definition create_candlestick_chart
    (candles_data connector_name trading_pair interval : pyval) : result figure :=
  if negb (truthy candles_data) then Ok (note_figure "No candle data available" [])
  else
    rtry
      (df <~ pd_DataFrame candles_data ;;
       if df_empty df then Ok go_Figure
       else
         df <~ (if in_columns "timestamp" df then
                  timestamps <~ df_column df (PStr "timestamp") ;;
                  datetimes <~ pd_to_datetime timestamps ;;
                  Ok (df_assign df (PStr "datetime") datetimes)
                else Ok df) ;;
         x <~ (if in_columns "datetime" df then df_column df (PStr "datetime")
               else Ok (df_index df)) ;;
         opens <~ df_column df (PStr "open") ;;
         highs <~ df_column df (PStr "high") ;;
         lows <~ df_column df (PStr "low") ;;
         closes <~ df_column df (PStr "close") ;;
         candlesticks <~ go_Candlestick x opens highs lows closes ;;
         let fig := add_trace candlesticks go_Figure in
         title <~ (if truthy connector_name then
                     connector_text <~ py_format connector_name "" ;;
                     pair_text <~ py_format trading_pair "" ;;
                     interval_text <~ py_format interval "" ;;
                     Ok (PStr (connector_text ++ ": " ++ pair_text ++
                               " (" ++ interval_text ++ ")"))
                   else Ok (PStr "Price Chart")) ;;
         Ok (update_layout (get_default_layout title (PInt 600) (PInt 1100)) fig))
      (fun e => Ok (note_figure "Error creating chart: " [FExn e])).

End Chart.

(** *** Where the chart can go wrong *)

Section ChartSteps.

Context {pandas : Pandas} {plotting : Plotting}.

(** The frame the trace is read from: the frame as it is, or, when it has
    a "timestamp" column, the frame with the converted timestamps stored
    as "datetime". *)
Inductive dated_frame (df : DataFrame) : DataFrame -> Prop :=
| frame_as_it_is :
    in_columns "timestamp" df = false -> dated_frame df df
| frame_with_datetimes (timestamps datetimes : Column) :
    in_columns "timestamp" df = true ->
    df_column df (PStr "timestamp") = Ok timestamps ->
    pd_to_datetime timestamps = Ok datetimes ->
    dated_frame df (df_assign df (PStr "datetime") datetimes).

(** The x axis of the trace: the "datetime" column, or the index of a
    frame that has none. *)
Inductive x_axis (df : DataFrame) : result Column -> Prop :=
| x_is_datetime :
    in_columns "datetime" df = true -> x_axis df (df_column df (PStr "datetime"))
| x_is_index :
    in_columns "datetime" df = false -> x_axis df (Ok (df_index df)).

(** The steps between the candle data and the figure, each of which may
    raise [e] once the steps before it have gone through: building the
    frame, reading and converting the timestamps, reading the x axis and
    the four price columns, making the trace, and formatting the three
    parts of the title. *)
Inductive chart_failure
    (candles_data connector_name trading_pair interval : pyval) (e : exn) : Prop :=
| frame_fails :
    pd_DataFrame candles_data = Exc e ->
    chart_failure candles_data connector_name trading_pair interval e
| timestamps_fail (df : DataFrame) :
    pd_DataFrame candles_data = Ok df -> df_empty df = false ->
    in_columns "timestamp" df = true ->
    df_column df (PStr "timestamp") = Exc e ->
    chart_failure candles_data connector_name trading_pair interval e
| conversion_fails (df : DataFrame) (timestamps : Column) :
    pd_DataFrame candles_data = Ok df -> df_empty df = false ->
    in_columns "timestamp" df = true ->
    df_column df (PStr "timestamp") = Ok timestamps ->
    pd_to_datetime timestamps = Exc e ->
    chart_failure candles_data connector_name trading_pair interval e
| x_axis_fails (df df' : DataFrame) :
    pd_DataFrame candles_data = Ok df -> df_empty df = false ->
    dated_frame df df' ->
    x_axis df' (Exc e) ->
    chart_failure candles_data connector_name trading_pair interval e
| open_fails (df df' : DataFrame) (x : Column) :
    pd_DataFrame candles_data = Ok df -> df_empty df = false ->
    dated_frame df df' ->
    x_axis df' (Ok x) ->
    df_column df' (PStr "open") = Exc e ->
    chart_failure candles_data connector_name trading_pair interval e
| high_fails (df df' : DataFrame) (x opens : Column) :
    pd_DataFrame candles_data = Ok df -> df_empty df = false ->
    dated_frame df df' ->
    x_axis df' (Ok x) ->
    df_column df' (PStr "open") = Ok opens ->
    df_column df' (PStr "high") = Exc e ->
    chart_failure candles_data connector_name trading_pair interval e
| low_fails (df df' : DataFrame) (x opens highs : Column) :
    pd_DataFrame candles_data = Ok df -> df_empty df = false ->
    dated_frame df df' ->
    x_axis df' (Ok x) ->
    df_column df' (PStr "open") = Ok opens ->
    df_column df' (PStr "high") = Ok highs ->
    df_column df' (PStr "low") = Exc e ->
    chart_failure candles_data connector_name trading_pair interval e
| close_fails (df df' : DataFrame) (x opens highs lows : Column) :
    pd_DataFrame candles_data = Ok df -> df_empty df = false ->
    dated_frame df df' ->
    x_axis df' (Ok x) ->
    df_column df' (PStr "open") = Ok opens ->
    df_column df' (PStr "high") = Ok highs ->
    df_column df' (PStr "low") = Ok lows ->
    df_column df' (PStr "close") = Exc e ->
    chart_failure candles_data connector_name trading_pair interval e
| trace_fails (df df' : DataFrame) (x opens highs lows closes : Column) :
    pd_DataFrame candles_data = Ok df -> df_empty df = false ->
    dated_frame df df' ->
    x_axis df' (Ok x) ->
    df_column df' (PStr "open") = Ok opens ->
    df_column df' (PStr "high") = Ok highs ->
    df_column df' (PStr "low") = Ok lows ->
    df_column df' (PStr "close") = Ok closes ->
    go_Candlestick x opens highs lows closes = Exc e ->
    chart_failure candles_data connector_name trading_pair interval e
| title_fails (df df' : DataFrame) (x opens highs lows closes : Column)
    (trace : Trace) :
    pd_DataFrame candles_data = Ok df -> df_empty df = false ->
    dated_frame df df' ->
    x_axis df' (Ok x) ->
    df_column df' (PStr "open") = Ok opens ->
    df_column df' (PStr "high") = Ok highs ->
    df_column df' (PStr "low") = Ok lows ->
    df_column df' (PStr "close") = Ok closes ->
    go_Candlestick x opens highs lows closes = Ok trace ->
    truthy connector_name = true ->
    (py_format connector_name "" = Exc e \/
     (exists connector_text,
         py_format connector_name "" = Ok connector_text /\
         (py_format trading_pair "" = Exc e \/
          exists pair_text,
            py_format trading_pair "" = Ok pair_text /\
            py_format interval "" = Exc e))) ->
    chart_failure candles_data connector_name trading_pair interval e.

End ChartSteps.

(** A session dict left by an earlier run, with an account selected. *)
Definition earlier_state : list (pyval * pyval) :=
  [(PStr "selected_account", PStr "master_account");
   (PStr "last_fetch_time", PInt 12)].

(** A stand-in for plotly and the column operations: a column is the list
    of its cells, a trace the five columns it was given. *)
Definition cells_of (key : pyval) (df : list pyval) : result (list pyval) :=
  if forallb (fun row => match row with
                         | PDict d => match dict_lookup key d with
                                      | Some _ => true
                                      | None => false
                                      end
                         | _ => false
                         end) df
  then Ok (map (fun row => record_field row key PNone) df)
  else Exc (KeyError key).

#[local] Instance record_plotting : @Plotting record_frames := {|
  Column := list pyval;
  Trace := list (list pyval);
  df_column := fun df key => cells_of key df;
  df_index := fun df => map (fun n => PInt (Z.of_nat n)) (seq 0 (List.length df));
  pd_to_datetime := fun col => Ok col;
  df_assign := fun df key col =>
    map (fun rc => match fst rc with
                   | PDict d => PDict (dict_put key (snd rc) d)
                   | other => other
                   end) (combine df col);
  go_Candlestick := fun x o h l c => Ok [x; o; h; l; c];
  py_float := fun v => Ok v
|}.

(** One candle. *)
Definition one_candle : pyval :=
  PList [PDict [(PStr "timestamp", PInt 1700000000); (PStr "open", PInt 1);
                (PStr "high", PInt 3); (PStr "low", PInt 1); (PStr "close", PInt 2)]].

(** A candle that has lost its "open". *)
Definition candle_without_open : pyval :=
  PList [PDict [(PStr "high", PInt 3); (PStr "low", PInt 1); (PStr "close", PInt 2)]].

(** ** The script around the functions

    What runs at the top level of the page on every rerun: the selection
    of account, exchange and market, the chart settings, the trade block
    and [show_trading_data]. *)

Arguments update_session {B} f w.
Arguments time_time {B} clock w.

Definition set_selected_account (v : pyval) (s : session_state) : session_state :=
  mk_session v (selected_connector s) (selected_market s) (candles_connector s)
    (auto_refresh_enabled s) (chart_interval s) (max_candles s)
    (last_fetch_time s) (last_fetch_timestamp s).

Definition set_selected_connector (v : pyval) (s : session_state) : session_state :=
  mk_session (selected_account s) v (selected_market s) (candles_connector s)
    (auto_refresh_enabled s) (chart_interval s) (max_candles s)
    (last_fetch_time s) (last_fetch_timestamp s).

Definition set_selected_market (v : pyval) (s : session_state) : session_state :=
  mk_session (selected_account s) (selected_connector s) v (candles_connector s)
    (auto_refresh_enabled s) (chart_interval s) (max_candles s)
    (last_fetch_time s) (last_fetch_timestamp s).

Definition set_candles_connector (v : pyval) (s : session_state) : session_state :=
  mk_session (selected_account s) (selected_connector s) (selected_market s) v
    (auto_refresh_enabled s) (chart_interval s) (max_candles s)
    (last_fetch_time s) (last_fetch_timestamp s).

Definition set_chart_interval (v : pyval) (s : session_state) : session_state :=
  mk_session (selected_account s) (selected_connector s) (selected_market s)
    (candles_connector s) (auto_refresh_enabled s) v (max_candles s)
    (last_fetch_time s) (last_fetch_timestamp s).

Definition set_max_candles (v : pyval) (s : session_state) : session_state :=
  mk_session (selected_account s) (selected_connector s) (selected_market s)
    (candles_connector s) (auto_refresh_enabled s) (chart_interval s) v
    (last_fetch_time s) (last_fetch_timestamp s).

(** The position of the first element of [xs] that equals [v]. *)
Fixpoint first_position (xs : list pyval) (v : pyval) : option nat :=
  match xs with
  | [] => None
  | x :: rest =>
      if same_or_eq x v then Some O
      else match first_position rest v with
           | Some n => Some (S n)
           | None => None
           end
  end.

(** The position of the first occurrence of [s] in [t]. *)
Fixpoint find_substring (s t : string) : option nat :=
  if String.prefix s t then Some O
  else match t with
       | EmptyString => None
       | String _ t' =>
           match find_substring s t' with
           | Some n => Some (S n)
           | None => None
           end
       end.

(** [xs.index(v)] *)
Definition py_index (xs v : pyval) : result pyval :=
  match xs with
  | PList items =>
      match first_position items v with
      | Some n => Ok (PInt (Z.of_nat n))
      | None => Exc (Raised "ValueError" "value is not in list")
      end
  | PStr t =>
      match v with
      | PStr s =>
          match find_substring s t with
          | Some n => Ok (PInt (Z.of_nat n))
          | None => Exc (Raised "ValueError" "substring not found")
          end
      | _ => Exc (TypeError "must be str")
      end
  | _ => Exc (no_attribute xs "index")
  end.

(** The double quote, which CPython puts round the type name below. *)
Definition double_quote : string := String "034"%char EmptyString.

(** [xs + ys], [xs] a list *)
Definition list_plus (xs : list pyval) (ys : pyval) : result pyval :=
  match ys with
  | PList items => Ok (PList (xs ++ items))
  | _ => Exc (TypeError ("can only concatenate list (not " ++ double_quote
                         ++ type_name ys ++ double_quote ++ ") to list"))
  end.

(** [[cred for cred in credentials
      if "BTC-USDT" in cred.get("trading_pairs", [])]] *)
Fixpoint btc_credentials_of (credentials : list pyval) : result (list pyval) :=
  match credentials with
  | [] => Ok []
  | cred :: rest =>
      pairs <~ py_get cred (PStr "trading_pairs") (PList []) ;;
      listed <~ py_contains (PStr "BTC-USDT") pairs ;;
      kept <~ btc_credentials_of rest ;;
      Ok (if listed : bool then cred :: kept else kept)
  end.

(** [[cred["connector_name"] for cred in credentials]] *)
Fixpoint connector_names_of (credentials : list pyval) : result (list pyval) :=
  match credentials with
  | [] => Ok []
  | cred :: rest =>
      name <~ py_getitem cred (PStr "connector_name") ;;
      names <~ connector_names_of rest ;;
      Ok (name :: names)
  end.

(** What the user has entered outside the trade block. *)
Record page_inputs : Type := mk_page_inputs {
  trading_pair_text : pyval;     (* text_input "Trading Pair" *)
  max_candles_value : pyval;     (* number_input "Max Candles" *)
  refresh_clicked : bool;        (* the "Refresh Data" button *)
  trade : trade_widgets
}.

Section Script.

Variable B : Type.
Variable backend : B -> request -> outcome * B.
Variable clock : nat -> spec_float.
Context {pandas : Pandas} {plotting : Plotting}.
Variable orders_editor : DataFrame -> DataFrame.
Variable cancel_clicked : bool.

(** [st.selectbox(label, options, index=index, key=key)]: Streamlit and
    the user decide what comes back. *)
Variable st_selectbox : string -> pyval -> pyval -> result pyval.

Notation "x <- m ;; k" := (bind m (fun x => k))
  (at level 61, m at next level, right associativity).
Notation "m ;; k" := (bind m (fun _ => k))
  (at level 61, right associativity).

Definition st_stop : M B unit := fun w => (Ctl Stop, w).

(** Handing a value on by reference: it becomes an object of its own. *)
Definition alloc (v : pyval) : M B nat :=
  fun w =>
    (Ok (List.length (objects w)),
     mk_world (backend_state w) (session w) (objects w ++ [v])%list
              (ticks w) (trace w)).

(** The "Account" column. *)
Definition select_account (accounts_list : pyval) : M B pyval :=
  if truthy accounts_list then
    st <- get_session ;;
    (match selected_account st with
     | PNone =>
         first <- lift (py_getitem accounts_list (PInt 0)) ;;
         update_session (set_selected_account first)
     | _ => ret tt
     end) ;;
    st <- get_session ;;
    present <- lift (py_contains (selected_account st) accounts_list) ;;
    index <- (if present : bool
              then lift (py_index accounts_list (selected_account st))
              else ret (PInt 0)) ;;
    selected <- lift (st_selectbox "account_selector" accounts_list index) ;;
    update_session (set_selected_account selected) ;;
    ret selected
  else
    ui st_error "No accounts found" [] ;;
    st_stop ;;
    ret PNone.

(** The "Exchange" column. *)
Definition select_connector (selected credentials_dict : pyval) : M B pyval :=
  available <-
    (if truthy selected then
       found <- lift (py_get credentials_dict selected PNone) ;;
       ret (truthy found)
     else ret false) ;;
  if available : bool then
    credentials <- lift (py_getitem credentials_dict selected) ;;
    creds <- lift (py_iter credentials) ;;
    btc_credentials <- lift (btc_credentials_of creds) ;;
    default_cred <-
      (match btc_credentials with
       | cred :: _ => ret cred
       | [] =>
           if truthy credentials then lift (py_getitem credentials (PInt 0))
           else ret PNone
       end) ;;
    if truthy default_cred then
      names <- lift (connector_names_of creds) ;;
      default_name <- lift (py_getitem default_cred (PStr "connector_name")) ;;
      index <- lift (py_index (PList names) default_name) ;;
      connector <- lift (st_selectbox "connector_selector" (PList names) index) ;;
      update_session (set_selected_connector connector) ;;
      ret connector
    else
      ui st_error "No credentials found for this account" [] ;;
      ret PNone
  else
    ui st_error "No credentials available" [] ;;
    ret PNone.

(** "Update selected market" *)
Definition update_selected_market (connector trading_pair : pyval) : M B unit :=
  if truthy connector && truthy trading_pair then
    update_session
      (set_selected_market
         (PDict [(PStr "connector", connector); (PStr "trading_pair", trading_pair)]))
  else ret tt.

(** The second row: interval, candles source, number of candles, and the
    refresh button. *)
Definition chart_settings (candles_connectors : pyval) (inp : page_inputs) : M B unit :=
  interval <-
    lift (st_selectbox "interval_selector"
            (PList [PStr "1m"; PStr "3m"; PStr "5m"; PStr "15m";
                    PStr "1h"; PStr "4h"; PStr "1d"])
            (PInt 0)) ;;
  update_session (set_chart_interval interval) ;;
  (if truthy candles_connectors then
     candles_options <- lift (list_plus [PStr "Same as trading"] candles_connectors) ;;
     selected_candles <-
       lift (st_selectbox "candles_connector_selector" candles_options (PInt 0)) ;;
     update_session
       (set_candles_connector
          (if py_eq selected_candles (PStr "Same as trading") then PNone
           else selected_candles))
   else update_session (set_candles_connector PNone)) ;;
  update_session (set_max_candles (max_candles_value inp)) ;;
  ui st_button "Refresh Data" [] ;;
  if refresh_clicked inp then st_rerun else ret tt.

Definition show_trading_data : M B unit :=
  st <- get_session ;;
  connector <- lift (py_get (selected_market st) (PStr "connector") PNone) ;;
  trading_pair <- lift (py_get (selected_market st) (PStr "trading_pair") PNone) ;;
  let interval := chart_interval st in
  let max_candles := max_candles st in
  let candles_connector := candles_connector st in
  if negb (truthy connector) || negb (truthy trading_pair) then
    ui st_warning "Please select an account and trading pair" []
  else
    market <- get_market_data backend clock connector trading_pair interval
                max_candles candles_connector ;;
    let candles := fst market in
    let prices := snd market in
    quoted <- (if truthy prices then lift (py_contains trading_pair prices)
               else ret false) ;;
    (if quoted : bool then
       current_price <- lift (py_getitem prices trading_pair) ;;
       as_float <- lift (py_float current_price) ;;
       shown <- lift (py_format as_float ",.2f") ;;
       ui st_metric "{} Price" [FVal trading_pair; FVal (PStr shown)]
     else ui st_metric "{} Price" [FVal trading_pair; FVal (PStr "Loading...")]) ;;
    ui st_metric "Interval" [FVal interval] ;;
    (if truthy candles then
       count <- lift (py_len candles) ;;
       ret tt
     else ret tt) ;;
    st <- get_session ;;
    (match last_fetch_time st with
     | Some fetch_time =>
         shown <- lift (py_format fetch_time ".0f") ;;
         ui st_metric "Fetch Time" [FVal (PStr shown)]
     | None => ret tt
     end) ;;
    let candles_source :=
      if truthy candles_connector then candles_connector else connector in
    fig <- lift (create_candlestick_chart candles candles_source trading_pair
                                          interval) ;;
    positions <- get_positions backend ;;
    orders <- get_active_orders backend ;;
    order_history <- get_order_history backend ;;
    render_balances_table backend ;;
    positions_ref <- alloc positions ;;
    render_positions_table positions_ref ;;
    orders_ref <- alloc orders ;;
    render_orders_table backend orders_editor cancel_clicked orders_ref ;;
    history_ref <- alloc order_history ;;
    render_order_history_table history_ref.

(** One run of the script, from the fetching of the accounts on. *)
Definition run_page (inp : page_inputs) : M B unit :=
  fetched <- get_accounts_and_credentials backend ;;
  let accounts_list := fst fetched in
  let credentials_dict := snd fetched in
  candles_connectors <- get_candles_connectors backend ;;
  ui st_subheader "Account & Market Selection" [] ;;
  selected <- select_account accounts_list ;;
  connector <- select_connector selected credentials_dict ;;
  update_selected_market connector (trading_pair_text inp) ;;
  chart_settings candles_connectors inp ;;
  ui st_subheader "Execute Trade" [] ;;
  execute_trade backend (trade inp) ;;
  show_trading_data.

End Script.

Arguments st_stop {B} w.
Arguments alloc {B} v w.
Arguments select_account {B} st_selectbox accounts_list w.
Arguments select_connector {B} st_selectbox selected credentials_dict w.
Arguments update_selected_market {B} connector trading_pair w.
Arguments chart_settings {B} st_selectbox candles_connectors inp w.
Arguments show_trading_data {B} backend clock {pandas plotting}
  orders_editor cancel_clicked w.
Arguments run_page {B} backend clock {pandas plotting}
  orders_editor cancel_clicked st_selectbox inp w.

(** ** More vocabulary *)

(** The session with another selected account, by hand. *)
Definition with_session {B} (s : session_state) (w : world B) : world B :=
  mk_world (backend_state w) s (objects w) (ticks w) (trace w).

(** The account the "Account" column starts from: the one remembered in
    the session, or the first of the list when none is. *)
Definition remembered_account (s : session_state) (first : pyval) : pyval :=
  match selected_account s with
  | PNone => first
  | account => account
  end.

(** A selectbox whose user leaves every box at its default. *)
Definition untouched (key : string) (options index : pyval) : result pyval :=
  py_getitem options index.

(** *** Credentials *)






(** *** What the display may touch *)

(** From [w] to [w'] the objects that were there stayed as they were (new
    ones may have come), and every request sent in between is an
    [allowed] one. *)
Definition grows {B} (allowed : request -> bool) (w w' : world B) : Prop :=
  (exists added, objects w' = (objects w ++ added)%list) /\
  exists evs, trace w' = (trace w ++ evs)%list /\
              forallb (event_allowed allowed) evs = true.

Definition obeys {B A} (allowed : request -> bool) (m : M B A) : Prop :=
  forall w, grows allowed w (snd (m w)).

(** The requests that only read, and the cancellation. *)
Definition reads_or_cancels (rq : request) : bool :=
  match rq with
  | PlaceOrder _ => false
  | _ => true
  end.

(** The requests that fetch accounts, credentials and candles feeds. *)
Definition lists_only (rq : request) : bool :=
  match rq with
  | ListAccounts | ListCredentials _ | GetAvailableCandlesFeed => true
  | _ => false
  end.

Definition intervals : pyval :=
  PList [PStr "1m"; PStr "3m"; PStr "5m"; PStr "15m"; PStr "1h"; PStr "4h"; PStr "1d"].

(** Page inputs with nothing pressed. *)
Definition idle_inputs : page_inputs :=
  mk_page_inputs (PStr "BTC-USDT") (PInt 100) false
    (mk_trade_widgets "market" "buy" (S754_zero false) (S754_zero false) false).

(** * Properties *)

Ltac run_page :=
  unfold try_except, bind, call, lift, ret, ui, emit, advance; simpl.

Lemma new_events_advance {B} (w : world B) (b' : B) (evs : list event) :
  new_events w (advance w b' evs) = evs.
Proof.
  unfold new_events, advance; simpl.
  induction (trace w) as [|ev t IH]; simpl; auto.
Qed.

Section Fetchers.

Variable B : Type.
Variable backend : B -> request -> outcome * B.

(** A run of [get_positions], in full. *)
Lemma get_positions_run (w : world B) :
  get_positions backend w =
  let rq := GetPositions (PInt 100) in
  match backend (backend_state w) rq with
  | (Return r, b') =>
      (Ok (normalize_response r), advance w b' [Request rq (Return r)])
  | (Raise e, b') =>
      (Ok (PList []),
       advance w b' [Request rq (Raise e);
                     Ui st_error "Failed to fetch positions: " [FExn e]])
  end.
Proof.
  unfold get_positions. run_page.
  destruct (backend (backend_state w) (GetPositions (PInt 100))) as [[r|e] b'].
  - destruct r; simpl; try reflexivity.
    unfold dict_lookup.
    destruct (assoc_find (PStr "status") kvs) as [st|]; simpl; [|reflexivity].
    destruct (py_eq st (PStr "success")); reflexivity.
  - simpl. rewrite <- app_assoc. reflexivity.
Qed.

Lemma get_active_orders_run (w : world B) :
  get_active_orders backend w =
  let rq := GetActiveOrders (PInt 100) in
  match backend (backend_state w) rq with
  | (Return r, b') =>
      (Ok (normalize_response r), advance w b' [Request rq (Return r)])
  | (Raise e, b') =>
      (Ok (PList []),
       advance w b' [Request rq (Raise e);
                     Ui st_error "Failed to fetch active orders: " [FExn e]])
  end.
Proof.
  unfold get_active_orders. run_page.
  destruct (backend (backend_state w) (GetActiveOrders (PInt 100))) as [[r|e] b'].
  - destruct r; simpl; try reflexivity.
    unfold dict_lookup.
    destruct (assoc_find (PStr "status") kvs) as [st|]; simpl; [|reflexivity].
    destruct (py_eq st (PStr "success")); reflexivity.
  - simpl. rewrite <- app_assoc. reflexivity.
Qed.

Lemma get_order_history_run (w : world B) :
  get_order_history backend w =
  let rq := GetOrders (PInt 50) in
  match backend (backend_state w) rq with
  | (Return r, b') =>
      (Ok (normalize_response r), advance w b' [Request rq (Return r)])
  | (Raise e, b') =>
      (Ok (PList []), advance w b' [Request rq (Raise e)])
  end.
Proof.
  unfold get_order_history. run_page.
  destruct (backend (backend_state w) (GetOrders (PInt 50))) as [[r|e] b'].
  - destruct r; simpl; try reflexivity.
    unfold dict_lookup.
    destruct (assoc_find (PStr "status") kvs) as [st|]; simpl; [|reflexivity].
    destruct (py_eq st (PStr "success")); reflexivity.
  - reflexivity.
Qed.

(** C1. Whatever response [r] the backend hands back, [get_positions],
    [get_active_orders] and [get_order_history] all return the same
    normal form of it: [r] itself when [r] is a list; the "data" field of
    [r] (the empty list when there is none) when [r] is a dict whose
    "status" equals "success"; the empty list in every other case. *)
Theorem responses_normalized_alike (w : world B) (r : pyval) :
  (answer backend (backend_state w) (GetPositions (PInt 100)) = Return r ->
   fst (get_positions backend w) = Ok (normalize_response r)) /\
  (answer backend (backend_state w) (GetActiveOrders (PInt 100)) = Return r ->
   fst (get_active_orders backend w) = Ok (normalize_response r)) /\
  (answer backend (backend_state w) (GetOrders (PInt 50)) = Return r ->
   fst (get_order_history backend w) = Ok (normalize_response r)) /\
  (isinstance_list r = true -> normalize_response r = r) /\
  (forall d status,
      r = PDict d ->
      dict_lookup (PStr "status") d = Some status ->
      py_eq status (PStr "success") = true ->
      normalize_response r =
      match dict_lookup (PStr "data") d with
      | Some data => data
      | None => PList []
      end) /\
  (isinstance_list r = false ->
   (forall d status,
       r = PDict d ->
       dict_lookup (PStr "status") d = Some status ->
       py_eq status (PStr "success") = false) ->
   normalize_response r = PList []).
Proof.
  unfold answer.
  repeat split.
  - intros H. rewrite get_positions_run. simpl.
    destruct (backend (backend_state w) (GetPositions (PInt 100))) as [o b'].
    simpl in H. subst o. reflexivity.
  - intros H. rewrite get_active_orders_run. simpl.
    destruct (backend (backend_state w) (GetActiveOrders (PInt 100))) as [o b'].
    simpl in H. subst o. reflexivity.
  - intros H. rewrite get_order_history_run. simpl.
    destruct (backend (backend_state w) (GetOrders (PInt 50))) as [o b'].
    simpl in H. subst o. reflexivity.
  - destruct r; simpl; intros; try discriminate; reflexivity.
  - intros d status -> Hs He. simpl. rewrite Hs, He. reflexivity.
  - intros Hl Hd. destruct r; simpl in *; try reflexivity; try discriminate.
    destruct (dict_lookup (PStr "status") kvs) as [st|] eqn:Hs; [|reflexivity].
    rewrite (Hd kvs st eq_refl Hs). reflexivity.
Qed.

End Fetchers.

Lemma responses_normalized_alike_witness :
  let backend := scripted (fun _ => Return (success_envelope (PList [PInt 7]))) in
  fst (get_positions backend fresh_world) = Ok (PList [PInt 7]) /\
  fst (get_active_orders backend fresh_world) = Ok (PList [PInt 7]) /\
  fst (get_order_history backend fresh_world) = Ok (PList [PInt 7]).
Proof.
  intros backend.
  pose proof (responses_normalized_alike unit backend fresh_world
                (success_envelope (PList [PInt 7]))) as (H1 & H2 & H3 & _).
  split; [|split].
  - apply H1. reflexivity.
  - apply H2. reflexivity.
  - apply H3. reflexivity.
Defined.

(** ** The list form of a price response *)

Lemma prices_of_items_closed (items : list pyval) :
  forall prices,
    prices_of_items items prices =
    match first_unhashable (price_entries items) with
    | Some k => Exc (unhashable k)
    | None => Ok (fold_left put_entry (price_entries items) prices)
    end.
Proof.
  induction items as [|item rest IH]; intros prices; simpl.
  - reflexivity.
  - unfold price_entries, first_unhashable in *. simpl.
    destruct item as [| b | n | f | s | xs | d]; simpl; try apply IH.
    unfold dict_store, dict_lookup.
    destruct (assoc_find (PStr "trading_pair") d) as [name|]; simpl.
    + destruct (hashable name) eqn:Hh; simpl.
      * rewrite IH. reflexivity.
      * reflexivity.
    + rewrite IH. reflexivity.
Qed.

(** ** Market data *)

Ltac split_lookups :=
  repeat match goal with
         | |- context [assoc_find ?k ?d] =>
             destruct (assoc_find k d); simpl
         | |- context [py_eq ?x (PStr "success")] =>
             destruct (py_eq x (PStr "success")); simpl
         end.

Section MarketData.

Variable B : Type.
Variable backend : B -> request -> outcome * B.
Variable clock : nat -> spec_float.

(** A run of [get_market_data], in full. *)
Lemma get_market_data_run (w : world B)
    (connector trading_pair interval max_records candles_connector : pyval) :
  get_market_data backend clock
    connector trading_pair interval max_records candles_connector w =
  let rq1 := candles_request connector trading_pair interval max_records
                             candles_connector in
  let rq2 := prices_request connector trading_pair in
  let (o1, b1) := backend (backend_state w) rq1 in
  let (o2, b2) := backend b1 rq2 in
  (Ok (candles_of_answer o1, prices_of_answer o2),
   mk_world b2 (session_after_fetch clock (ticks w) (session w)) (objects w)
     (S (S (S (ticks w))))
     (trace w ++
      Request rq1 o1 :: warning_of "Could not fetch candles: " (candles_failure o1) ++
      Request rq2 o2 :: warning_of "Could not fetch prices: " (prices_failure o2))%list).
Proof.
  unfold get_market_data, candles_request, prices_request. run_page. unfold time_time, update_session; simpl.
  destruct (backend (backend_state w) _) as [o1 b1].
  destruct o1 as [r1|e1]; [destruct r1|]; simpl.
  all: unfold dict_lookup; split_lookups.
  all: destruct (backend b1 _) as [o2 b2].
  all: destruct o2 as [r2|e2]; [destruct r2|]; simpl.
  all: unfold prices_of_dict, dict_lookup; split_lookups.
  all: try rewrite prices_of_items_closed.
  all: try (destruct (first_unhashable (price_entries _)); simpl).
  all: unfold session_after_fetch; repeat rewrite <- app_assoc; simpl.
  all: reflexivity.
Qed.

(** What [get_market_data] returns, and what it sends: both requests go
    out whatever the other one's answer is. *)
Lemma get_market_data_result (w : world B)
    (connector trading_pair interval max_records candles_connector : pyval) :
  let rq1 := candles_request connector trading_pair interval max_records
                             candles_connector in
  let rq2 := prices_request connector trading_pair in
  let o1 := answer backend (backend_state w) rq1 in
  let o2 := answer backend (snd (backend (backend_state w) rq1)) rq2 in
  let run := get_market_data backend clock
               connector trading_pair interval max_records candles_connector w in
  fst run = Ok (candles_of_answer o1, prices_of_answer o2) /\
  new_events w (snd run) =
    (Request rq1 o1 :: warning_of "Could not fetch candles: " (candles_failure o1) ++
     Request rq2 o2 :: warning_of "Could not fetch prices: " (prices_failure o2))%list.
Proof.
  intros rq1 rq2 o1 o2 run. subst run o1 o2. unfold answer.
  rewrite get_market_data_run. cbv zeta. fold rq1 rq2.
  destruct (backend (backend_state w) rq1) as [o1 b1]. simpl.
  destruct (backend b1 rq2) as [o2 b2]. simpl.
  split; [reflexivity|].
  unfold new_events. simpl.
  induction (trace w) as [|ev t IH]; simpl; auto.
Qed.

(** C2, as the code has it. [get_market_data] takes the prices from the
    response [r] to its prices request by the shape of [r], and there are
    four shapes that carry prices, not three: a dict whose "status" is
    "success" gives its "data" (an empty dict when it has none); any other
    dict with a "prices" key gives that field; any other dict is taken as
    the prices itself; a list gives the dict built from its elements (an
    empty dict when building it raises).  Anything else gives an empty
    dict. *)
Theorem prices_by_shape (w : world B)
    (connector trading_pair interval max_records candles_connector r : pyval) :
  answer backend
    (snd (backend (backend_state w)
            (candles_request connector trading_pair interval max_records
                             candles_connector)))
    (prices_request connector trading_pair) = Return r ->
  (exists candles prices,
      fst (get_market_data backend clock connector trading_pair interval
             max_records candles_connector w) = Ok (candles, prices) /\
      (forall d, r = PDict d -> status_is_success r = true ->
                 prices = match dict_lookup (PStr "data") d with
                          | Some data => data
                          | None => PDict []
                          end) /\
      (forall d field, r = PDict d -> status_is_success r = false ->
                 dict_lookup (PStr "prices") d = Some field ->
                 prices = field) /\
      (forall d, r = PDict d -> status_is_success r = false ->
                 dict_lookup (PStr "prices") d = None ->
                 prices = r) /\
      (forall items, r = PList items ->
                 prices = match prices_of_items items [] with
                          | Ok built => PDict built
                          | _ => PDict []
                          end) /\
      (isinstance_dict r = false -> isinstance_list r = false ->
                 prices = PDict [])).
Proof.
  intros Hr.
  destruct (get_market_data_result w connector trading_pair interval
              max_records candles_connector) as [Hrun _].
  simpl in Hrun. rewrite Hr in Hrun.
  eexists. eexists. split; [exact Hrun|].
  repeat split.
  - intros d -> Hs. simpl in *. unfold prices_of_dict.
    destruct (dict_lookup (PStr "status") d) as [st|]; [|discriminate].
    rewrite Hs. reflexivity.
  - intros d field -> Hs Hp. simpl in *. unfold prices_of_dict.
    rewrite Hp.
    destruct (dict_lookup (PStr "status") d) as [st|]; [|reflexivity].
    rewrite Hs. reflexivity.
  - intros d -> Hs Hp. simpl in *. unfold prices_of_dict.
    rewrite Hp.
    destruct (dict_lookup (PStr "status") d) as [st|]; [|reflexivity].
    rewrite Hs. reflexivity.
  - intros items ->. simpl. rewrite prices_of_items_closed.
    destruct (first_unhashable (price_entries items)); reflexivity.
  - intros Hd Hl. destruct r; simpl in *; try reflexivity; discriminate.
Qed.

(** C9, as the code has it. In [get_market_data] the two fetches fail
    independently: both requests are always sent, the function always
    returns a pair, the candles are [[]] when the candles request raised
    and the prices [{}] when the prices request raised, and each component
    depends on the answer to its own request only.  The candles are a list
    and the prices a dict except where they are a field of an envelope
    ("data", or "prices"), which is handed on as it is. *)
Theorem market_data_fetches_independent (w : world B)
    (connector trading_pair interval max_records candles_connector : pyval) :
  let rq1 := candles_request connector trading_pair interval max_records
                             candles_connector in
  let rq2 := prices_request connector trading_pair in
  let o1 := answer backend (backend_state w) rq1 in
  let o2 := answer backend (snd (backend (backend_state w) rq1)) rq2 in
  let run := get_market_data backend clock
               connector trading_pair interval max_records candles_connector w in
  fst run = Ok (candles_of_answer o1, prices_of_answer o2) /\
  In (Request rq1 o1) (new_events w (snd run)) /\
  In (Request rq2 o2) (new_events w (snd run)) /\
  (forall e, o1 = Raise e -> candles_of_answer o1 = PList []) /\
  (forall e, o2 = Raise e -> prices_of_answer o2 = PDict []) /\
  (isinstance_list (candles_of_answer o1) = true \/
   exists d, o1 = Return (PDict d) /\ status_is_success (PDict d) = true /\
             dict_lookup (PStr "data") d = Some (candles_of_answer o1)) /\
  (isinstance_dict (prices_of_answer o2) = true \/
   exists d, o2 = Return (PDict d) /\
             (dict_lookup (PStr "data") d = Some (prices_of_answer o2) \/
              dict_lookup (PStr "prices") d = Some (prices_of_answer o2))).
Proof.
  intros rq1 rq2 o1 o2 run.
  destruct (get_market_data_result w connector trading_pair interval
              max_records candles_connector) as [Hrun Hev].
  fold rq1 rq2 o1 o2 run in Hrun, Hev.
  split; [exact Hrun|]. rewrite Hev.
  split; [left; reflexivity|].
  split; [right; apply in_or_app; right; left; reflexivity|].
  split; [intros e ->; reflexivity|].
  split; [intros e ->; reflexivity|].
  split.
  - destruct o1 as [r1|e1]; simpl; [|left; reflexivity].
    destruct r1; simpl; try (left; reflexivity).
    destruct (dict_lookup (PStr "status") kvs) as [st|] eqn:Hs; [|left; reflexivity].
    destruct (py_eq st (PStr "success")) eqn:He; [|left; reflexivity].
    destruct (dict_lookup (PStr "data") kvs) as [data|] eqn:Hd; [|left; reflexivity].
    right. exists kvs. simpl. rewrite Hs, He. auto.
  - destruct o2 as [r2|e2]; simpl; [|left; reflexivity].
    destruct r2; simpl; try (left; reflexivity).
    + destruct (first_unhashable (price_entries xs)); left; reflexivity.
    + unfold prices_of_dict.
      destruct (dict_lookup (PStr "prices") kvs) as [field|] eqn:Hp;
        destruct (dict_lookup (PStr "status") kvs) as [st|] eqn:Hs;
        try destruct (py_eq st (PStr "success")) eqn:He;
        try destruct (dict_lookup (PStr "data") kvs) as [data|] eqn:Hd;
        try (left; reflexivity);
        right; exists kvs; auto.
Qed.

(** C10, as the code has it. The dict comprehension over a list price
    response skips every element that is not a dict and reads each dict
    element with "unknown" standing in for a missing "trading_pair" and 0
    for a missing "price".  It goes through when every key so read can be
    hashed, and raises a TypeError when one of them is a list or a dict;
    [get_market_data] then catches the error, warns, and returns an empty
    dict of prices. *)
Theorem price_list_conversion (items : list pyval) :
  prices_of_items items [] = prices_of_items (filter isinstance_dict items) [] /\
  ((forall item, In item items -> isinstance_dict item = true ->
                 hashable (fst (price_entry item)) = true) ->
   prices_of_items items [] = Ok (fold_left put_entry (price_entries items) [])) /\
  ((exists item, In item items /\ isinstance_dict item = true /\
                 hashable (fst (price_entry item)) = false) ->
   exists k, hashable k = false /\ prices_of_items items [] = Exc (unhashable k)) /\
  (forall d, dict_lookup (PStr "trading_pair") d = None ->
             dict_lookup (PStr "price") d = None ->
             prices_of_items [PDict d] [] = Ok [(PStr "unknown", PInt 0)]) /\
  (forall (w : world B) connector trading_pair interval max_records
          candles_connector e,
      answer backend
        (snd (backend (backend_state w)
                (candles_request connector trading_pair interval max_records
                                 candles_connector)))
        (prices_request connector trading_pair) = Return (PList items) ->
      prices_of_items items [] = Exc e ->
      let run := get_market_data backend clock connector trading_pair interval
                   max_records candles_connector w in
      (exists candles, fst run = Ok (candles, PDict [])) /\
      In (Ui st_warning "Could not fetch prices: " [FExn e])
         (new_events w (snd run))).
Proof.
  split; [|split; [|split; [|split]]].
  - rewrite !prices_of_items_closed. unfold price_entries.
    assert (Hf : filter isinstance_dict (filter isinstance_dict items) =
                 filter isinstance_dict items).
    { induction items as [|x l IH]; simpl; auto.
      destruct (isinstance_dict x) eqn:Hx; simpl; rewrite ?Hx, IH; reflexivity. }
    rewrite Hf. reflexivity.
  - intros Hall. rewrite prices_of_items_closed.
    replace (first_unhashable (price_entries items)) with (@None pyval); auto.
    symmetry. unfold first_unhashable, price_entries.
    induction items as [|x l IH]; simpl; auto.
    destruct (isinstance_dict x) eqn:Hx; simpl.
    + rewrite (Hall x (or_introl eq_refl) Hx). simpl.
      apply IH. intros item Hin. apply Hall. right. exact Hin.
    + apply IH. intros item Hin. apply Hall. right. exact Hin.
  - intros (item & Hin & Hd & Hh). rewrite prices_of_items_closed.
    destruct (first_unhashable (price_entries items)) as [k|] eqn:Hk.
    + exists k. split; [|reflexivity].
      unfold first_unhashable in Hk. apply find_some in Hk.
      destruct Hk as [_ Hk]. destruct (hashable k); [discriminate|reflexivity].
    + exfalso. unfold first_unhashable in Hk.
      assert (Hin' : In (fst (price_entry item)) (map fst (price_entries items))).
      { unfold price_entries. apply in_map. apply in_map.
        apply filter_In. split; assumption. }
      pose proof (find_none _ _ Hk _ Hin') as Hn. simpl in Hn.
      rewrite Hh in Hn. discriminate.
  - intros d Ht Hp. simpl. unfold dict_store. rewrite Ht, Hp. reflexivity.
  - intros w connector trading_pair interval max_records candles_connector e
           Hr He run.
    destruct (get_market_data_result w connector trading_pair interval
                max_records candles_connector) as [Hrun Hev].
    simpl in Hrun, Hev. fold run in Hrun, Hev. rewrite Hr in Hrun, Hev.
    rewrite prices_of_items_closed in He.
    simpl in Hrun, Hev.
    destruct (first_unhashable (price_entries items)) as [k|]; [|discriminate].
    injection He as <-.
    split; [eexists; exact Hrun|].
    rewrite Hev. right. apply in_or_app. right. right. left. reflexivity.
Qed.

End MarketData.

(** C2, as stated, fails: a dict with neither a "status" nor a "prices"
    key is none of the three shapes, and yet it is returned as the prices. *)
Lemma direct_dict_is_a_fourth_shape :
  isinstance_list direct_prices = false /\
  py_contains (PStr "status") direct_prices = Ok false /\
  py_contains (PStr "prices") direct_prices = Ok false /\
  fst (market_data_example (scripted (fun _ => Return direct_prices)) fresh_world)
    = Ok (PList [], direct_prices) /\
  prices_of_three_shapes direct_prices = PDict [] /\
  direct_prices <> prices_of_three_shapes direct_prices.
Proof.
  repeat split; try reflexivity. discriminate.
Qed.

Lemma prices_by_shape_witness :
  exists candles prices,
    fst (market_data_example (scripted candles_down) fresh_world)
      = Ok (candles, prices) /\
    prices = direct_prices.
Proof.
  destruct (prices_by_shape unit (scripted candles_down) frozen_clock fresh_world
              (PStr "binance") (PStr "BTC-USDT") (PStr "1m") (PInt 100) PNone
              direct_prices eq_refl)
    as (candles & prices & Hrun & _ & _ & Hself & _).
  exists candles, prices. split.
  - exact Hrun.
  - apply (Hself _ eq_refl); reflexivity.
Defined.

(** C9, as stated, fails: a "success" envelope whose "data" is [None]
    makes the first component [None], which is no list (and likewise the
    second, which is no dict). *)
Lemma candles_need_not_be_a_list :
  let run := market_data_example
               (scripted (fun _ => Return (success_envelope PNone))) fresh_world in
  fst run = Ok (PNone, PNone) /\
  ~ (exists candles prices, fst run = Ok (PList candles, PDict prices)).
Proof.
  split.
  - reflexivity.
  - intros (candles & prices & H). discriminate H.
Qed.

Lemma market_data_fetches_independent_witness :
  let run := market_data_example (scripted candles_down) fresh_world in
  fst run = Ok (PList [], direct_prices) /\
  In (Request (GetPrices (PStr "binance") (PList [PStr "BTC-USDT"]))
              (Return direct_prices))
     (new_events fresh_world (snd run)).
Proof.
  pose proof (market_data_fetches_independent unit (scripted candles_down)
                frozen_clock fresh_world
                (PStr "binance") (PStr "BTC-USDT") (PStr "1m") (PInt 100) PNone)
    as (Hrun & _ & Hsent & _).
  split.
  - exact Hrun.
  - exact Hsent.
Defined.

(** C10, as stated, fails: an element whose "trading_pair" is a list
    makes the comprehension raise. *)
Lemma unhashable_pair_raises :
  prices_of_items pair_as_list [] = Exc (TypeError "unhashable type: 'list'") /\
  ~ (exists prices, prices_of_items pair_as_list [] = Ok prices).
Proof.
  split.
  - reflexivity.
  - intros (prices & H). discriminate H.
Qed.

Lemma price_list_conversion_witness :
  prices_of_items [PInt 3; PDict [(PStr "price", PInt 5)]; PStr "x"] [] =
    Ok [(PStr "unknown", PInt 5)] /\
  (exists k, hashable k = false /\
             prices_of_items pair_as_list [] = Exc (unhashable k)).
Proof.
  split.
  - destruct (price_list_conversion unit (scripted candles_down) frozen_clock
                [PInt 3; PDict [(PStr "price", PInt 5)]; PStr "x"])
      as (_ & Hok & _).
    apply Hok. intros item [<-|[<-|[<-|[]]]]; intros H; try discriminate H.
    reflexivity.
  - destruct (price_list_conversion unit (scripted candles_down) frozen_clock
                pair_as_list) as (_ & _ & Hraise & _).
    apply Hraise. eexists. split; [left; reflexivity|]. split; reflexivity.
Defined.

(** ** Order actions *)

Section OrderActions.

Variable B : Type.
Variable backend : B -> request -> outcome * B.

(** A run of [cancel_order], in full. *)
Lemma cancel_order_run (w : world B) (account_name connector_name order_id : pyval) :
  cancel_order backend account_name connector_name order_id w =
  let rq := CancelOrder account_name connector_name order_id in
  let (o, b') := backend (backend_state w) rq in
  (Ok (accepted o),
   advance w b' [Request rq o;
                 order_feedback "Failed to cancel order: "
                                (order_cancelled order_id) o]).
Proof.
  unfold cancel_order. run_page.
  destruct (backend (backend_state w) _) as [[r|e] b']; simpl.
  - destruct r; simpl; try (rewrite <- app_assoc; reflexivity).
    unfold field_or, dict_lookup.
    destruct (assoc_find (PStr "status") kvs) as [st|]; simpl;
      [destruct (py_eq st (PStr "success")); simpl|];
      rewrite <- app_assoc; reflexivity.
  - rewrite <- app_assoc; reflexivity.
Qed.

(** A run of [place_order], in full. *)
Lemma place_order_run (w : world B) (order_data : pyval) :
  place_order backend order_data w =
  match py_kwargs order_data with
  | Ok kwargs =>
      let rq := PlaceOrder kwargs in
      let (o, b') := backend (backend_state w) rq in
      (Ok (accepted o),
       advance w b' [Request rq o;
                     order_feedback "Failed to place order: " order_placed o])
  | Exc e =>
      (Ok false,
       advance w (backend_state w) [Ui st_error "Failed to place order: " [FExn e]])
  | Ctl c => (Ctl c, w)
  end.
Proof.
  unfold place_order. run_page.
  destruct (py_kwargs order_data) as [kwargs|e|c]; simpl; try reflexivity.
  destruct (backend (backend_state w) _) as [[r|e] b']; simpl.
  - destruct r; simpl; try (rewrite <- app_assoc; reflexivity).
    unfold order_placed, field_or, dict_lookup.
    destruct (assoc_find (PStr "status") kvs) as [st|]; simpl;
      [destruct (py_eq st (PStr "success")); simpl|];
      rewrite <- app_assoc; reflexivity.
  - rewrite <- app_assoc; reflexivity.
Qed.

Lemma py_kwargs_no_ctl (v : pyval) (c : control) : py_kwargs v <> Ctl c.
Proof.
  destruct v; simpl; try discriminate.
  destruct (kwargs_of kvs); discriminate.
Qed.

(** C4. [place_order] and [cancel_order] return [True] exactly when the
    backend's response is a dict whose "status" equals "success"; when the
    backend call raises, or reports anything else, they return [False].
    They never raise. *)
Theorem order_actions_report_status (w : world B)
    (order_data account_name connector_name order_id : pyval) :
  (exists b, fst (place_order backend order_data w) = Ok b) /\
  (forall kwargs r,
      py_kwargs order_data = Ok kwargs ->
      answer backend (backend_state w) (PlaceOrder kwargs) = Return r ->
      fst (place_order backend order_data w) = Ok (status_is_success r)) /\
  (forall kwargs e,
      py_kwargs order_data = Ok kwargs ->
      answer backend (backend_state w) (PlaceOrder kwargs) = Raise e ->
      fst (place_order backend order_data w) = Ok false) /\
  (exists b, fst (cancel_order backend account_name connector_name order_id w) = Ok b) /\
  (forall r,
      answer backend (backend_state w)
             (CancelOrder account_name connector_name order_id) = Return r ->
      fst (cancel_order backend account_name connector_name order_id w)
        = Ok (status_is_success r)) /\
  (forall e,
      answer backend (backend_state w)
             (CancelOrder account_name connector_name order_id) = Raise e ->
      fst (cancel_order backend account_name connector_name order_id w) = Ok false).
Proof.
  unfold answer. rewrite place_order_run, cancel_order_run.
  split; [|split; [|split; [|split; [|split]]]].
  - destruct (py_kwargs order_data) as [kwargs|e|c] eqn:Hk.
    + cbv zeta. destruct (backend (backend_state w) _) as [o b']. eexists; reflexivity.
    + eexists; reflexivity.
    + exfalso. exact (py_kwargs_no_ctl _ _ Hk).
  - intros kwargs r -> Hr. cbv zeta.
    destruct (backend (backend_state w) _) as [o b']. simpl in *. subst o. reflexivity.
  - intros kwargs e -> Hr. cbv zeta.
    destruct (backend (backend_state w) _) as [o b']. simpl in *. subst o. reflexivity.
  - cbv zeta. destruct (backend (backend_state w) _) as [o b']. eexists; reflexivity.
  - intros r Hr. cbv zeta.
    destruct (backend (backend_state w) _) as [o b']. simpl in *. subst o. reflexivity.
  - intros e Hr. cbv zeta.
    destruct (backend (backend_state w) _) as [o b']. simpl in *. subst o. reflexivity.
Qed.

End OrderActions.

Lemma order_actions_report_status_witness :
  let accepting := scripted (fun _ => Return (success_envelope PNone)) in
  let failing := scripted (fun _ => Raise (Raised "HTTPError" "503")) in
  let order := PDict [(PStr "amount", PInt 1)] in
  fst (place_order accepting order fresh_world) = Ok true /\
  fst (place_order failing order fresh_world) = Ok false /\
  fst (cancel_order accepting (PStr "a") (PStr "c") (PStr "o") fresh_world) = Ok true /\
  fst (cancel_order failing (PStr "a") (PStr "c") (PStr "o") fresh_world) = Ok false.
Proof.
  intros accepting failing order.
  destruct (order_actions_report_status unit accepting fresh_world order
              (PStr "a") (PStr "c") (PStr "o")) as (_ & Hp & _ & _ & Hc & _).
  destruct (order_actions_report_status unit failing fresh_world order
              (PStr "a") (PStr "c") (PStr "o")) as (_ & _ & Hp' & _ & _ & Hc').
  split; [|split; [|split]].
  - apply (Hp [("amount", PInt 1)] (success_envelope PNone)); reflexivity.
  - apply (Hp' [("amount", PInt 1)] (Raised "HTTPError" "503")); reflexivity.
  - apply (Hc (success_envelope PNone)); reflexivity.
  - apply (Hc' (Raised "HTTPError" "503")); reflexivity.
Defined.

(** ** Values never signal script control *)

Lemma rbind_no_ctl {A C} (r : result A) (k : A -> result C) :
  no_ctl r -> (forall a, no_ctl (k a)) -> no_ctl (rbind r k).
Proof.
  destruct r; simpl; auto.
Qed.

Lemma py_getitem_no_ctl (v k : pyval) : no_ctl (py_getitem v k).
Proof.
  destruct v; simpl; auto.
  - destruct (int_index k); simpl; auto.
    destruct (seq_index _ _); simpl; auto.
    destruct (nth_error _ _); simpl; auto.
  - destruct (int_index k); simpl; auto.
    destruct (seq_index _ _); simpl; auto.
    destruct (nth_error _ _); simpl; auto.
  - destruct (hashable k); simpl; auto.
    destruct (dict_lookup k kvs); simpl; auto.
Qed.

Lemma py_iter_no_ctl (v : pyval) : no_ctl (py_iter v).
Proof. destruct v; simpl; auto. Qed.

Lemma py_items_no_ctl (v : pyval) : no_ctl (py_items v).
Proof. destruct v; simpl; auto. Qed.

Lemma py_contains_no_ctl (x v : pyval) : no_ctl (py_contains x v).
Proof.
  destruct v; simpl; auto.
  - destruct x; simpl; auto.
  - destruct (hashable x); simpl; auto.
Qed.

Lemma dict_store_no_ctl (k v : pyval) d : no_ctl (dict_store k v d).
Proof. unfold dict_store. destruct (hashable k); simpl; auto. Qed.

Lemma balances_of_tokens_no_ctl (exchange : pyval) (tokens : list pyval) :
  forall balances, no_ctl (balances_of_tokens exchange tokens balances).
Proof.
  induction tokens as [|token_info rest IH]; intros balances; simpl; auto.
  repeat (apply rbind_no_ctl; [apply py_getitem_no_ctl | intros ?]).
  apply IH.
Qed.

Lemma balances_of_exchanges_no_ctl (items : list (pyval * pyval)) :
  forall balances, no_ctl (balances_of_exchanges items balances).
Proof.
  induction items as [|[exchange tokens] rest IH]; intros balances; simpl; auto.
  apply rbind_no_ctl; [apply py_iter_no_ctl | intros token_infos].
  apply rbind_no_ctl; [apply balances_of_tokens_no_ctl | intros balances'].
  apply IH.
Qed.

Lemma balances_of_state_no_ctl (account r : pyval) :
  no_ctl (balances_of_state account r).
Proof.
  unfold balances_of_state.
  apply rbind_no_ctl; [apply py_contains_no_ctl | intros [|]]; simpl; auto.
  apply rbind_no_ctl; [apply py_getitem_no_ctl | intros exchanges].
  apply rbind_no_ctl; [apply py_items_no_ctl | intros items].
  apply balances_of_exchanges_no_ctl.
Qed.

(** ** Balances *)

Lemma lookup_hashable (k : pyval) (d : list (pyval * pyval)) (v : pyval) :
  dict_lookup k d = Some v -> hashable k = true.
Proof.
  unfold dict_lookup.
  induction d as [|[k' v'] rest IH]; simpl; [discriminate|].
  destruct (atom_eqb k' k) eqn:He; [|exact IH].
  intros _. destruct k; try reflexivity; destruct k'; discriminate He.
Qed.

Lemma balances_of_tokens_records (exchange : pyval) (tokens : list pyval) :
  forallb is_token_record tokens = true ->
  forall balances,
    balances_of_tokens exchange tokens balances =
    Ok (balances ++ map (balance_record exchange) tokens)%list.
Proof.
  induction tokens as [|token_info rest IH]; intros Hall balances; simpl.
  - rewrite app_nil_r. reflexivity.
  - simpl in Hall. apply andb_prop in Hall. destruct Hall as [Hrec Hrest].
    destruct token_info; simpl in Hrec; try discriminate Hrec.
    unfold has_field in Hrec.
    unfold balance_record, token_field, field_or. simpl.
    destruct (dict_lookup (PStr "token") kvs); [|discriminate Hrec].
    destruct (dict_lookup (PStr "units") kvs); [|discriminate Hrec].
    destruct (dict_lookup (PStr "available_units") kvs); [|discriminate Hrec].
    destruct (dict_lookup (PStr "price") kvs); [|discriminate Hrec].
    destruct (dict_lookup (PStr "value") kvs); [|discriminate Hrec].
    simpl. rewrite (IH Hrest). rewrite <- app_assoc. reflexivity.
Qed.

Lemma balances_of_exchanges_records (items : list (pyval * pyval)) :
  forallb is_exchange_entry items = true ->
  forall balances,
    balances_of_exchanges items balances =
    Ok (balances ++ expected_balances items)%list.
Proof.
  induction items as [|[exchange tokens] rest IH]; intros Hall balances; simpl.
  - rewrite app_nil_r. reflexivity.
  - simpl in Hall. apply andb_prop in Hall. destruct Hall as [Hentry Hrest].
    unfold is_exchange_entry in Hentry. simpl in Hentry.
    destruct tokens; try discriminate Hentry. simpl.
    rewrite (balances_of_tokens_records exchange xs Hentry). simpl.
    rewrite (IH Hrest). rewrite <- app_assoc. reflexivity.
Qed.

Lemma balances_of_tokens_broken (exchange : pyval) (tokens : list pyval) :
  forallb is_token_record tokens = false ->
  forall balances, exists e, balances_of_tokens exchange tokens balances = Exc e.
Proof.
  induction tokens as [|token_info rest IH]; simpl; [discriminate|].
  intros Hbad balances.
  destruct (is_token_record token_info) eqn:Hrec; simpl in Hbad.
  - destruct token_info; simpl in Hrec; try discriminate Hrec.
    unfold has_field in Hrec. simpl.
    destruct (dict_lookup (PStr "token") kvs); [|discriminate Hrec].
    destruct (dict_lookup (PStr "units") kvs); [|discriminate Hrec].
    destruct (dict_lookup (PStr "available_units") kvs); [|discriminate Hrec].
    destruct (dict_lookup (PStr "price") kvs); [|discriminate Hrec].
    destruct (dict_lookup (PStr "value") kvs); [|discriminate Hrec].
    simpl. apply IH. exact Hbad.
  - clear IH Hbad.
    destruct token_info; simpl in *; try (eexists; reflexivity).
    unfold has_field in Hrec.
    destruct (dict_lookup (PStr "token") kvs); simpl; [|eexists; reflexivity].
    destruct (dict_lookup (PStr "units") kvs); simpl; [|eexists; reflexivity].
    destruct (dict_lookup (PStr "available_units") kvs); simpl; [|eexists; reflexivity].
    destruct (dict_lookup (PStr "price") kvs); simpl; [|eexists; reflexivity].
    destruct (dict_lookup (PStr "value") kvs); simpl; [|eexists; reflexivity].
    discriminate Hrec.
Qed.

Lemma balances_of_exchanges_listed (items : list (pyval * pyval)) :
  forall balances,
    if forallb lists_token_records items
    then balances_of_exchanges items balances =
         Ok (balances ++ balances_of_entries items)%list
    else exists e, balances_of_exchanges items balances = Exc e.
Proof.
  induction items as [|[exchange tokens] rest IH]; intros balances; simpl.
  - rewrite app_nil_r. reflexivity.
  - unfold lists_token_records at 1, token_entries at 1. simpl.
    destruct (py_iter tokens) as [token_infos|e|c] eqn:Hiter; simpl;
      [|exists e; reflexivity
       |destruct tokens; simpl in Hiter; discriminate Hiter].
    destruct (forallb is_token_record token_infos) eqn:Hrecs; simpl.
    + rewrite (balances_of_tokens_records exchange token_infos Hrecs). simpl.
      specialize (IH (balances ++ map (balance_record exchange) token_infos)%list).
      destruct (forallb lists_token_records rest).
      * rewrite IH. unfold balances_of_entries. rewrite <- app_assoc. reflexivity.
      * exact IH.
    + destruct (balances_of_tokens_broken exchange token_infos Hrecs balances)
        as [e He].
      rewrite He. exists e. reflexivity.
Qed.

Lemma exchange_entries_listed (items : list (pyval * pyval)) :
  forallb is_exchange_entry items = true ->
  forallb lists_token_records items = true /\
  balances_of_entries items = expected_balances items.
Proof.
  induction items as [|[exchange tokens] rest IH]; simpl; [auto|].
  intros Hall. apply andb_prop in Hall. destruct Hall as [Hentry Hrest].
  destruct (IH Hrest) as [Hl He].
  unfold is_exchange_entry in Hentry. simpl in Hentry.
  destruct tokens; try discriminate Hentry.
  unfold lists_token_records at 1, balances_of_entries, expected_balances.
  simpl. rewrite Hentry, Hl. split; [reflexivity|].
  unfold balances_of_entries, expected_balances in He. rewrite He. reflexivity.
Qed.

(** What the page makes of a response is what the description lists, or
    an exception where it lists nothing. *)
Lemma balances_of_state_listed (account r : pyval) :
  match listed_balances account r with
  | Some balances => balances_of_state account r = Ok balances
  | None => exists e, balances_of_state account r = Exc e
  end.
Proof.
  unfold listed_balances, balances_of_state.
  pose proof (py_contains_no_ctl account r) as Hc.
  destruct (py_contains account r) as [[|]|e|c]; simpl in *;
    [|reflexivity|exists e; reflexivity|contradiction].
  pose proof (py_getitem_no_ctl r account) as Hg.
  destruct (py_getitem r account) as [exchanges|e|c]; simpl in *;
    [|exists e; reflexivity|contradiction].
  destruct exchanges; simpl; try (eexists; reflexivity).
  pose proof (balances_of_exchanges_listed kvs []) as Hl.
  destruct (forallb lists_token_records kvs); exact Hl.
Qed.

Section Balances.

Variable B : Type.
Variable backend : B -> request -> outcome * B.

(** A run of [get_balances], in full. *)
Lemma get_balances_run (w : world B) :
  get_balances backend w =
  let account := selected_account (session w) in
  if truthy account then
    let rq := GetState (PList [account]) in
    let (o, b') := backend (backend_state w) rq in
    let failed e :=
      (Ok (PList []),
       advance w b' [Request rq o;
                     Ui st_error "Failed to fetch balances: " [FExn e]]) in
    match o with
    | Return r =>
        match balances_of_state account r with
        | Ok balances => (Ok (PList balances), advance w b' [Request rq o])
        | Exc e => failed e
        | Ctl c => (Ctl c, advance w b' [Request rq o])
        end
    | Raise e => failed e
    end
  else (Ok (PList []), w).
Proof.
  unfold get_balances, get_session. run_page.
  destruct (truthy (selected_account (session w))); simpl; [|reflexivity].
  destruct (backend (backend_state w) _) as [[r|e] b']; simpl.
  - unfold balances_of_state.
    destruct (py_contains (selected_account (session w)) r) as [[|]|e|c]; simpl;
      try reflexivity; try (rewrite <- app_assoc; reflexivity).
    destruct (py_getitem r (selected_account (session w))) as [exchanges|e|c]; simpl;
      try reflexivity; try (rewrite <- app_assoc; reflexivity).
    destruct (py_items exchanges) as [items|e|c]; simpl;
      try reflexivity; try (rewrite <- app_assoc; reflexivity).
    destruct (balances_of_exchanges items []) as [balances|e|c]; simpl;
      try reflexivity; try (rewrite <- app_assoc; reflexivity).
  - rewrite <- app_assoc; reflexivity.
Qed.

(** C5. When no account is selected, [get_balances] returns the empty list
    and asks the backend nothing.  Otherwise, for every response: when the
    selected account is not in it, the result is the empty list; when the
    account maps to a dict of exchanges whose tokens are, every one of
    them, token records (dicts with token, units, available_units, price
    and value), the result is one balance record per (exchange, token)
    entry, in order, with the fields exchange, token, total (the record's
    units), available (its available_units), price and value, and nothing
    is shown; in every other case (the account's entry is no dict, the
    tokens of an exchange cannot be gone through, or a single token entry
    is no dict or lacks one of the five fields) the result is the empty
    list, the entries that were in order are dropped with the others, and
    "Failed to fetch balances" is shown. *)
Theorem balances_per_exchange_and_token (w : world B) :
  let account := selected_account (session w) in
  let run := get_balances backend w in
  (truthy account = false -> run = (Ok (PList []), w)) /\
  (forall r,
      truthy account = true ->
      answer backend (backend_state w) (GetState (PList [account])) = Return r ->
      match listed_balances account r with
      | Some balances =>
          fst run = Ok (PList balances) /\
          messages_of (new_events w (snd run)) = []
      | None =>
          fst run = Ok (PList []) /\
          exists e, messages_of (new_events w (snd run)) =
                    [Ui st_error "Failed to fetch balances: " [FExn e]]
      end) /\
  (forall d,
      truthy account = true ->
      answer backend (backend_state w) (GetState (PList [account])) = Return (PDict d) ->
      (dict_lookup account d = None -> fst run = Ok (PList [])) /\
      (forall exchanges,
          dict_lookup account d = Some (PDict exchanges) ->
          (forallb is_exchange_entry exchanges = true ->
           fst run = Ok (PList (expected_balances exchanges))) /\
          (forallb lists_token_records exchanges = false ->
           fst run = Ok (PList []) /\ listed_balances account (PDict d) = None))).
Proof.
  intros account run.
  assert (Hall : forall r,
             truthy account = true ->
             answer backend (backend_state w) (GetState (PList [account])) = Return r ->
             match listed_balances account r with
             | Some balances =>
                 fst run = Ok (PList balances) /\
                 messages_of (new_events w (snd run)) = []
             | None =>
                 fst run = Ok (PList []) /\
                 exists e, messages_of (new_events w (snd run)) =
                           [Ui st_error "Failed to fetch balances: " [FExn e]]
             end).
  { intros r Ht Hr. subst run account. rewrite get_balances_run. cbv zeta.
    rewrite Ht. unfold answer in Hr.
    destruct (backend (backend_state w) _) as [o b']. simpl in Hr. subst o.
    pose proof (balances_of_state_listed (selected_account (session w)) r) as Hl.
    destruct (listed_balances (selected_account (session w)) r) as [balances|].
    - rewrite Hl. simpl. rewrite new_events_advance. split; reflexivity.
    - destruct Hl as [e He]. rewrite He. simpl. rewrite new_events_advance.
      split; [reflexivity|]. exists e. reflexivity. }
  split; [|split; [exact Hall|]].
  - subst run account. rewrite get_balances_run. cbv zeta.
    intros ->. reflexivity.
  - intros d Ht Hr. specialize (Hall (PDict d) Ht Hr).
    unfold listed_balances in Hall |- *. simpl in Hall |- *. split.
    + intros Hnone. rewrite Hnone in Hall.
      destruct (hashable account); tauto.
    + intros exchanges Hsome.
      rewrite (lookup_hashable _ _ _ Hsome), Hsome in Hall |- *. split.
      * intros Hwf. destruct (exchange_entries_listed exchanges Hwf) as [Hl He].
        rewrite Hl, He in Hall. tauto.
      * intros Hbad. rewrite Hbad in Hall |- *. split; [tauto | reflexivity].
Qed.

End Balances.

Lemma balances_per_exchange_and_token_witness :
  let w := with_account (PStr "master_account") fresh_world in
  fst (get_balances (scripted (fun _ => Return sample_portfolio)) w) =
  Ok (PList
        [balance_record (PStr "binance") (token_record "BTC" 2 1 50000 100000);
         balance_record (PStr "binance") (token_record "USDT" 500 500 1 500);
         balance_record (PStr "kucoin") (token_record "ETH" 3 3 2000 6000)]) /\
  get_balances (scripted (fun _ => Return sample_portfolio)) fresh_world =
  (Ok (PList []), fresh_world).
Proof.
  intros w. split.
  - destruct (balances_per_exchange_and_token unit
                (scripted (fun _ => Return sample_portfolio)) w) as (_ & _ & H).
    destruct (H [(PStr "master_account", PDict sample_exchanges)]
                eq_refl eq_refl) as [_ Hrecords].
    destruct (Hrecords sample_exchanges eq_refl) as [Hlisted _].
    apply Hlisted. reflexivity.
  - destruct (balances_per_exchange_and_token unit
                (scripted (fun _ => Return sample_portfolio)) fresh_world) as [H _].
    apply H. reflexivity.
Defined.

(** C5, as stated, fails on a response one of whose token records has
    lost a field: the BTC entry under the selected account is in order,
    and yet no record comes back. *)
Lemma one_bad_token_empties_the_balances :
  let w := with_account (PStr "master_account") fresh_world in
  answer (scripted (fun _ => Return broken_portfolio)) (backend_state w)
         (GetState (PList [selected_account (session w)])) = Return broken_portfolio /\
  dict_lookup (PStr "binance") broken_exchanges =
    Some (PList [token_record "BTC" 2 1 50000 100000;
                 PDict [(PStr "token", PStr "USDT"); (PStr "units", PInt 500);
                        (PStr "available_units", PInt 500);
                        (PStr "price", PInt 1)]]) /\
  is_token_record (token_record "BTC" 2 1 50000 100000) = true /\
  fst (get_balances (scripted (fun _ => Return broken_portfolio)) w) = Ok (PList []) /\
  fst (get_balances (scripted (fun _ => Return broken_portfolio)) w) <>
  Ok (PList (expected_balances broken_exchanges)).
Proof.
  intros w. split; [reflexivity|]. split; [reflexivity|]. split; [reflexivity|].
  split; [reflexivity|]. intros H. discriminate H.
Qed.

(** ** Failing fetches *)

Lemma advance_advance {B} (w : world B) (b1 b2 : B) (evs1 evs2 : list event) :
  advance (advance w b1 evs1) b2 evs2 = advance w b2 (evs1 ++ evs2)%list.
Proof.
  unfold advance; simpl. rewrite app_assoc. reflexivity.
Qed.

Lemma advance_nothing {B} (w : world B) : advance w (backend_state w) [] = w.
Proof.
  destruct w; unfold advance; simpl. rewrite app_nil_r. reflexivity.
Qed.

Lemma messages_of_app (evs1 evs2 : list event) :
  messages_of (evs1 ++ evs2) = (messages_of evs1 ++ messages_of evs2)%list.
Proof. apply filter_app. Qed.

Lemma raised_in_app (evs1 evs2 : list event) :
  raised_in (evs1 ++ evs2) = raised_in evs1 || raised_in evs2.
Proof. apply existsb_app. Qed.

Section FailingFetches.

Variable B : Type.
Variable backend : B -> request -> outcome * B.
Variable clock : nat -> spec_float.

(** The credentials loop shows no message, and comes to its end only if
    none of its requests raised. *)
Lemma fetch_credentials_outcome (accounts : list pyval) :
  forall credentials_list (w : world B),
    let run := fetch_credentials backend accounts credentials_list w in
    exists b' evs,
      snd run = advance w b' evs /\
      messages_of evs = [] /\
      match fst run with
      | Ok _ => raised_in evs = false
      | Exc _ => True
      | Ctl _ => False
      end.
Proof.
  induction accounts as [|account rest IH]; intros credentials_list w; simpl.
  - exists (backend_state w), []. rewrite advance_nothing. auto.
  - unfold bind, call, lift.
    destruct (backend (backend_state w) (ListCredentials account)) as [[creds|e] b1]
      eqn:Hb.
    + fold (advance w b1 [Request (ListCredentials account) (Return creds)]).
      unfold dict_store. destruct (hashable account).
      * destruct (IH (dict_put account creds credentials_list)
                    (advance w b1 [Request (ListCredentials account) (Return creds)]))
          as (b' & evs & Hsnd & Hmsg & Hfst).
        exists b', (Request (ListCredentials account) (Return creds) :: evs).
        simpl in Hsnd, Hfst.
        destruct (fetch_credentials backend rest _ _) as [r w'].
        simpl in *. rewrite advance_advance in Hsnd.
        destruct r; simpl; auto.
      * exists b1, [Request (ListCredentials account) (Return creds)]. simpl. auto.
    + fold (advance w b1 [Request (ListCredentials account) (Raise e)]).
      exists b1, [Request (ListCredentials account) (Raise e)]. simpl. auto.
Qed.

(** [get_accounts_and_credentials] either falls back, showing an error,
    or gets through without any of its requests having raised. *)
Lemma get_accounts_and_credentials_outcome (w : world B) :
  let run := get_accounts_and_credentials backend w in
  exists b' evs,
    snd run = advance w b' evs /\
    ((fst run = Ok (PList [], PDict []) /\
      exists e, messages_of evs = [Ui st_error "Failed to fetch accounts: " [FExn e]]) \/
     ((exists v, fst run = Ok v) /\ raised_in evs = false /\ messages_of evs = [])).
Proof.
  unfold get_accounts_and_credentials, try_except, bind, call, lift, ret, ui, emit.
  destruct (backend (backend_state w) ListAccounts) as [[accounts_list|e] b1].
  - fold (advance w b1 [Request ListAccounts (Return accounts_list)]).
    destruct (py_iter accounts_list) as [accounts|e|c] eqn:Hiter.
    + destruct (fetch_credentials_outcome accounts []
                  (advance w b1 [Request ListAccounts (Return accounts_list)]))
        as (b' & evs & Hsnd & Hmsg & Hfst).
      simpl in Hsnd, Hfst.
      destruct (fetch_credentials backend accounts [] _) as [r w'].
      simpl in *. subst w'. rewrite advance_advance.
      destruct r as [credentials_list|e|c]; simpl.
      * do 2 eexists; split; [reflexivity|]. right. simpl. eauto.
      * do 2 eexists; split; [|left; split; [reflexivity|]].
        -- unfold advance; simpl. rewrite <- app_assoc. reflexivity.
        -- exists e. rewrite messages_of_app. simpl. rewrite Hmsg. reflexivity.
      * contradiction.
    + simpl. do 2 eexists; split; [|left; split; [reflexivity|]].
      * unfold advance; simpl. rewrite <- app_assoc. reflexivity.
      * exists e. reflexivity.
    + pose proof (py_iter_no_ctl accounts_list) as H. rewrite Hiter in H.
      contradiction.
  - simpl. do 2 eexists; split; [|left; split; [reflexivity|]].
    + unfold advance; simpl. rewrite <- app_assoc. reflexivity.
    + exists e. reflexivity.
Qed.

Lemma get_candles_connectors_run (w : world B) :
  get_candles_connectors backend w =
  match backend (backend_state w) GetAvailableCandlesFeed with
  | (Return r, b') => (Ok r, advance w b' [Request GetAvailableCandlesFeed (Return r)])
  | (Raise e, b') =>
      (Ok (PList []),
       advance w b' [Request GetAvailableCandlesFeed (Raise e);
                     Ui st_warning "Could not fetch candles feed connectors: " [FExn e]])
  end.
Proof.
  unfold get_candles_connectors. run_page.
  destruct (backend (backend_state w) GetAvailableCandlesFeed) as [[r|e] b'];
    simpl; [reflexivity|].
  rewrite <- app_assoc. reflexivity.
Qed.

Lemma get_accounts_and_credentials_down (w : world B) (e : exn) (b' : B) :
  backend (backend_state w) ListAccounts = (Raise e, b') ->
  get_accounts_and_credentials backend w =
  (Ok (PList [], PDict []),
   advance w b' [Request ListAccounts (Raise e);
                 Ui st_error "Failed to fetch accounts: " [FExn e]]).
Proof.
  intros H. unfold get_accounts_and_credentials. run_page. rewrite H. simpl.
  rewrite <- app_assoc. reflexivity.
Qed.

(** C3, as the code has it. [get_accounts_and_credentials] returns
    [([], {})] and [get_balances] returns [[]] whenever one of their
    backend calls raises.  [get_market_data] never propagates an exception
    either, but it falls back per component: the candles are [[]] when the
    candles request raised, the prices [{}] when the prices request raised
    (so [([], {})] when both did), and the component whose request went
    through is kept. *)
Theorem failed_fetches_fall_back (w : world B)
    (connector trading_pair interval max_records candles_connector : pyval) :
  (raised_in (new_events w (snd (get_accounts_and_credentials backend w))) = true ->
   fst (get_accounts_and_credentials backend w) = Ok (PList [], PDict [])) /\
  (raised_in (new_events w (snd (get_balances backend w))) = true ->
   fst (get_balances backend w) = Ok (PList [])) /\
  (let rq1 := candles_request connector trading_pair interval max_records
                              candles_connector in
   let rq2 := prices_request connector trading_pair in
   let o1 := answer backend (backend_state w) rq1 in
   let o2 := answer backend (snd (backend (backend_state w) rq1)) rq2 in
   exists candles prices,
     fst (get_market_data backend clock connector trading_pair interval
            max_records candles_connector w) = Ok (candles, prices) /\
     (forall e, o1 = Raise e -> candles = PList []) /\
     (forall e, o2 = Raise e -> prices = PDict []) /\
     (forall r, o1 = Return r -> candles = normalize_response r) /\
     (forall r, o2 = Return r -> prices = prices_of_answer (Return r))).
Proof.
  split; [|split].
  - destruct (get_accounts_and_credentials_outcome w)
      as (b' & evs & Hsnd & [[Hfst _]|[_ [Hno _]]]).
    + intros _. exact Hfst.
    + simpl in Hsnd. rewrite Hsnd, new_events_advance, Hno. discriminate.
  - rewrite get_balances_run. cbv zeta.
    destruct (truthy (selected_account (session w))).
    + destruct (backend (backend_state w) _) as [[r|e] b']; [|reflexivity].
      pose proof (balances_of_state_no_ctl (selected_account (session w)) r) as Hc.
      destruct (balances_of_state _ r) as [balances|e|c]; simpl.
      * rewrite new_events_advance. simpl. discriminate.
      * reflexivity.
      * contradiction.
    + reflexivity.
  - intros rq1 rq2 o1 o2.
    destruct (get_market_data_result B backend clock w connector trading_pair
                interval max_records candles_connector) as [Hrun _].
    fold rq1 rq2 o1 o2 in Hrun.
    exists (candles_of_answer o1), (prices_of_answer o2).
    split; [exact Hrun|].
    repeat split; intros x ->; reflexivity.
Qed.

(** C8. When its backend call raises, [get_order_history] returns the
    empty list and shows no message at all, whereas each of the other
    fetchers, when its call raises, shows an error or a warning. *)
Theorem order_history_fails_silently (w : world B) (e : exn) :
  answer backend (backend_state w) (GetOrders (PInt 50)) = Raise e ->
  (fst (get_order_history backend w) = Ok (PList []) /\
   messages_of (new_events w (snd (get_order_history backend w))) = []) /\
  (forall e',
      answer backend (backend_state w) (GetPositions (PInt 100)) = Raise e' ->
      messages_of (new_events w (snd (get_positions backend w))) =
      [Ui st_error "Failed to fetch positions: " [FExn e']]) /\
  (forall e',
      answer backend (backend_state w) (GetActiveOrders (PInt 100)) = Raise e' ->
      messages_of (new_events w (snd (get_active_orders backend w))) =
      [Ui st_error "Failed to fetch active orders: " [FExn e']]) /\
  (forall e',
      answer backend (backend_state w) ListAccounts = Raise e' ->
      messages_of (new_events w (snd (get_accounts_and_credentials backend w))) =
      [Ui st_error "Failed to fetch accounts: " [FExn e']]) /\
  (forall e',
      answer backend (backend_state w) GetAvailableCandlesFeed = Raise e' ->
      messages_of (new_events w (snd (get_candles_connectors backend w))) =
      [Ui st_warning "Could not fetch candles feed connectors: " [FExn e']]) /\
  (forall e',
      truthy (selected_account (session w)) = true ->
      answer backend (backend_state w)
             (GetState (PList [selected_account (session w)])) = Raise e' ->
      messages_of (new_events w (snd (get_balances backend w))) =
      [Ui st_error "Failed to fetch balances: " [FExn e']]) /\
  (forall connector trading_pair interval max_records candles_connector e',
      answer backend (backend_state w)
             (candles_request connector trading_pair interval max_records
                              candles_connector) = Raise e' ->
      In (Ui st_warning "Could not fetch candles: " [FExn e'])
         (messages_of
            (new_events w
               (snd (get_market_data backend clock connector trading_pair
                       interval max_records candles_connector w))))).
Proof.
  unfold answer. intros He.
  split; [|split; [|split; [|split; [|split; [|split]]]]].
  - rewrite get_order_history_run. cbv zeta.
    destruct (backend (backend_state w) (GetOrders (PInt 50))) as [o b']. simpl in He. subst o.
    simpl. rewrite new_events_advance. auto.
  - intros e' H. rewrite get_positions_run. cbv zeta.
    destruct (backend (backend_state w) (GetPositions (PInt 100))) as [o b']. simpl in H. subst o.
    simpl. rewrite new_events_advance. reflexivity.
  - intros e' H. rewrite get_active_orders_run. cbv zeta.
    destruct (backend (backend_state w) (GetActiveOrders (PInt 100))) as [o b']. simpl in H. subst o.
    simpl. rewrite new_events_advance. reflexivity.
  - intros e' H.
    destruct (backend (backend_state w) ListAccounts) as [o b'] eqn:Hb.
    simpl in H. subst o.
    rewrite (get_accounts_and_credentials_down w e' b' Hb).
    simpl. rewrite new_events_advance. reflexivity.
  - intros e' H. rewrite get_candles_connectors_run.
    destruct (backend (backend_state w) GetAvailableCandlesFeed) as [o b']. simpl in H. subst o.
    simpl. rewrite new_events_advance. reflexivity.
  - intros e' Ht H. rewrite get_balances_run. cbv zeta. rewrite Ht.
    destruct (backend (backend_state w) (GetState _)) as [o b']. simpl in H. subst o.
    simpl. rewrite new_events_advance. reflexivity.
  - intros connector trading_pair interval max_records candles_connector e' H.
    destruct (get_market_data_result B backend clock w connector trading_pair
                interval max_records candles_connector) as [_ Hev].
    cbv zeta in Hev. rewrite Hev. unfold answer.
    destruct (backend (backend_state w) (candles_request _ _ _ _ _)) as [o b'].
    simpl in H. subst o.
    simpl. left. reflexivity.
Qed.

End FailingFetches.

Lemma failed_fetches_fall_back_witness :
  fst (get_accounts_and_credentials backend_down fresh_world) = Ok (PList [], PDict []) /\
  fst (get_balances backend_down (with_account (PStr "master_account") fresh_world))
    = Ok (PList []).
Proof.
  split.
  - destruct (failed_fetches_fall_back unit backend_down frozen_clock fresh_world
                PNone PNone PNone PNone PNone) as (H & _ & _).
    apply H. reflexivity.
  - destruct (failed_fetches_fall_back unit backend_down frozen_clock
                (with_account (PStr "master_account") fresh_world)
                PNone PNone PNone PNone PNone) as (_ & H & _).
    apply H. reflexivity.
Defined.

(** C3, as stated, fails for [get_market_data]: with the candles request
    raising and the prices request answered, it returns the prices it got,
    not [([], {})]. *)
Lemma one_failed_fetch_keeps_the_other :
  let run := market_data_example (scripted candles_down) fresh_world in
  raised_in (new_events fresh_world (snd run)) = true /\
  fst run = Ok (PList [], direct_prices) /\
  fst run <> Ok (PList [], PDict []).
Proof.
  split; [reflexivity|]. split; [reflexivity|]. discriminate.
Qed.

Lemma order_history_fails_silently_witness :
  fst (get_order_history backend_down fresh_world) = Ok (PList []) /\
  messages_of (new_events fresh_world (snd (get_order_history backend_down fresh_world)))
    = [].
Proof.
  destruct (order_history_fails_silently unit backend_down frozen_clock fresh_world
              (Raised "ConnectionError" "backend unreachable") eq_refl) as [H _].
  exact H.
Defined.

(** ** What rendering touches *)

Lemma keeps_refl {B} (allowed : request -> bool) (w : world B) : keeps allowed w w.
Proof.
  split; [reflexivity|]. exists []. rewrite app_nil_r. auto.
Qed.

Lemma keeps_trans {B} (allowed : request -> bool) (w1 w2 w3 : world B) :
  keeps allowed w1 w2 -> keeps allowed w2 w3 -> keeps allowed w1 w3.
Proof.
  intros [Ho1 (evs1 & Ht1 & Ha1)] [Ho2 (evs2 & Ht2 & Ha2)].
  split; [congruence|].
  exists (evs1 ++ evs2)%list. split.
  - rewrite Ht2, Ht1, app_assoc. reflexivity.
  - rewrite forallb_app, Ha1, Ha2. reflexivity.
Qed.

Lemma keeps_new_events {B} (allowed : request -> bool) (w w' : world B) :
  keeps allowed w w' ->
  objects w' = objects w /\
  forallb allowed (requests_of (new_events w w')) = true.
Proof.
  intros [Ho (evs & Ht & Ha)]. split; [exact Ho|].
  unfold new_events. rewrite Ht.
  replace (skipn (List.length (trace w)) (trace w ++ evs)) with evs.
  - clear Ht. induction evs as [|ev evs IH]; simpl in *; auto.
    apply andb_prop in Ha. destruct Ha as [Hev Hrest].
    destruct ev as [rq o|kind text args]; simpl in *.
    + rewrite Hev. apply IH. exact Hrest.
    + apply IH. exact Hrest.
  - clear Ht. induction (trace w) as [|ev t IH]; simpl; auto.
Qed.

Lemma no_request_nil (rqs : list request) :
  forallb no_request rqs = true -> rqs = [].
Proof.
  destruct rqs; simpl; auto. discriminate.
Qed.

Section Frames.

Variable B : Type.
Variable allowed : request -> bool.

Lemma respects_ret {A} (a : A) : respects allowed (@ret B A a).
Proof. intros w. apply keeps_refl. Qed.

Lemma respects_lift {A} (r : result A) : respects allowed (@lift B A r).
Proof. intros w. apply keeps_refl. Qed.

Lemma respects_load (l : nat) : respects allowed (@load B l).
Proof. intros w. apply keeps_refl. Qed.

Lemma respects_get_session : respects allowed (@get_session B).
Proof. intros w. apply keeps_refl. Qed.

Lemma respects_st_rerun : respects allowed (@st_rerun B).
Proof. intros w. apply keeps_refl. Qed.

Lemma respects_ui (kind : ui_kind) (text : string) (args : list fmt_arg) :
  respects allowed (@ui B kind text args).
Proof.
  intros w. split; [reflexivity|]. exists [Ui kind text args]. auto.
Qed.

Lemma respects_call (backend : B -> request -> outcome * B) (rq : request) :
  allowed rq = true -> respects allowed (call backend rq).
Proof.
  intros Hrq w. unfold call.
  destruct (backend (backend_state w) rq) as [[r|e] b']; simpl;
    (split; [reflexivity|]); eexists; (split; [reflexivity|]); simpl;
    rewrite Hrq; reflexivity.
Qed.

Lemma respects_bind {A C} (m : M B A) (k : A -> M B C) :
  respects allowed m -> (forall a, respects allowed (k a)) ->
  respects allowed (bind m k).
Proof.
  intros Hm Hk w. unfold bind. specialize (Hm w).
  destruct (m w) as [[a|e|c] w1]; simpl in *; auto.
  apply (keeps_trans _ _ _ _ Hm). apply Hk.
Qed.

Lemma respects_try {A} (body : M B A) (handler : exn -> M B A) :
  respects allowed body -> (forall e, respects allowed (handler e)) ->
  respects allowed (try_except body handler).
Proof.
  intros Hb Hh w. unfold try_except. specialize (Hb w).
  destruct (body w) as [[a|e|c] w1]; simpl in *; auto.
  apply (keeps_trans _ _ _ _ Hb). apply Hh.
Qed.

End Frames.

Create HintDb frame.
#[local] Hint Resolve respects_ret respects_lift respects_load respects_get_session
  respects_st_rerun respects_ui : frame.

(** One step through a monadic program, for goals [respects allowed m]. *)
Ltac frame_step :=
  first
    [ solve [auto with frame]
    | apply respects_call; reflexivity
    | apply respects_bind; [|intros ?]
    | apply respects_try; [|intros ?]
    | match goal with
      | |- respects _ (if ?c then _ else _) => destruct c
      | |- respects _ (match ?r with Ok _ => _ | Exc _ => _ | Ctl _ => _ end) =>
          destruct r
      end ].

Ltac frames := cbv zeta; repeat frame_step.

Section Rendering.

Variable B : Type.
Variable backend : B -> request -> outcome * B.
Context {pandas : Pandas}.
Variable orders_editor : DataFrame -> DataFrame.
Variable cancel_clicked : bool.

Lemma cancel_order_respects (account_name connector_name order_id : pyval) :
  respects is_cancel (cancel_order backend account_name connector_name order_id).
Proof. unfold cancel_order. frames. Qed.

Lemma cancel_each_respects (rows : list Series) :
  respects is_cancel (cancel_each backend rows).
Proof.
  induction rows as [|order rest IH]; simpl.
  - apply respects_ret.
  - apply respects_bind; [apply cancel_order_respects | intros _; exact IH].
Qed.

Lemma get_balances_respects : respects is_get_state (get_balances backend).
Proof. unfold get_balances. frames. Qed.

Lemma render_positions_table_respects (l : nat) :
  respects no_request (@render_positions_table B pandas l).
Proof. unfold render_positions_table. frames. Qed.

Lemma render_order_history_table_respects (l : nat) :
  respects no_request (@render_order_history_table B pandas l).
Proof. unfold render_order_history_table. frames. Qed.

Lemma render_orders_table_respects (l : nat) :
  respects is_cancel (render_orders_table backend orders_editor cancel_clicked l).
Proof.
  unfold render_orders_table. frames.
  apply cancel_each_respects.
Qed.

Lemma render_balances_table_respects :
  respects is_get_state (render_balances_table backend).
Proof.
  unfold render_balances_table.
  apply respects_bind; [apply get_balances_respects | intros balances].
  frames.
Qed.

(** C6. The table renderers leave the record lists they are handed (and
    every other object) as they were.  [render_positions_table] and
    [render_order_history_table] send the backend nothing;
    [render_orders_table] sends cancel requests only; and
    [render_balances_table], which fetches its own records, sends only the
    portfolio-state request. *)
Theorem rendering_leaves_records_alone (w : world B) (l : nat) :
  let sent (w' : world B) := requests_of (new_events w w') in
  (objects (snd (render_positions_table l w)) = objects w /\
   sent (snd (render_positions_table l w)) = []) /\
  (objects (snd (render_orders_table backend orders_editor cancel_clicked l w))
     = objects w /\
   forallb is_cancel
     (sent (snd (render_orders_table backend orders_editor cancel_clicked l w)))
     = true) /\
  (objects (snd (render_order_history_table l w)) = objects w /\
   sent (snd (render_order_history_table l w)) = []) /\
  (objects (snd (render_balances_table backend w)) = objects w /\
   forallb is_get_state (sent (snd (render_balances_table backend w))) = true).
Proof.
  intros sent. subst sent. cbv beta.
  split; [|split; [|split]].
  - destruct (keeps_new_events _ _ _ (render_positions_table_respects l w)) as [Ho Hr].
    split; [exact Ho | apply no_request_nil; exact Hr].
  - apply keeps_new_events. apply render_orders_table_respects.
  - destruct (keeps_new_events _ _ _ (render_order_history_table_respects l w))
      as [Ho Hr].
    split; [exact Ho | apply no_request_nil; exact Hr].
  - apply keeps_new_events. apply render_balances_table_respects.
Qed.

End Rendering.

(** ** Trade execution *)

Lemma skipn_past {A} (l x : list A) : skipn (List.length l) (l ++ x) = x.
Proof. induction l as [|a l IH]; simpl; auto. Qed.

Section TradeExecution.

Variable B : Type.
Variable backend : B -> request -> outcome * B.

Lemma place_order_respects (order_data : pyval) :
  respects is_place (place_order backend order_data).
Proof. unfold place_order. frames. Qed.

(** The trade block sends nothing but [place_order] requests, and leaves
    every object as it was. *)
Lemma execute_trade_respects (wd : trade_widgets) :
  respects is_place (execute_trade backend wd).
Proof.
  unfold execute_trade. frames.
  all: try (apply respects_bind; [apply place_order_respects | intros _]).
  all: frames.
Qed.

(** C7. When the "Place Order" button is pressed, the one thing the page
    checks is that the amount is greater than zero.  If it is, exactly one
    request goes to the backend: [place_order] with the session's account
    and connector, the market's trading pair and the widgets' order type,
    side and amount as they are, and the price for a limit order that has
    one.  If it is not, nothing is sent and an error is shown. *)
Theorem only_the_amount_is_checked (w : world B) (wd : trade_widgets)
    (trading_pair : pyval) :
  truthy (selected_account (session w)) = true ->
  truthy (selected_connector (session w)) = true ->
  py_getitem (selected_market (session w)) (PStr "trading_pair") = Ok trading_pair ->
  place_clicked wd = true ->
  let events := new_events w (snd (execute_trade backend wd w)) in
  (positive (order_amount wd) = true ->
   requests_of events = [PlaceOrder (forwarded_order (session w) trading_pair wd)]) /\
  (positive (order_amount wd) = false ->
   requests_of events = [] /\
   In (Ui st_error "Please enter a valid amount" []) events).
Proof.
  intros Ha Hc Htp Hclick events. subst events.
  unfold execute_trade, bind, get_session, lift, positive, forwarded_order, new_events.
  rewrite Ha, Hc, Hclick. simpl. rewrite Htp.
  split; intros Hpos; rewrite Hpos.
  - rewrite place_order_run.
    destruct (String.eqb (order_type wd) "limit");
      [destruct (order_price wd)|]; simpl.
    all: destruct (backend (backend_state w) _) as [o b']; simpl.
    all: rewrite <- !app_assoc, skipn_past; simpl.
    all: f_equal.
    all: destruct o as [r|err]; [destruct r|]; try reflexivity.
    all: unfold order_feedback; destruct (status_is_success _); reflexivity.
  - simpl. rewrite <- !app_assoc, skipn_past. simpl. auto.
Qed.

End TradeExecution.

Lemma only_the_amount_is_checked_witness :
  let backend := scripted (fun _ => Return (success_envelope PNone)) in
  requests_of (new_events trading_world
                 (snd (execute_trade backend (market_buy half) trading_world))) =
  [PlaceOrder [("account_name", PStr "master_account");
               ("connector_name", PStr "binance");
               ("trading_pair", PStr "BTC-USDT");
               ("order_type", PStr "market");
               ("trade_type", PStr "buy");
               ("amount", PFloat half)]] /\
  requests_of (new_events trading_world
                 (snd (execute_trade backend (market_buy (S754_zero false))
                         trading_world))) = [].
Proof.
  intros backend. split.
  - destruct (only_the_amount_is_checked unit backend trading_world
                (market_buy half) (PStr "BTC-USDT")
                eq_refl eq_refl eq_refl eq_refl) as [Hsent _].
    apply Hsent. reflexivity.
  - destruct (only_the_amount_is_checked unit backend trading_world
                (market_buy (S754_zero false)) (PStr "BTC-USDT")
                eq_refl eq_refl eq_refl eq_refl) as [_ Hnone].
    apply Hnone. reflexivity.
Defined.

(** The orders table on a two-order list with one order ticked: one cancel
    request goes out, and the list is as it was. *)
Example cancel_ticked_order :
  let orders :=
    PList [PDict [(PStr "client_order_id", PStr "o-1"); (PStr "cancel", PBool false)];
           PDict [(PStr "client_order_id", PStr "o-2"); (PStr "cancel", PBool true);
                  (PStr "account_name", PStr "master_account");
                  (PStr "connector_name", PStr "binance")]] in
  let w := mk_world tt trading_session [orders] 0%nat [] in
  let run := render_orders_table
               (scripted (fun _ => Return (success_envelope PNone)))
               (fun df => df) true 0%nat w in
  fst run = Ctl Rerun /\
  objects (snd run) = [orders] /\
  requests_of (new_events w (snd run)) =
  [CancelOrder (PStr "master_account") (PStr "binance") (PStr "o-2")].
Proof.
  repeat split.
Qed.

(** * Further properties of the page *)

(** ** Dicts *)

Lemma num_eqb_refl (x : numv) : num_eqb x x = true.
Proof.
  destruct x as [m e | neg |]; unfold num_eqb.
  - rewrite Z.min_id, Z.sub_diag. apply Z.eqb_refl.
  - destruct neg; reflexivity.
  - reflexivity.
Qed.

Lemma atom_eqb_refl (k : pyval) : hashable k = true -> atom_eqb k k = true.
Proof.
  destruct k as [| b | n | f | s | xs | d]; try discriminate; intros _;
    cbv beta iota delta [atom_eqb num_of];
    try apply num_eqb_refl.
  - reflexivity.
  - apply String.eqb_refl.
Qed.

Lemma lookup_put_same (k v : pyval) (d : list (pyval * pyval)) :
  hashable k = true -> dict_lookup k (dict_put k v d) <> None.
Proof.
  intros Hk. unfold dict_lookup.
  induction d as [|[k' v'] rest IH]; simpl.
  - rewrite (atom_eqb_refl k Hk). discriminate.
  - destruct (atom_eqb k' k) eqn:He; simpl; rewrite He; [discriminate | exact IH].
Qed.

Lemma lookup_put_kept (a k v : pyval) (d : list (pyval * pyval)) :
  dict_lookup a d <> None -> dict_lookup a (dict_put k v d) <> None.
Proof.
  unfold dict_lookup.
  induction d as [|[k' v'] rest IH]; simpl; [intros H; contradiction|].
  destruct (atom_eqb k' k) eqn:Hk; simpl;
    destruct (atom_eqb k' a) eqn:Ha; auto; discriminate.
Qed.

Lemma put_entries (k v : pyval) (d : list (pyval * pyval)) (k0 v0 : pyval) :
  In (k0, v0) (dict_put k v d) ->
  In (k0, v0) d \/ (atom_eqb k0 k = true /\ v0 = v) \/ (k0 = k /\ v0 = v).
Proof.
  induction d as [|[k' v'] rest IH]; simpl.
  - intros [H|[]]. injection H as <- <-. right. right. auto.
  - destruct (atom_eqb k' k) eqn:Hk; simpl.
    + intros [H|H]; [|left; right; exact H].
      injection H as <- <-. right. left. auto.
    + intros [H|H]; [left; left; exact H|].
      destruct (IH H) as [H'|H']; [left; right; exact H' | right; exact H'].
Qed.

(** ** Accounts and their credentials *)

Section Accounts.

Variable B : Type.
Variable backend : B -> request -> outcome * B.

(** When the credentials loop comes to its end, it has sent one request
    per account, in order, every account could be hashed and has an entry,
    and every entry holds what the backend answered for its account. *)
Lemma fetch_credentials_done (accounts : list pyval) :
  forall credentials_list (w : world B) d,
    fst (fetch_credentials backend accounts credentials_list w) = Ok d ->
    exists b' evs,
      snd (fetch_credentials backend accounts credentials_list w) = advance w b' evs /\
      requests_of evs = map ListCredentials accounts /\
      messages_of evs = [] /\
      forallb hashable accounts = true /\
      (forall a, dict_lookup a credentials_list <> None -> dict_lookup a d <> None) /\
      (forall a, In a accounts -> dict_lookup a d <> None) /\
      (forall k v, In (k, v) d ->
                   In (k, v) credentials_list \/
                   exists a, In a accounts /\ hashable k = true /\
                             atom_eqb k a = true /\
                             In (Request (ListCredentials a) (Return v)) evs).
Proof.
  induction accounts as [|account rest IH]; intros credentials_list w d; simpl.
  - unfold ret. simpl. intros H. injection H as <-.
    exists (backend_state w), []. rewrite advance_nothing.
    repeat split; auto.
  - unfold bind, call, lift.
    destruct (backend (backend_state w) (ListCredentials account)) as [[creds|e] b1];
      [|discriminate].
    fold (advance w b1 [Request (ListCredentials account) (Return creds)]).
    unfold dict_store. destruct (hashable account) eqn:Hh; [|discriminate].
    intros Hd.
    destruct (IH (dict_put account creds credentials_list)
                (advance w b1 [Request (ListCredentials account) (Return creds)]) d Hd)
      as (b' & evs & Hsnd & Hreq & Hmsg & Hhash & Hkept & Hall & Hfrom).
    exists b', (Request (ListCredentials account) (Return creds) :: evs).
    rewrite Hsnd, advance_advance. simpl. rewrite Hreq, Hmsg, Hhash.
    split; [reflexivity|]. split; [reflexivity|]. split; [reflexivity|].
    split; [reflexivity|]. split; [|split].
    + intros a Ha. apply Hkept. apply lookup_put_kept. exact Ha.
    + intros a [<-|Ha].
      * apply Hkept. apply lookup_put_same. exact Hh.
      * apply Hall. exact Ha.
    + intros k v Hin. destruct (Hfrom k v Hin) as [Hput|(a & Ha & Hk & He & Hev)].
      * destruct (put_entries _ _ _ _ _ Hput) as [Hold|[[He ->]|[-> ->]]].
        -- left. exact Hold.
        -- right. exists account. repeat split; auto.
           destruct k; try reflexivity; destruct account; discriminate.
        -- right. exists account. repeat split; auto.
           apply atom_eqb_refl. exact Hh.
      * right. exists a. repeat split; auto.
Qed.

(** The two ways [get_accounts_and_credentials] can go. *)
Lemma get_accounts_and_credentials_cases (w : world B) :
  let run := get_accounts_and_credentials backend w in
  let events := new_events w (snd run) in
  (exists accounts_list accounts d,
      answer backend (backend_state w) ListAccounts = Return accounts_list /\
      py_iter accounts_list = Ok accounts /\
      forallb hashable accounts = true /\
      fst run = Ok (accounts_list, PDict d) /\
      requests_of events = ListAccounts :: map ListCredentials accounts /\
      messages_of events = [] /\
      (forall a, In a accounts -> dict_lookup a d <> None) /\
      (forall k v, In (k, v) d ->
                   exists a, In a accounts /\ hashable k = true /\
                             atom_eqb k a = true /\
                             In (Request (ListCredentials a) (Return v)) events)) \/
  (fst run = Ok (PList [], PDict []) /\
   exists e, messages_of events = [Ui st_error "Failed to fetch accounts: " [FExn e]]).
Proof.
  unfold answer.
  unfold get_accounts_and_credentials, try_except, bind, call, lift, ret, ui, emit.
  destruct (backend (backend_state w) ListAccounts) as [[accounts_list|e] b1].
  - fold (advance w b1 [Request ListAccounts (Return accounts_list)]).
    destruct (py_iter accounts_list) as [accounts|e|c] eqn:Hiter.
    + destruct (fetch_credentials backend accounts []
                  (advance w b1 [Request ListAccounts (Return accounts_list)]))
        as [[d|e|c] w'] eqn:Hrun.
      * destruct (fetch_credentials_done accounts [] _ d
                    (f_equal fst Hrun))
          as (b' & evs & Hsnd & Hreq & Hmsg & Hhash & _ & Hall & Hfrom).
        rewrite Hrun in Hsnd. simpl in Hsnd. subst w'.
        left. exists accounts_list, accounts, d. simpl.
        rewrite advance_advance, new_events_advance. simpl.
        rewrite Hreq, Hmsg. repeat split; auto.
        intros k v H.
        destruct (Hfrom k v H) as [[]|(a & Ha & Hk & He & Hev)]. exists a. auto.
      * right. simpl.
        destruct (fetch_credentials_outcome B backend accounts []
                    (advance w b1 [Request ListAccounts (Return accounts_list)]))
          as (b' & evs & Hsnd & Hmsg & _).
        simpl in Hsnd. rewrite Hrun in Hsnd. simpl in Hsnd. subst w'.
        split; [reflexivity|]. exists e.
        unfold messages_of in *. unfold advance, new_events; simpl.
        rewrite <- !app_assoc, skipn_past. simpl.
        rewrite filter_app, Hmsg. reflexivity.
      * exfalso.
        destruct (fetch_credentials_outcome B backend accounts []
                    (advance w b1 [Request ListAccounts (Return accounts_list)]))
          as (b' & evs & _ & _ & Hno).
        simpl in Hno. rewrite Hrun in Hno. exact Hno.
    + right. simpl. split; [reflexivity|]. exists e.
      unfold advance; simpl. unfold new_events; simpl.
      rewrite <- app_assoc, skipn_past. reflexivity.
    + pose proof (py_iter_no_ctl accounts_list) as H. rewrite Hiter in H.
      contradiction.
  - right. simpl. split; [reflexivity|]. exists e.
    unfold new_events; simpl. rewrite <- app_assoc, skipn_past. reflexivity.
Qed.

End Accounts.

Section AccountsProperties.

Variable B : Type.
Variable backend : B -> request -> outcome * B.

(** X1. [get_candles_connectors] hands on whatever the backend answered,
    as it is (an envelope is not unwrapped) and without any message; when
    the call raises it returns the empty list and shows one warning. *)
Theorem candles_connectors_as_answered (w : world B) :
  let run := get_candles_connectors backend w in
  (forall r,
      answer backend (backend_state w) GetAvailableCandlesFeed = Return r ->
      fst run = Ok r /\ messages_of (new_events w (snd run)) = []) /\
  (forall e,
      answer backend (backend_state w) GetAvailableCandlesFeed = Raise e ->
      fst run = Ok (PList []) /\
      messages_of (new_events w (snd run)) =
      [Ui st_warning "Could not fetch candles feed connectors: " [FExn e]]).
Proof.
  intros run. subst run. unfold answer. rewrite get_candles_connectors_run.
  destruct (backend (backend_state w) GetAvailableCandlesFeed) as [[r|e] b'];
    split; intros x Hx; simpl in Hx; try discriminate Hx;
    injection Hx as <-; simpl; rewrite new_events_advance; auto.
Qed.

(** X2. When [get_accounts_and_credentials] shows no error, it returns the
    backend's account list itself together with a dict that has an entry
    for every account; it has asked for the accounts and then once for the
    credentials of each account, in order, and every entry of the dict
    holds what the backend answered for its account. *)
Theorem accounts_listed_with_credentials (w : world B) :
  let run := get_accounts_and_credentials backend w in
  let events := new_events w (snd run) in
  messages_of events = [] ->
  exists accounts_list accounts d,
    answer backend (backend_state w) ListAccounts = Return accounts_list /\
    py_iter accounts_list = Ok accounts /\
    fst run = Ok (accounts_list, PDict d) /\
    requests_of events = ListAccounts :: map ListCredentials accounts /\
    (forall a, In a accounts -> dict_lookup a d <> None) /\
    (forall k v, In (k, v) d ->
                 exists a, In a accounts /\ atom_eqb k a = true /\
                           In (Request (ListCredentials a) (Return v)) events).
Proof.
  intros run events Hquiet.
  destruct (get_accounts_and_credentials_cases B backend w)
    as [(accounts_list & accounts & d & Ha & Hi & _ & Hr & Hq & _ & Hall & Hfrom)
       |[_ [e He]]].
  - exists accounts_list, accounts, d. repeat split; auto.
    intros k v Hin. destruct (Hfrom k v Hin) as (a & H1 & _ & H2 & H3).
    exists a. auto.
  - fold run events in He. rewrite Hquiet in He. discriminate.
Qed.

(** X3. An account list that cannot be gone through (it is [None] or a
    number), or that holds an account that cannot be a dict key (a list or
    a dict), makes [get_accounts_and_credentials] fall back to [([], {})]
    with one error message, although no backend call need have failed. *)
Theorem unusable_accounts_fall_back (w : world B) (accounts_list : pyval) :
  answer backend (backend_state w) ListAccounts = Return accounts_list ->
  (forall accounts, py_iter accounts_list = Ok accounts ->
                    forallb hashable accounts = false) ->
  let run := get_accounts_and_credentials backend w in
  fst run = Ok (PList [], PDict []) /\
  exists e, messages_of (new_events w (snd run)) =
            [Ui st_error "Failed to fetch accounts: " [FExn e]].
Proof.
  intros Hanswer Hbad run.
  destruct (get_accounts_and_credentials_cases B backend w)
    as [(accounts_list' & accounts & d & Ha & Hi & Hh & _)|Hfall].
  - rewrite Hanswer in Ha. injection Ha as <-.
    rewrite (Hbad accounts Hi) in Hh. discriminate.
  - exact Hfall.
Qed.

End AccountsProperties.

Lemma accounts_listed_with_credentials_witness :
  let run := get_accounts_and_credentials (scripted two_accounts) fresh_world in
  exists d,
    fst run = Ok (PList [PStr "master_account"; PStr "sub_account"], PDict d) /\
    requests_of (new_events fresh_world (snd run)) =
    [ListAccounts; ListCredentials (PStr "master_account");
     ListCredentials (PStr "sub_account")].
Proof.
  destruct (accounts_listed_with_credentials unit (scripted two_accounts) fresh_world
              eq_refl)
    as (accounts_list & accounts & d & Ha & Hi & Hr & Hq & _).
  injection Ha as <-. injection Hi as <-.
  exists d. split; [exact Hr | exact Hq].
Defined.

Lemma unusable_accounts_fall_back_witness :
  fst (get_accounts_and_credentials (scripted account_as_list) fresh_world)
  = Ok (PList [], PDict []) /\
  fst (get_accounts_and_credentials (scripted (fun _ => Return PNone)) fresh_world)
  = Ok (PList [], PDict []).
Proof.
  split.
  - apply (unusable_accounts_fall_back unit (scripted account_as_list) fresh_world
             (PList [PStr "master_account"; PList [PStr "sub"]]) eq_refl).
    intros accounts H. injection H as <-. reflexivity.
  - apply (unusable_accounts_fall_back unit (scripted (fun _ => Return PNone))
             fresh_world PNone eq_refl).
    intros accounts H. discriminate H.
Defined.

(** ** Balances, further *)

Lemma balances_of_exchanges_broken (items : list (pyval * pyval)) :
  forallb (fun entry => isinstance_list (snd entry)) items = true ->
  forallb is_exchange_entry items = false ->
  forall balances, exists e, balances_of_exchanges items balances = Exc e.
Proof.
  induction items as [|[exchange tokens] rest IH]; simpl; [discriminate|].
  intros Hlists Hbad balances.
  apply andb_prop in Hlists. destruct Hlists as [Hlist Hrest].
  destruct tokens; simpl in Hlist; try discriminate Hlist. simpl.
  unfold is_exchange_entry in Hbad at 1. simpl in Hbad.
  destruct (forallb is_token_record xs) eqn:Hrecs; simpl in Hbad.
  - rewrite (balances_of_tokens_records exchange xs Hrecs). simpl.
    apply IH; assumption.
  - destruct (balances_of_tokens_broken exchange xs Hrecs balances) as [e He].
    rewrite He. exists e. reflexivity.
Qed.

Section BalancesProperties.

Variable B : Type.
Variable backend : B -> request -> outcome * B.

(** X4. [get_balances] never raises and always returns a list, whatever
    the backend answers; it sends at most the one portfolio-state request,
    and none at all when no account is selected. *)
Theorem balances_always_a_list (w : world B) :
  let run := get_balances backend w in
  (exists balances, fst run = Ok (PList balances)) /\
  (requests_of (new_events w (snd run)) = [] \/
   requests_of (new_events w (snd run)) =
   [GetState (PList [selected_account (session w)])]) /\
  (truthy (selected_account (session w)) = false -> snd run = w).
Proof.
  intros run. subst run. rewrite get_balances_run. cbv zeta.
  destruct (truthy (selected_account (session w))).
  - destruct (backend (backend_state w) _) as [[r|e] b'].
    + pose proof (balances_of_state_no_ctl (selected_account (session w)) r) as Hc.
      destruct (balances_of_state _ r) as [balances|e|c]; simpl;
        try contradiction; rewrite new_events_advance; simpl.
      * split; [eexists; reflexivity|]. split; [right; reflexivity|discriminate].
      * split; [eexists; reflexivity|]. split; [right; reflexivity|discriminate].
    + simpl. rewrite new_events_advance. simpl.
      split; [eexists; reflexivity|]. split; [right; reflexivity|discriminate].
  - simpl. split; [eexists; reflexivity|]. split; [|reflexivity].
    left. unfold new_events. rewrite skipn_all. reflexivity.
Qed.

(** X5. Balances are all or nothing: when the selected account lists its
    tokens under each exchange but a single token record lacks one of the
    five fields (or is no dict), [get_balances] returns the empty list,
    dropping the records that were in order too, and shows one error. *)
Theorem one_broken_record_drops_all (w : world B)
    (d exchanges : list (pyval * pyval)) :
  let account := selected_account (session w) in
  truthy account = true ->
  answer backend (backend_state w) (GetState (PList [account])) = Return (PDict d) ->
  dict_lookup account d = Some (PDict exchanges) ->
  forallb (fun entry => isinstance_list (snd entry)) exchanges = true ->
  forallb is_exchange_entry exchanges = false ->
  let run := get_balances backend w in
  fst run = Ok (PList []) /\
  exists e, messages_of (new_events w (snd run)) =
            [Ui st_error "Failed to fetch balances: " [FExn e]].
Proof.
  intros account Ht Hanswer Hsome Hlists Hbad run. subst run account.
  rewrite get_balances_run. cbv zeta. rewrite Ht.
  unfold answer in Hanswer.
  destruct (backend (backend_state w) _) as [o b']. simpl in Hanswer. subst o.
  unfold balances_of_state. simpl.
  rewrite (lookup_hashable _ _ _ Hsome), Hsome. simpl.
  destruct (balances_of_exchanges_broken exchanges Hlists Hbad []) as [e He].
  rewrite He. simpl. rewrite new_events_advance.
  split; [reflexivity|]. exists e. reflexivity.
Qed.

End BalancesProperties.

Lemma one_broken_record_drops_all_witness :
  let w := with_account (PStr "master_account") fresh_world in
  fst (get_balances (scripted (fun _ => Return broken_portfolio)) w) = Ok (PList []).
Proof.
  intros w.
  apply (one_broken_record_drops_all unit
           (scripted (fun _ => Return broken_portfolio)) w
           [(PStr "master_account", PDict broken_exchanges)] broken_exchanges);
    reflexivity.
Defined.

(** ** Order actions, further *)

Lemma order_feedback_shown (failure : string)
    (on_success : list (pyval * pyval) -> event) (o : outcome) :
  (forall d, exists text args, on_success d = Ui st_success text args) ->
  exists text args,
    order_feedback failure on_success o =
    Ui (if accepted o then st_success else st_error) text args.
Proof.
  intros Hs. destruct o as [r|e]; [destruct r|]; simpl;
    try (do 2 eexists; reflexivity).
  destruct (match dict_lookup (PStr "status") kvs with
            | Some status => py_eq status (PStr "success")
            | None => false
            end); [apply Hs | do 2 eexists; reflexivity].
Qed.

Section OrderActionsProperties.

Variable B : Type.
Variable backend : B -> request -> outcome * B.

(** X6. Every call of [cancel_order] sends exactly one request and shows
    exactly one message, a success when it returns [True] and an error
    when it returns [False].  [place_order] does the same when its order
    is a dict keyed by strings; otherwise it sends nothing, shows an error
    and returns [False]. *)
Theorem order_actions_report_once (w : world B)
    (order_data account_name connector_name order_id : pyval) :
  let cancelled := cancel_order backend account_name connector_name order_id w in
  let placed := place_order backend order_data w in
  (requests_of (new_events w (snd cancelled)) =
     [CancelOrder account_name connector_name order_id] /\
   exists text args,
     messages_of (new_events w (snd cancelled)) =
     [Ui (if accepts cancelled then st_success else st_error) text args]) /\
  (forall kwargs,
      py_kwargs order_data = Ok kwargs ->
      requests_of (new_events w (snd placed)) = [PlaceOrder kwargs] /\
      exists text args,
        messages_of (new_events w (snd placed)) =
        [Ui (if accepts placed then st_success else st_error) text args]) /\
  (forall e,
      py_kwargs order_data = Exc e ->
      fst placed = Ok false /\
      requests_of (new_events w (snd placed)) = [] /\
      messages_of (new_events w (snd placed)) =
      [Ui st_error "Failed to place order: " [FExn e]]).
Proof.
  intros cancelled placed. subst cancelled placed.
  rewrite cancel_order_run, place_order_run. cbv zeta.
  split; [|split].
  - destruct (backend (backend_state w) (CancelOrder _ _ _)) as [o b'].
    destruct (order_feedback_shown "Failed to cancel order: "
                (order_cancelled order_id) o) as (text & args & Hshown).
    { intros d. do 2 eexists. reflexivity. }
    unfold accepts. simpl. rewrite new_events_advance, Hshown.
    split; [reflexivity|]. exists text, args.
    destruct (accepted o); reflexivity.
  - intros kwargs ->.
    destruct (backend (backend_state w) (PlaceOrder kwargs)) as [o b'].
    destruct (order_feedback_shown "Failed to place order: " order_placed o)
      as (text & args & Hshown).
    { intros d. do 2 eexists. reflexivity. }
    unfold accepts. simpl. rewrite new_events_advance, Hshown.
    split; [reflexivity|]. exists text, args.
    destruct (accepted o); reflexivity.
  - intros e ->. simpl. rewrite new_events_advance. auto.
Qed.

End OrderActionsProperties.

Lemma order_actions_report_once_witness :
  let accepting := scripted (fun _ => Return (success_envelope PNone)) in
  requests_of (new_events fresh_world
                 (snd (place_order accepting (PDict [(PStr "amount", PInt 1)])
                         fresh_world))) = [PlaceOrder [("amount", PInt 1)]] /\
  fst (place_order accepting (PDict [(PInt 1, PInt 1)]) fresh_world) = Ok false.
Proof.
  intros accepting. split.
  - destruct (order_actions_report_once unit accepting fresh_world
                (PDict [(PStr "amount", PInt 1)]) PNone PNone PNone)
      as (_ & Hplaced & _).
    destruct (Hplaced [("amount", PInt 1)] eq_refl) as [Hsent _]. exact Hsent.
  - destruct (order_actions_report_once unit accepting fresh_world
                (PDict [(PInt 1, PInt 1)]) PNone PNone PNone)
      as (_ & _ & Hbad).
    destruct (Hbad (TypeError "keywords must be strings") eq_refl) as [Hfalse _].
    exact Hfalse.
Defined.

(** ** Market data, further *)

Section MarketDataProperties.

Variable B : Type.
Variable backend : B -> request -> outcome * B.
Variable clock : nat -> spec_float.

(** X7. Every call of [get_market_data], also one both of whose fetches
    fail, reads the clock three times and records the fetch time (the
    second reading minus the first, times 1000) and the fetch timestamp
    (the third reading) in the session; everything else in the session,
    and every object, stays as it was. *)
Theorem fetch_time_always_recorded (w : world B)
    (connector trading_pair interval max_records candles_source : pyval) :
  let w' := snd (get_market_data backend clock connector trading_pair interval
                   max_records candles_source w) in
  last_fetch_time (session w') =
    Some (PFloat (float_mul (float_sub (clock (S (ticks w))) (clock (ticks w)))
                            (float_of_int 1000))) /\
  last_fetch_timestamp (session w') = Some (PFloat (clock (S (S (ticks w))))) /\
  ticks w' = S (S (S (ticks w))) /\
  objects w' = objects w /\
  selected_account (session w') = selected_account (session w) /\
  selected_connector (session w') = selected_connector (session w) /\
  selected_market (session w') = selected_market (session w) /\
  candles_connector (session w') = candles_connector (session w) /\
  auto_refresh_enabled (session w') = auto_refresh_enabled (session w) /\
  chart_interval (session w') = chart_interval (session w) /\
  max_candles (session w') = max_candles (session w).
Proof.
  intros w'. subst w'. rewrite get_market_data_run. cbv zeta.
  destruct (backend (backend_state w) _) as [o1 b1].
  destruct (backend b1 _) as [o2 b2]. simpl.
  repeat split.
Qed.

(** X8. [get_market_data] sends exactly two requests, in this order: one
    for the candles, addressed to the candles connector when one is set
    and to the trading connector when it is [None] or empty, and one for
    the prices of the one trading pair, always addressed to the trading
    connector. *)
Theorem market_data_requests (w : world B)
    (connector trading_pair interval max_records candles_connector : pyval) :
  requests_of
    (new_events w
       (snd (get_market_data backend clock connector trading_pair interval
               max_records candles_connector w))) =
  [GetCandles (if truthy candles_connector then candles_connector else connector)
              trading_pair interval max_records;
   GetPrices connector (PList [trading_pair])].
Proof.
  destruct (get_market_data_result B backend clock w connector trading_pair
              interval max_records candles_connector) as [_ Hev].
  cbv zeta in Hev. rewrite Hev. unfold requests_of. simpl.
  rewrite flat_map_app. simpl.
  assert (Hw : forall text failure,
             flat_map (fun ev => match ev with
                                 | Request rq _ => [rq]
                                 | Ui _ _ _ => []
                                 end) (warning_of text failure) = []).
  { intros text [e|]; reflexivity. }
  rewrite !Hw. reflexivity.
Qed.

End MarketDataProperties.

(** ** The list form of a price response, further *)

Lemma atom_eqb_str_right (k : pyval) (name : string) :
  atom_eqb k (PStr name) = true -> k = PStr name.
Proof.
  destruct k; try discriminate. unfold atom_eqb.
  intros H. apply String.eqb_eq in H. congruence.
Qed.

Lemma atom_eqb_str_left (k : pyval) (name : string) :
  atom_eqb (PStr name) k = true -> k = PStr name.
Proof.
  destruct k; try discriminate. unfold atom_eqb.
  intros H. apply String.eqb_eq in H. congruence.
Qed.

Lemma lookup_put_str (name : string) (v : pyval) (d : list (pyval * pyval)) :
  dict_lookup (PStr name) (dict_put (PStr name) v d) = Some v.
Proof.
  unfold dict_lookup. induction d as [|[k' v'] rest IH]; simpl.
  - rewrite String.eqb_refl. reflexivity.
  - destruct (atom_eqb k' (PStr name)) eqn:He; simpl; rewrite He; auto.
Qed.

Lemma lookup_put_other (name : string) (k v : pyval) (d : list (pyval * pyval)) :
  atom_eqb k (PStr name) = false ->
  dict_lookup (PStr name) (dict_put k v d) = dict_lookup (PStr name) d.
Proof.
  intros Hk. unfold dict_lookup. induction d as [|[k' v'] rest IH]; simpl.
  - rewrite Hk. reflexivity.
  - destruct (atom_eqb k' k) eqn:He; simpl.
    + destruct (atom_eqb k' (PStr name)) eqn:Hn; [|reflexivity].
      apply atom_eqb_str_right in Hn. subst k'.
      apply atom_eqb_str_left in He. subst k.
      simpl in Hk. rewrite String.eqb_refl in Hk. discriminate.
    + destruct (atom_eqb k' (PStr name)); [reflexivity | exact IH].
Qed.






(** ** Tables, further *)

Section TablesProperties.

Variable B : Type.
Variable backend : B -> request -> outcome * B.
Context {pandas : Pandas}.
Variable orders_editor : DataFrame -> DataFrame.

(** The cancel loop goes through all its rows, whatever the backend
    answers. *)
Lemma cancel_each_run (rows : list Series) :
  forall w : world B,
    exists b' evs,
      cancel_each backend rows w = (Ok tt, advance w b' evs) /\
      requests_of evs = map cancel_request_of rows.
Proof.
  induction rows as [|order rest IH]; intros w; simpl.
  - exists (backend_state w), []. rewrite advance_nothing. auto.
  - unfold bind. rewrite cancel_order_run. cbv zeta.
    destruct (backend (backend_state w) _) as [o b1] eqn:Hb.
    destruct (IH (advance w b1
                    [Request (CancelOrder
                                (series_get order (PStr "account_name") (PStr ""))
                                (series_get order (PStr "connector_name") (PStr ""))
                                (series_get order (PStr "client_order_id") (PStr "")))
                             o;
                     order_feedback "Failed to cancel order: "
                       (order_cancelled
                          (series_get order (PStr "client_order_id") (PStr ""))) o]))
      as (b' & evs & Hrun & Hreq).
    rewrite Hrun, advance_advance. do 2 eexists. split; [reflexivity|].
    simpl. rewrite Hreq.
    destruct (order_feedback_shown "Failed to cancel order: "
                (order_cancelled (series_get order (PStr "client_order_id") (PStr "")))
                o) as (text & args & ->).
    { intros d. do 2 eexists. reflexivity. }
    reflexivity.
Qed.

(** X10. When the orders table has ticked rows and "Cancel Selected" is
    pressed, one cancel request goes out for every ticked row, in row
    order, each with the row's account, connector and client order id (an
    empty string for a missing one); a cancellation that fails does not
    keep the later ones from being sent; and the run ends by asking for a
    rerun.  When the button is not pressed, nothing is sent. *)
Theorem every_ticked_order_is_cancelled (w : world B) (l : nat)
    (cancel_clicked : bool) (df selected : DataFrame) :
  truthy (nth l (objects w) PNone) = true ->
  pd_DataFrame (nth l (objects w) PNone) = Ok df ->
  df_empty df = false ->
  existsb (fun col => same_or_eq col (PStr "cancel")) (df_columns (orders_editor df))
    = true ->
  df_where (orders_editor df) (PStr "cancel") = Ok selected ->
  df_empty selected = false ->
  let run := render_orders_table backend orders_editor cancel_clicked l w in
  requests_of (new_events w (snd run)) =
    (if cancel_clicked then map cancel_request_of (df_iterrows selected) else []) /\
  fst run = (if cancel_clicked then Ctl Rerun else Ok tt).
Proof.
  intros Ht Hdf He Hcol Hsel Hes run. subst run.
  unfold render_orders_table, bind, load, lift. rewrite Ht, Hdf, He. simpl.
  rewrite Hcol, Hsel, Hes. simpl.
  unfold new_events.
  destruct cancel_clicked; simpl.
  - match goal with
    | |- context [cancel_each backend ?rows ?w0] =>
        destruct (cancel_each_run rows w0) as (b' & evs & Hrun & Hreq)
    end.
    rewrite Hrun. unfold st_rerun, advance. simpl.
    rewrite <- !app_assoc, skipn_past. simpl. auto.
  - rewrite <- !app_assoc, skipn_past. auto.
Qed.

(** X11. The positions and order-history tables are not guarded.  On data
    that is falsy (an empty list, [None]) they show their one "nothing
    found" note without building a frame; an exception raised while the
    frame is built is the only way they fail, it is passed on to the
    caller, and nothing has been shown by then. *)
Theorem tables_on_empty_or_broken_data (w : world B) (l : nat) :
  let data := nth l (objects w) PNone in
  (truthy data = false ->
   render_positions_table l w =
     (Ok tt, advance w (backend_state w) [Ui st_info "No open positions found." []]) /\
   render_order_history_table l w =
     (Ok tt, advance w (backend_state w) [Ui st_info "No order history found." []])) /\
  (forall e,
      fst (render_positions_table l w) = Exc e \/
      fst (render_order_history_table l w) = Exc e ->
      truthy data = true /\ pd_DataFrame data = Exc e) /\
  (forall e,
      truthy data = true -> pd_DataFrame data = Exc e ->
      render_positions_table l w = (Exc e, w) /\
      render_order_history_table l w = (Exc e, w)).
Proof.
  intros data. subst data.
  unfold render_positions_table, render_order_history_table, bind, load, lift, ui, emit,
    advance.
  simpl.
  destruct (truthy (nth l (objects w) PNone)); simpl.
  - split; [discriminate|]. split.
    + intros e.
      destruct (pd_DataFrame (nth l (objects w) PNone)) as [df|e'|c]; simpl.
      * destruct (df_empty df); simpl; intros [H|H]; discriminate H.
      * intros [H|H]; injection H as <-; auto.
      * intros [H|H]; discriminate H.
    + intros e _ ->. auto.
  - split; [auto|]. split.
    + intros e [H|H]; discriminate H.
    + intros e H. discriminate H.
Qed.

End TablesProperties.

Lemma every_ticked_order_is_cancelled_witness :
  let w := mk_world tt trading_session [two_ticked_orders] 0%nat [] in
  let run := render_orders_table refusing (fun df => df) true 0%nat w in
  requests_of (new_events w (snd run)) =
    [CancelOrder (PStr "master_account") (PStr "binance") (PStr "o-1");
     CancelOrder (PStr "master_account") (PStr "kucoin") (PStr "o-2")] /\
  fst run = Ctl Rerun.
Proof.
  intros w.
  apply (every_ticked_order_is_cancelled unit refusing (pandas := record_frames)
           (fun df => df) w 0%nat true
           (records_of two_ticked_orders) (records_of two_ticked_orders));
    reflexivity.
Defined.

Lemma tables_on_empty_or_broken_data_witness :
  render_positions_table 0%nat (mk_world tt initial_session [PList []] 0%nat [])
  = (Ok tt, mk_world tt initial_session [PList []] 0%nat
              [Ui st_info "No open positions found." []]).
Proof.
  destruct (tables_on_empty_or_broken_data unit (pandas := record_frames)
              (mk_world tt initial_session [PList []] 0%nat []) 0%nat)
    as (Hempty & _).
  destruct (Hempty eq_refl) as [Hpos _]. exact Hpos.
Defined.

(** ** Trade execution, further *)

Section TradeExecutionProperties.

Variable B : Type.
Variable backend : B -> request -> outcome * B.

(** What the trade block sends, in full. *)
Lemma execute_trade_sends (w : world B) (wd : trade_widgets) :
  requests_of (new_events w (snd (execute_trade backend wd w))) =
  if truthy (selected_account (session w)) &&
     truthy (selected_connector (session w)) &&
     place_clicked wd && positive (order_amount wd)
  then match py_getitem (selected_market (session w)) (PStr "trading_pair") with
       | Ok trading_pair => [PlaceOrder (forwarded_order (session w) trading_pair wd)]
       | _ => []
       end
  else [].
Proof.
  unfold execute_trade, bind, get_session, lift, positive, forwarded_order, new_events,
    ui, emit, ret.
  destruct (truthy (selected_account (session w))); simpl;
    [|rewrite skipn_past; reflexivity].
  destruct (truthy (selected_connector (session w))); simpl;
    [|rewrite skipn_past; reflexivity].
  destruct (place_clicked wd); simpl.
  - destruct (SFltb (float_of_int 0) (order_amount wd)); simpl.
    + destruct (py_getitem (selected_market (session w)) (PStr "trading_pair"))
        as [trading_pair|e|c]; simpl; try (rewrite skipn_past; reflexivity).
      rewrite place_order_run.
      destruct (String.eqb (order_type wd) "limit");
        [destruct (order_price wd)|]; simpl.
      all: destruct (backend (backend_state w) _) as [o b']; simpl.
      all: rewrite <- !app_assoc, skipn_past; simpl.
      all: f_equal.
      all: destruct o as [r|err]; [destruct r|]; try reflexivity.
      all: unfold order_feedback; destruct (status_is_success _); reflexivity.
    + destruct (py_getitem (selected_market (session w)) (PStr "trading_pair"));
        simpl; rewrite <- ?app_assoc, skipn_past; reflexivity.
  - destruct (py_getitem (selected_market (session w)) (PStr "trading_pair"));
      simpl; rewrite <- ?app_assoc, skipn_past; reflexivity.
Qed.

(** X12. The trade block sends an order exactly when an account and an
    exchange are selected, "Place Order" is pressed, the amount is greater
    than zero and the selected market names a trading pair; it then sends
    that one [place_order] request and nothing else.  In every other case
    it sends nothing at all. *)
Theorem order_sent_exactly_when (w : world B) (wd : trade_widgets) :
  let sent := requests_of (new_events w (snd (execute_trade backend wd w))) in
  let ready :=
    truthy (selected_account (session w)) &&
    truthy (selected_connector (session w)) &&
    place_clicked wd && positive (order_amount wd) in
  (forall trading_pair,
      ready = true ->
      py_getitem (selected_market (session w)) (PStr "trading_pair") = Ok trading_pair ->
      sent = [PlaceOrder (forwarded_order (session w) trading_pair wd)]) /\
  (ready = false -> sent = []) /\
  (forall e,
      py_getitem (selected_market (session w)) (PStr "trading_pair") = Exc e ->
      sent = []) /\
  (List.length sent <= 1)%nat.
Proof.
  intros sent ready. subst sent ready. rewrite execute_trade_sends.
  split; [|split; [|split]].
  - intros trading_pair -> ->. reflexivity.
  - intros ->. reflexivity.
  - intros e ->.
    destruct (truthy (selected_account (session w)) &&
              truthy (selected_connector (session w)) &&
              place_clicked wd && positive (order_amount wd)); reflexivity.
  - destruct (truthy (selected_account (session w)) &&
              truthy (selected_connector (session w)) &&
              place_clicked wd && positive (order_amount wd)); simpl; [|lia].
    destruct (py_getitem (selected_market (session w)) (PStr "trading_pair"));
      simpl; lia.
Qed.

(** X13. A market order is forwarded without a price, and so is a limit
    order whose price is zero; a limit order with any other price carries
    it as its last argument. *)
Theorem price_goes_with_limit_orders (w : world B) (wd : trade_widgets)
    (trading_pair : pyval) :
  truthy (selected_account (session w)) = true ->
  truthy (selected_connector (session w)) = true ->
  py_getitem (selected_market (session w)) (PStr "trading_pair") = Ok trading_pair ->
  place_clicked wd = true ->
  positive (order_amount wd) = true ->
  exists kwargs,
    requests_of (new_events w (snd (execute_trade backend wd w))) = [PlaceOrder kwargs] /\
    (order_type wd <> "limit" ->
     map fst kwargs = ["account_name"; "connector_name"; "trading_pair";
                       "order_type"; "trade_type"; "amount"]) /\
    (order_type wd = "limit" ->
     (forall s, order_price wd = S754_zero s ->
                map fst kwargs = ["account_name"; "connector_name"; "trading_pair";
                                  "order_type"; "trade_type"; "amount"]) /\
     ((forall s, order_price wd <> S754_zero s) ->
      nth_error kwargs 6 = Some ("price", PFloat (order_price wd)))).
Proof.
  intros Ha Hc Htp Hclick Hpos.
  rewrite execute_trade_sends, Ha, Hc, Hclick, Hpos, Htp. simpl.
  eexists. split; [reflexivity|]. unfold forwarded_order.
  split.
  - intros Hmarket. apply String.eqb_neq in Hmarket. rewrite Hmarket. reflexivity.
  - intros Hlimit. rewrite Hlimit. simpl. split.
    + intros s ->. reflexivity.
    + intros Hnz. destruct (order_price wd) as [s | s | | s m e]; try reflexivity.
      exfalso. exact (Hnz s eq_refl).
Qed.

End TradeExecutionProperties.

Lemma price_goes_with_limit_orders_witness :
  let backend := scripted (fun _ => Return (success_envelope PNone)) in
  exists kwargs,
    requests_of (new_events trading_world
                   (snd (execute_trade backend (limit_buy half (S754_zero false))
                           trading_world))) = [PlaceOrder kwargs] /\
    map fst kwargs = ["account_name"; "connector_name"; "trading_pair";
                      "order_type"; "trade_type"; "amount"].
Proof.
  intros backend.
  destruct (price_goes_with_limit_orders unit backend trading_world
              (limit_buy half (S754_zero false)) (PStr "BTC-USDT")
              eq_refl eq_refl eq_refl eq_refl eq_refl)
    as (kwargs & Hsent & _ & Hlimit).
  exists kwargs. split; [exact Hsent|].
  destruct (Hlimit eq_refl) as [Hzero _]. apply (Hzero false). reflexivity.
Defined.

(** ** Session state *)

Lemma setdefault_lookup (key : string) (default : pyval)
    (state : list (pyval * pyval)) (name : string) :
  dict_lookup (PStr name) (setdefault key default state) =
  match dict_lookup (PStr name) state with
  | Some v => Some v
  | None => if String.eqb key name then Some default else None
  end.
Proof.
  unfold setdefault.
  destruct (dict_lookup (PStr key) state) as [v|] eqn:Hkey.
  - destruct (dict_lookup (PStr name) state) as [v'|] eqn:Hname; [reflexivity|].
    destruct (String.eqb key name) eqn:He; [|reflexivity].
    apply String.eqb_eq in He. subst name. congruence.
  - destruct (String.eqb key name) eqn:He.
    + apply String.eqb_eq in He. subst name.
      rewrite lookup_put_str, Hkey. reflexivity.
    + rewrite lookup_put_other by exact He.
      destruct (dict_lookup (PStr name) state); reflexivity.
Qed.

(** X14. After the script's first lines every key of the session holds
    what it held before, if it was there, and its default otherwise: a
    rerun never resets a selection, keys the script does not know are left
    alone, and the seven keys the page reads are all there. *)
Theorem session_defaults_fill_gaps (state : list (pyval * pyval)) (name : string) :
  dict_lookup (PStr name) (initialize_session_state state) =
    match dict_lookup (PStr name) state with
    | Some v => Some v
    | None => session_default name
    end /\
  session_of (initialize_session_state state) <> None.
Proof.
  assert (Hlookup : forall n,
             dict_lookup (PStr n) (initialize_session_state state) =
             match dict_lookup (PStr n) state with
             | Some v => Some v
             | None => session_default n
             end).
  { intros n. unfold initialize_session_state, session_default. cbv zeta.
    rewrite !setdefault_lookup.
    destruct (dict_lookup (PStr n) state); [reflexivity|].
    destruct (String.eqb "selected_account" n); [reflexivity|].
    destruct (String.eqb "selected_connector" n); [reflexivity|].
    destruct (String.eqb "selected_market" n); [reflexivity|].
    destruct (String.eqb "candles_connector" n); [reflexivity|].
    destruct (String.eqb "auto_refresh_enabled" n); [reflexivity|].
    destruct (String.eqb "chart_interval" n); reflexivity. }
  split; [apply Hlookup|].
  unfold session_of. rewrite !Hlookup.
  destruct (dict_lookup (PStr "selected_account") state);
    destruct (dict_lookup (PStr "selected_connector") state);
    destruct (dict_lookup (PStr "selected_market") state);
    destruct (dict_lookup (PStr "candles_connector") state);
    destruct (dict_lookup (PStr "auto_refresh_enabled") state);
    destruct (dict_lookup (PStr "chart_interval") state);
    destruct (dict_lookup (PStr "max_candles") state);
    simpl; discriminate.
Qed.

(** A first run starts from the session the functions above are run in,
    and a later one keeps what the earlier one selected and recorded. *)
Example first_and_later_run :
  session_of (initialize_session_state []) = Some initial_session /\
  option_map selected_account (session_of (initialize_session_state earlier_state))
    = Some (PStr "master_account") /\
  option_map last_fetch_time (session_of (initialize_session_state earlier_state))
    = Some (Some (PInt 12)).
Proof. repeat split. Qed.

(** ** The chart *)

Lemma chart_title_not_empty (a b c : string) :
  truthy (PStr (a ++ ": " ++ b ++ " (" ++ c ++ ")")) = true.
Proof. destruct a; reflexivity. Qed.

Section ChartProperties.

Context {pandas : Pandas} {plotting : Plotting}.

Lemma note_figure_layout (text : string) (args : list fmt_arg) :
  fig_traces (note_figure text args) = [] /\
  fig_annotations (note_figure text args) = [(text, args)] /\
  dict_lookup (PStr "title") (fig_layout (note_figure text args)) = None /\
  dict_lookup (PStr "height") (fig_layout (note_figure text args)) = Some (PInt 600).
Proof. repeat split. Qed.

Lemma chart_figure_layout (trace : Trace) (title : string) :
  truthy (PStr title) = true ->
  let fig := update_layout (get_default_layout (PStr title) (PInt 600) (PInt 1100))
               (add_trace trace go_Figure) in
  fig_traces fig = [trace] /\
  fig_annotations fig = [] /\
  dict_lookup (PStr "title") (fig_layout fig) = Some (PStr title) /\
  dict_lookup (PStr "height") (fig_layout fig) = Some (PInt 600).
Proof.
  intros Ht fig. subst fig. unfold get_default_layout. rewrite Ht.
  repeat split.
Qed.

(** A failing step of the chart is an exception of its [try] block. *)
Lemma chart_failure_caught
    (candles_data connector_name trading_pair interval : pyval) (e : exn) :
  truthy candles_data = true ->
  chart_failure candles_data connector_name trading_pair interval e ->
  create_candlestick_chart candles_data connector_name trading_pair interval =
  Ok (note_figure "Error creating chart: " [FExn e]).
Proof.
  intros Ht Hfail. unfold create_candlestick_chart. rewrite Ht. simpl.
  assert (Hdated : forall df df' (k : DataFrame -> result figure),
             dated_frame df df' ->
             rbind (if in_columns "timestamp" df
                    then rbind (df_column df (PStr "timestamp"))
                           (fun timestamps =>
                              rbind (pd_to_datetime timestamps)
                                (fun datetimes =>
                                   Ok (df_assign df (PStr "datetime") datetimes)))
                    else Ok df) k = k df').
  { intros df df' k [Hno|timestamps datetimes Hyes Hts Hconv].
    - rewrite Hno. reflexivity.
    - rewrite Hyes, Hts. simpl. rewrite Hconv. reflexivity. }
  assert (Hx : forall df' r (k : Column -> result figure),
             x_axis df' r ->
             rbind (if in_columns "datetime" df'
                    then df_column df' (PStr "datetime")
                    else Ok (df_index df')) k = rbind r k).
  { intros df' r k [Hyes|Hno]; [rewrite Hyes | rewrite Hno]; reflexivity. }
  destruct Hfail as
      [Hframe
      |df Hframe Hfull Hts Hcol
      |df timestamps Hframe Hfull Hts Hcol Hconv
      |df df' Hframe Hfull Hd Hax
      |df df' x Hframe Hfull Hd Hax Ho
      |df df' x opens Hframe Hfull Hd Hax Ho Hh
      |df df' x opens highs Hframe Hfull Hd Hax Ho Hh Hl
      |df df' x opens highs lows Hframe Hfull Hd Hax Ho Hh Hl Hc
      |df df' x opens highs lows closes Hframe Hfull Hd Hax Ho Hh Hl Hc Htrace
      |df df' x opens highs lows closes trace Hframe Hfull Hd Hax Ho Hh Hl Hc Htrace
         Hname Htitle];
    rewrite Hframe; simpl; try reflexivity; rewrite Hfull.
  - rewrite Hts, Hcol. reflexivity.
  - rewrite Hts, Hcol. simpl. rewrite Hconv. reflexivity.
  - rewrite (Hdated df df' _ Hd), (Hx df' _ _ Hax). reflexivity.
  - rewrite (Hdated df df' _ Hd), (Hx df' _ _ Hax). simpl. rewrite Ho. reflexivity.
  - rewrite (Hdated df df' _ Hd), (Hx df' _ _ Hax). simpl. rewrite Ho. simpl.
    rewrite Hh. reflexivity.
  - rewrite (Hdated df df' _ Hd), (Hx df' _ _ Hax). simpl. rewrite Ho. simpl.
    rewrite Hh. simpl. rewrite Hl. reflexivity.
  - rewrite (Hdated df df' _ Hd), (Hx df' _ _ Hax). simpl. rewrite Ho. simpl.
    rewrite Hh. simpl. rewrite Hl. simpl. rewrite Hc. reflexivity.
  - rewrite (Hdated df df' _ Hd), (Hx df' _ _ Hax). simpl. rewrite Ho. simpl.
    rewrite Hh. simpl. rewrite Hl. simpl. rewrite Hc. simpl. rewrite Htrace.
    reflexivity.
  - rewrite (Hdated df df' _ Hd), (Hx df' _ _ Hax). simpl. rewrite Ho. simpl.
    rewrite Hh. simpl. rewrite Hl. simpl. rewrite Hc. simpl. rewrite Htrace.
    simpl. rewrite Hname.
    destruct Htitle as [Hn|(connector_text & Hn & [Hp|(pair_text & Hp & Hi)])];
      rewrite Hn; simpl; try reflexivity; rewrite Hp; simpl; try reflexivity.
    rewrite Hi. reflexivity.
Qed.

(** X15. No exception escapes [create_candlestick_chart].  Whatever step
    goes wrong after the candle data was found truthy (building the frame,
    reading or converting the timestamps, reading the x axis or one of the
    open, high, low and close columns, making the trace, formatting the
    title) ends in a figure that carries the note "Error creating chart:"
    with the exception of that step and no trace; candle data that is
    falsy gives the "No candle data available" figure without pandas being
    asked. *)
Theorem chart_never_raises
    (candles_data connector_name trading_pair interval : pyval) :
  let chart := create_candlestick_chart candles_data connector_name trading_pair
                                        interval in
  (forall e, chart <> Exc e) /\
  (truthy candles_data = false ->
   chart = Ok (note_figure "No candle data available" [])) /\
  (forall e,
      truthy candles_data = true ->
      chart_failure candles_data connector_name trading_pair interval e ->
      chart = Ok (note_figure "Error creating chart: " [FExn e]) /\
      fig_traces (note_figure "Error creating chart: " [FExn e]) = []).
Proof.
  intros chart. subst chart.
  split; [|split].
  - unfold create_candlestick_chart.
    intros e. destruct (truthy candles_data); simpl; [|discriminate].
    unfold rtry.
    match goal with
    | |- match ?body with _ => _ end <> _ => destruct body; discriminate
    end.
  - unfold create_candlestick_chart. intros ->. reflexivity.
  - intros e Ht Hfail. split; [|reflexivity].
    apply chart_failure_caught; assumption.
Qed.

(** X16. The figures [create_candlestick_chart] returns are of two kinds.
    One has no trace and no title: the two notes and the bare figure for
    an empty frame.  The other is the chart: exactly one trace, no
    annotation, height 600, and a title that is never empty, "Price Chart"
    when no connector name is given. *)
Theorem chart_has_trace_and_title
    (candles_data connector_name trading_pair interval : pyval) (fig : figure) :
  create_candlestick_chart candles_data connector_name trading_pair interval = Ok fig ->
  (fig_traces fig = [] /\
   dict_lookup (PStr "title") (fig_layout fig) = None) \/
  (exists trace title,
      fig_traces fig = [trace] /\
      fig_annotations fig = [] /\
      dict_lookup (PStr "title") (fig_layout fig) = Some (PStr title) /\
      dict_lookup (PStr "height") (fig_layout fig) = Some (PInt 600) /\
      title <> "" /\
      (truthy connector_name = false -> title = "Price Chart")).
Proof.
  unfold create_candlestick_chart.
  destruct (truthy candles_data); simpl.
  2:{ intros H. injection H as <-. left. split; reflexivity. }
  unfold rtry.
  destruct (pd_DataFrame candles_data) as [df|e|c]; simpl;
    [| intros H; injection H as <-; left; split; reflexivity | discriminate].
  destruct (df_empty df); simpl;
    [intros H; injection H as <-; left; split; reflexivity|].
  match goal with
  | |- match rbind ?r _ with _ => _ end = _ -> _ => destruct r as [df'|e|c]
  end; simpl;
    [| intros H; injection H as <-; left; split; reflexivity | discriminate].
  match goal with
  | |- match rbind ?r _ with _ => _ end = _ -> _ => destruct r as [x|e|c]
  end; simpl;
    [| intros H; injection H as <-; left; split; reflexivity | discriminate].
  destruct (df_column df' (PStr "open")) as [opens|e|c]; simpl;
    [| intros H; injection H as <-; left; split; reflexivity | discriminate].
  destruct (df_column df' (PStr "high")) as [highs|e|c]; simpl;
    [| intros H; injection H as <-; left; split; reflexivity | discriminate].
  destruct (df_column df' (PStr "low")) as [lows|e|c]; simpl;
    [| intros H; injection H as <-; left; split; reflexivity | discriminate].
  destruct (df_column df' (PStr "close")) as [closes|e|c]; simpl;
    [| intros H; injection H as <-; left; split; reflexivity | discriminate].
  destruct (go_Candlestick x opens highs lows closes) as [trace|e|c]; simpl;
    [| intros H; injection H as <-; left; split; reflexivity | discriminate].
  destruct (truthy connector_name) eqn:Hname; simpl.
  - destruct (py_format connector_name "") as [a|e|c]; simpl;
      [| intros H; injection H as <-; left; split; reflexivity | discriminate].
    destruct (py_format trading_pair "") as [b|e|c]; simpl;
      [| intros H; injection H as <-; left; split; reflexivity | discriminate].
    destruct (py_format interval "") as [c0|e|c]; simpl;
      [| intros H; injection H as <-; left; split; reflexivity | discriminate].
    intros H. injection H as <-. right.
    destruct (chart_figure_layout trace _ (chart_title_not_empty a b c0))
      as (H1 & H2 & H3 & H4).
    exists trace, (a ++ ": " ++ b ++ " (" ++ c0 ++ ")").
    split; [exact H1|]. split; [exact H2|]. split; [exact H3|]. split; [exact H4|].
    split.
    + intros Hx. destruct a; discriminate Hx.
    + intros Hx. discriminate Hx.
  - intros H. injection H as <-. right.
    exists trace, "Price Chart". repeat split. intros Hx. discriminate Hx.
Qed.

End ChartProperties.

Lemma chart_never_raises_witness :
  create_candlestick_chart (PList []) (PStr "binance") (PStr "BTC-USDT") (PStr "1m")
  = Ok (note_figure "No candle data available" []) /\
  create_candlestick_chart candle_without_open (PStr "binance") (PStr "BTC-USDT")
                           (PStr "1m")
  = Ok (note_figure "Error creating chart: " [FExn (KeyError (PStr "open"))]).
Proof.
  split.
  - destruct (chart_never_raises (PList []) (PStr "binance") (PStr "BTC-USDT")
                (PStr "1m")) as (_ & Hnone & _).
    apply Hnone. reflexivity.
  - destruct (chart_never_raises candle_without_open (PStr "binance")
                (PStr "BTC-USDT") (PStr "1m")) as (_ & _ & Hfail).
    apply (Hfail (KeyError (PStr "open")) eq_refl).
    eapply open_fails.
    + reflexivity.
    + reflexivity.
    + apply frame_as_it_is. reflexivity.
    + apply x_is_index. reflexivity.
    + reflexivity.
Defined.

Lemma chart_has_trace_and_title_witness :
  exists fig title,
    create_candlestick_chart one_candle (PStr "") (PStr "BTC-USDT") (PStr "1m")
    = Ok fig /\
    List.length (fig_traces fig) = 1%nat /\
    dict_lookup (PStr "title") (fig_layout fig) = Some (PStr title) /\
    title = "Price Chart".
Proof.
  destruct (create_candlestick_chart one_candle (PStr "") (PStr "BTC-USDT") (PStr "1m"))
    as [fig|e|c] eqn:Hchart; try discriminate Hchart.
  destruct (chart_has_trace_and_title one_candle (PStr "") (PStr "BTC-USDT")
              (PStr "1m") fig Hchart)
    as [[Hnone _]|(trace & title & Ht & _ & Htitle & _ & _ & Hdefault)].
  - exfalso. injection Hchart as <-. discriminate Hnone.
  - exists fig, title. split; [reflexivity|]. rewrite Ht.
    split; [reflexivity|]. split; [exact Htitle|]. apply Hdefault. reflexivity.
Defined.

(** ** Selecting the account *)

Lemma first_position_found (xs : list pyval) (v : pyval) :
  existsb (fun y => same_or_eq y v) xs = true ->
  exists n y, first_position xs v = Some n /\ nth_error xs n = Some y /\
              same_or_eq y v = true.
Proof.
  induction xs as [|x rest IH]; simpl; [discriminate|].
  destruct (same_or_eq x v) eqn:Hx; simpl.
  - intros _. exists O, x. auto.
  - intros H. destruct (IH H) as (n & y & -> & Hn & Hy).
    exists (S n), y. auto.
Qed.

Lemma first_position_in_range (xs : list pyval) (v : pyval) (n : nat) :
  first_position xs v = Some n -> (n < List.length xs)%nat.
Proof.
  revert n. induction xs as [|x rest IH]; simpl; [discriminate|].
  intros n. destruct (same_or_eq x v).
  - intros H. injection H as <-. lia.
  - destruct (first_position rest v) as [m|]; [|discriminate].
    intros H. injection H as <-. specialize (IH m eq_refl). lia.
Qed.

Lemma first_position_missing (xs : list pyval) (v : pyval) :
  existsb (fun y => same_or_eq y v) xs = false -> first_position xs v = None.
Proof.
  induction xs as [|x rest IH]; simpl; [reflexivity|].
  intros Hin. apply orb_false_elim in Hin. destruct Hin as [-> Hrest].
  rewrite (IH Hrest). reflexivity.
Qed.

Lemma first_position_first (xs : list pyval) (v : pyval) (n : nat) :
  first_position xs v = Some n ->
  (exists y, nth_error xs n = Some y /\ same_or_eq y v = true) /\
  (forall m z, (m < n)%nat -> nth_error xs m = Some z -> same_or_eq z v = false).
Proof.
  revert n. induction xs as [|x rest IH]; simpl; [discriminate|].
  intros n. destruct (same_or_eq x v) eqn:Hx.
  - intros H. injection H as <-. split; [exists x; auto|].
    intros m z Hm. lia.
  - destruct (first_position rest v) as [k|]; [|discriminate].
    intros H. injection H as <-. destruct (IH k eq_refl) as [Hhit Hbefore].
    split; [exact Hhit|].
    intros [|m] z Hm Hz; simpl in Hz.
    + injection Hz as <-. exact Hx.
    + apply (Hbefore m z); [lia | exact Hz].
Qed.

Section AccountSelection.

Variable B : Type.
Variable st_selectbox : string -> pyval -> pyval -> result pyval.

(** A run of the "Account" column on a list of accounts. *)
Lemma select_account_run (w : world B) (first : pyval) (rest : list pyval) :
  let accounts := first :: rest in
  let remembered := remembered_account (session w) first in
  let n := match first_position accounts remembered with Some n => n | None => O end in
  let w' := with_session (set_selected_account remembered (session w)) w in
  select_account st_selectbox (PList accounts) w =
  match st_selectbox "account_selector" (PList accounts) (PInt (Z.of_nat n)) with
  | Ok selected =>
      (Ok selected, with_session (set_selected_account selected (session w)) w)
  | Exc e => (Exc e, w')
  | Ctl c => (Ctl c, w')
  end.
Proof.
  intros accounts remembered n w'. subst accounts remembered n w'.
  unfold select_account, remembered_account, with_session.
  unfold bind, get_session, lift, ret, update_session.
  destruct w as [b s objs t tr]. destruct s as [acc conn mkt cc ar ci mc lt ls].
  cbn [truthy negb session selected_account backend_state objects ticks trace fst snd].
  destruct acc;
    cbn [py_getitem int_index seq_index nth_error session selected_account
         backend_state objects ticks trace set_selected_account
         selected_connector selected_market candles_connector auto_refresh_enabled
         chart_interval max_candles last_fetch_time last_fetch_timestamp
         py_contains py_index].
  1: simpl;
     change (same_or_eq first first || existsb (fun y => same_or_eq y first) rest)%bool
       with (existsb (fun y => same_or_eq y first) (first :: rest));
     change (if same_or_eq first first then Some O
             else match first_position rest first with
                  | Some n => Some (S n)
                  | None => None
                  end)
       with (first_position (first :: rest) first).
  all: match goal with
       | |- context [existsb (fun y => same_or_eq y ?v) ?xs] =>
           destruct (existsb (fun y => same_or_eq y v) xs) eqn:Hin;
           [ destruct (first_position_found _ _ Hin) as (pos & hit & Hpos & _); rewrite Hpos
           | rewrite (first_position_missing _ _ Hin) ]
       end.
  all: cbn beta iota; change (Z.of_nat 0) with 0.
  all: match goal with
       | |- context [st_selectbox ?k ?o ?i] => destruct (st_selectbox k o i)
       end; reflexivity.
Qed.

(** X17. With no accounts the "Account" column shows "No accounts found"
    and stops the script.  With a list of accounts it never fails on its
    own: an empty selection is first set to the first account, and the
    select box is opened at the position of the first account equal to
    the remembered one (no account before that position equals it), or at
    position 0 when the remembered one is not in the list, so the position
    is always within the list; what the box hands back becomes the
    selected account. *)
Theorem account_selection (w : world B) (accounts_list : pyval) :
  (truthy accounts_list = false ->
   select_account st_selectbox accounts_list w =
   (Ctl Stop, advance w (backend_state w) [Ui st_error "No accounts found" []])) /\
  (forall first rest,
      accounts_list = PList (first :: rest) ->
      let remembered := remembered_account (session w) first in
      let listed := existsb (fun y => same_or_eq y remembered) (first :: rest) in
      exists n,
        (n < List.length (first :: rest))%nat /\
        (listed = false -> n = O) /\
        (listed = true ->
         (exists y, nth_error (first :: rest) n = Some y /\
                    same_or_eq y remembered = true) /\
         (forall m z, (m < n)%nat -> nth_error (first :: rest) m = Some z ->
                      same_or_eq z remembered = false)) /\
        fst (select_account st_selectbox accounts_list w) =
        st_selectbox "account_selector" accounts_list (PInt (Z.of_nat n)) /\
        (forall selected,
            st_selectbox "account_selector" accounts_list (PInt (Z.of_nat n))
            = Ok selected ->
            snd (select_account st_selectbox accounts_list w) =
            with_session (set_selected_account selected (session w)) w)).
Proof.
  split.
  - intros Hf. unfold select_account. rewrite Hf. reflexivity.
  - intros first rest -> remembered listed.
    rewrite select_account_run. cbv zeta. fold remembered.
    destruct (first_position (first :: rest) remembered) as [n|] eqn:Hn.
    + exists n. split; [apply (first_position_in_range _ _ _ Hn)|].
      destruct (first_position_first _ _ _ Hn) as [Hhit Hbefore].
      split.
      * intros Hmissing. subst listed.
        rewrite (first_position_missing _ _ Hmissing) in Hn. discriminate Hn.
      * split; [intros _; split; assumption|].
        destruct (st_selectbox _ _ _) as [selected|e|c]; simpl;
          split; try reflexivity; try discriminate.
        intros s H. injection H as <-. reflexivity.
    + exists O. split; [simpl; lia|]. split; [reflexivity|].
      split.
      * intros Hlisted. subst listed.
        destruct (first_position_found _ _ Hlisted) as (k & y & Hk & _).
        rewrite Hk in Hn. discriminate Hn.
      * destruct (st_selectbox _ _ _) as [selected|e|c]; simpl;
          split; try reflexivity; try discriminate.
        intros s H. injection H as <-. reflexivity.
Qed.

End AccountSelection.

Lemma account_selection_witness :
  let w := with_session (set_selected_account (PStr "sub_account") initial_session)
                        fresh_world in
  let accounts := PList [PStr "master_account"; PStr "sub_account"] in
  fst (select_account untouched accounts w) = Ok (PStr "sub_account") /\
  fst (select_account untouched (PList []) w) = Ctl Stop.
Proof.
  intros w accounts. split.
  - destruct (account_selection unit untouched w accounts) as [_ H].
    destruct (H (PStr "master_account") [PStr "sub_account"] eq_refl)
      as (n & Hn & _ & Hlisted & Hfst & _).
    destruct (Hlisted eq_refl) as [(y & Hy & Hsame) _].
    rewrite Hfst. simpl in Hn.
    destruct n as [|[|n]]; simpl in Hy.
    + injection Hy as <-. discriminate Hsame.
    + reflexivity.
    + lia.
  - destruct (account_selection unit untouched w (PList [])) as [H _].
    rewrite (H eq_refl). reflexivity.
Defined.

(** ** Selecting the exchange *)






Section ConnectorSelection.

Variable B : Type.
Variable st_selectbox : string -> pyval -> pyval -> result pyval.


End ConnectorSelection.


Lemma order_sent_exactly_when_witness :
  let backend := scripted (fun _ => Return (success_envelope PNone)) in
  requests_of (new_events trading_world
                 (snd (execute_trade backend (market_buy half) trading_world))) =
  [PlaceOrder (forwarded_order trading_session (PStr "BTC-USDT") (market_buy half))] /\
  requests_of (new_events fresh_world
                 (snd (execute_trade backend (market_buy half) fresh_world))) = [].
Proof.
  intros backend. split.
  - destruct (order_sent_exactly_when unit backend trading_world (market_buy half))
      as (Hsent & _).
    apply Hsent; reflexivity.
  - destruct (order_sent_exactly_when unit backend fresh_world (market_buy half))
      as (_ & Hnone & _).
    apply Hnone. reflexivity.
Defined.

(** ** The chart settings *)

Section ChartSettings.

Variable B : Type.
Variable st_selectbox : string -> pyval -> pyval -> result pyval.

(** X19. The chart settings store [None] as the candles source when there
    are no candles connectors or the user leaves the box at "Same as
    trading", and the user's pick otherwise; the box offers "Same as
    trading" followed by the connectors.  Candles connectors that are
    truthy but no list (an envelope, say, which [get_candles_connectors]
    hands on as it is) make the script fail with a TypeError.  The
    settings never send a request. *)
Theorem candles_source_setting (w : world B) (candles_connectors interval : pyval)
    (inp : page_inputs) :
  st_selectbox "interval_selector" intervals (PInt 0) = Ok interval ->
  let run := chart_settings st_selectbox candles_connectors inp w in
  requests_of (new_events w (snd run)) = [] /\
  chart_interval (session (snd run)) = interval /\
  (truthy candles_connectors = false ->
   candles_connector (session (snd run)) = PNone /\
   max_candles (session (snd run)) = max_candles_value inp /\
   fst run = if refresh_clicked inp then Ctl Rerun else Ok tt) /\
  (forall connectors pick,
      candles_connectors = PList connectors -> connectors <> [] ->
      st_selectbox "candles_connector_selector"
                   (PList (PStr "Same as trading" :: connectors)) (PInt 0) = Ok pick ->
      candles_connector (session (snd run)) =
        (if py_eq pick (PStr "Same as trading") then PNone else pick) /\
      max_candles (session (snd run)) = max_candles_value inp /\
      fst run = if refresh_clicked inp then Ctl Rerun else Ok tt) /\
  (truthy candles_connectors = true -> isinstance_list candles_connectors = false ->
   exists msg, fst run = Exc (TypeError msg)).
Proof.
  intros Hinterval run. subst run.
  unfold chart_settings, bind, lift, update_session, ui, emit, st_rerun, ret,
    new_events.
  fold intervals. rewrite Hinterval. simpl.
  destruct (truthy candles_connectors) eqn:Ht; simpl.
  - split.
    { destruct candles_connectors; simpl; try (rewrite skipn_all; reflexivity).
      destruct (st_selectbox "candles_connector_selector" _ _); simpl;
        try (rewrite skipn_all; reflexivity).
      destruct (refresh_clicked inp); simpl; rewrite skipn_past; reflexivity. }
    split.
    { destruct candles_connectors; simpl; try reflexivity.
      destruct (st_selectbox "candles_connector_selector" _ _); simpl;
        try reflexivity.
      destruct (refresh_clicked inp); reflexivity. }
    split; [discriminate|]. split.
    + intros connectors pick -> Hne Hpick. simpl. rewrite Hpick. simpl.
      destruct (refresh_clicked inp); simpl; auto.
    + intros _ Hl. destruct candles_connectors; simpl in *; try discriminate;
        eexists; reflexivity.
  - split; [destruct (refresh_clicked inp); simpl; rewrite skipn_past; reflexivity|].
    split; [destruct (refresh_clicked inp); reflexivity|].
    split; [intros _; destruct (refresh_clicked inp); simpl; auto|].
    split; [|discriminate].
    intros connectors pick -> Hne. destruct connectors; [contradiction|discriminate].
Qed.

End ChartSettings.

Lemma candles_source_setting_witness :
  let run := chart_settings untouched (PList [PStr "binance"]) idle_inputs fresh_world in
  candles_connector (session (snd run)) = PNone /\
  fst (chart_settings untouched (success_envelope (PList [PStr "binance"])) idle_inputs
         fresh_world)
  = Exc (TypeError ("can only concatenate list (not " ++ double_quote ++ "dict"
                    ++ double_quote ++ ") to list")).
Proof.
  intros run. split.
  - destruct (candles_source_setting unit untouched fresh_world
                (PList [PStr "binance"]) (PStr "1m") idle_inputs eq_refl)
      as (_ & _ & _ & Hlist & _).
    destruct (Hlist [PStr "binance"] (PStr "Same as trading") eq_refl)
      as (Hsource & _); [discriminate | reflexivity |]. exact Hsource.
  - destruct (candles_source_setting unit untouched fresh_world
                (success_envelope (PList [PStr "binance"])) (PStr "1m") idle_inputs
                eq_refl) as (_ & _ & _ & _ & Hbad).
    destruct (Hbad eq_refl eq_refl) as [msg Hmsg]. rewrite Hmsg.
    unfold chart_settings in Hmsg. simpl in Hmsg. injection Hmsg as <-. reflexivity.
Defined.

(** ** What the display touches *)

Lemma keeps_weaken {B} (allowed allowed' : request -> bool) (w w' : world B) :
  (forall rq, allowed rq = true -> allowed' rq = true) ->
  keeps allowed w w' -> keeps allowed' w w'.
Proof.
  intros Hsub [Ho (evs & Ht & Ha)]. split; [exact Ho|].
  exists evs. split; [exact Ht|].
  rewrite forallb_forall in *. intros ev Hin. specialize (Ha ev Hin).
  destruct ev; simpl in *; auto.
Qed.

Lemma respects_weaken {B A} (allowed allowed' : request -> bool) (m : M B A) :
  (forall rq, allowed rq = true -> allowed' rq = true) ->
  respects allowed m -> respects allowed' m.
Proof.
  intros Hsub Hm w. apply (keeps_weaken allowed allowed'); auto.
Qed.

Lemma grows_refl {B} (allowed : request -> bool) (w : world B) : grows allowed w w.
Proof.
  split; [exists []; rewrite app_nil_r; reflexivity|].
  exists []. rewrite app_nil_r. auto.
Qed.

Lemma grows_trans {B} (allowed : request -> bool) (w1 w2 w3 : world B) :
  grows allowed w1 w2 -> grows allowed w2 w3 -> grows allowed w1 w3.
Proof.
  intros [[a1 Ho1] (evs1 & Ht1 & Ha1)] [[a2 Ho2] (evs2 & Ht2 & Ha2)].
  split.
  - exists (a1 ++ a2)%list. rewrite Ho2, Ho1, app_assoc. reflexivity.
  - exists (evs1 ++ evs2)%list. split.
    + rewrite Ht2, Ht1, app_assoc. reflexivity.
    + rewrite forallb_app, Ha1, Ha2. reflexivity.
Qed.

Lemma keeps_grows {B} (allowed : request -> bool) (w w' : world B) :
  keeps allowed w w' -> grows allowed w w'.
Proof.
  intros [Ho Hev]. split; [|exact Hev].
  exists []. rewrite app_nil_r. exact Ho.
Qed.

Lemma grows_new_events {B} (allowed : request -> bool) (w w' : world B) :
  grows allowed w w' ->
  firstn (List.length (objects w)) (objects w') = objects w /\
  forallb allowed (requests_of (new_events w w')) = true.
Proof.
  intros [[added Ho] (evs & Ht & Ha)]. split.
  - rewrite Ho, firstn_app, Nat.sub_diag, firstn_all. simpl. apply app_nil_r.
  - unfold new_events. rewrite Ht, skipn_past.
    clear Ht. induction evs as [|ev evs IH]; simpl in *; auto.
    apply andb_prop in Ha. destruct Ha as [Hev Hrest].
    destruct ev as [rq o|kind text args]; simpl in *.
    + rewrite Hev. apply IH. exact Hrest.
    + apply IH. exact Hrest.
Qed.

Section Obeying.

Variable B : Type.
Variable allowed : request -> bool.

Lemma respects_obeys {A} (m : M B A) : respects allowed m -> obeys allowed m.
Proof. intros H w. apply keeps_grows. apply H. Qed.

Lemma obeys_bind {A C} (m : M B A) (k : A -> M B C) :
  obeys allowed m -> (forall a, obeys allowed (k a)) -> obeys allowed (bind m k).
Proof.
  intros Hm Hk w. unfold bind. specialize (Hm w).
  destruct (m w) as [[a|e|c] w1]; simpl in *; auto.
  apply (grows_trans _ _ _ _ Hm). apply Hk.
Qed.

Lemma obeys_alloc (v : pyval) : obeys allowed (@alloc B v).
Proof.
  intros w. split; [exists [v]; reflexivity|].
  exists []. simpl. rewrite app_nil_r. auto.
Qed.

Lemma respects_update_session (f : session_state -> session_state) :
  respects allowed (@update_session B f).
Proof.
  intros w. split; [reflexivity|]. exists []. simpl. rewrite app_nil_r. auto.
Qed.

Lemma respects_time_time (clock : nat -> spec_float) :
  respects allowed (@time_time B clock).
Proof.
  intros w. split; [reflexivity|]. exists []. simpl. rewrite app_nil_r. auto.
Qed.

Lemma respects_st_stop : respects allowed (@st_stop B).
Proof. intros w. apply keeps_refl. Qed.

End Obeying.

#[local] Hint Resolve respects_update_session respects_time_time respects_st_stop
  : frame.

Section Display.

Variable B : Type.
Variable backend : B -> request -> outcome * B.
Variable clock : nat -> spec_float.
Context {pandas : Pandas} {plotting : Plotting}.
Variable orders_editor : DataFrame -> DataFrame.
Variable cancel_clicked : bool.
Variable st_selectbox : string -> pyval -> pyval -> result pyval.

Lemma get_market_data_reads
    (connector trading_pair interval max_records candles_connector : pyval) :
  respects reads_or_cancels
    (get_market_data backend clock connector trading_pair interval max_records
                     candles_connector).
Proof. unfold get_market_data. frames. Qed.

Lemma get_positions_reads : respects reads_or_cancels (get_positions backend).
Proof. unfold get_positions. frames. Qed.

Lemma get_active_orders_reads : respects reads_or_cancels (get_active_orders backend).
Proof. unfold get_active_orders. frames. Qed.

Lemma get_order_history_reads : respects reads_or_cancels (get_order_history backend).
Proof. unfold get_order_history. frames. Qed.

Lemma tables_read_or_cancel (l : nat) :
  respects reads_or_cancels (@render_positions_table B pandas l) /\
  respects reads_or_cancels
    (render_orders_table backend orders_editor cancel_clicked l) /\
  respects reads_or_cancels (@render_order_history_table B pandas l) /\
  respects reads_or_cancels (render_balances_table backend).
Proof.
  split; [|split; [|split]].
  - apply (respects_weaken no_request); [discriminate|].
    apply render_positions_table_respects.
  - apply (respects_weaken is_cancel);
      [intros rq; destruct rq; simpl; auto; discriminate|].
    apply render_orders_table_respects.
  - apply (respects_weaken no_request); [discriminate|].
    apply render_order_history_table_respects.
  - apply (respects_weaken is_get_state);
      [intros rq; destruct rq; simpl; auto; discriminate|].
    apply render_balances_table_respects.
Qed.

(** What follows the market data in [show_trading_data]. *)
Lemma show_trading_data_obeys :
  obeys reads_or_cancels
        (show_trading_data backend clock orders_editor cancel_clicked).
Proof.
  unfold show_trading_data.
  apply obeys_bind; [apply respects_obeys; frames | intros st].
  apply obeys_bind; [apply respects_obeys; frames | intros connector].
  apply obeys_bind; [apply respects_obeys; frames | intros trading_pair].
  cbv zeta.
  destruct (negb (truthy connector) || negb (truthy trading_pair));
    [apply respects_obeys; frames|].
  apply obeys_bind; [apply respects_obeys; apply get_market_data_reads | intros market].
  apply obeys_bind; [apply respects_obeys; frames | intros quoted].
  apply obeys_bind; [apply respects_obeys; frames | intros _].
  apply obeys_bind; [apply respects_obeys; frames | intros _].
  apply obeys_bind; [apply respects_obeys; frames | intros _].
  apply obeys_bind; [apply respects_obeys; frames | intros st'].
  apply obeys_bind;
    [apply respects_obeys; destruct (last_fetch_time st'); frames | intros _].
  apply obeys_bind; [apply respects_obeys; frames | intros fig].
  apply obeys_bind; [apply respects_obeys; apply get_positions_reads | intros positions].
  apply obeys_bind; [apply respects_obeys; apply get_active_orders_reads | intros orders].
  apply obeys_bind;
    [apply respects_obeys; apply get_order_history_reads | intros order_history].
  apply obeys_bind; [apply respects_obeys; apply tables_read_or_cancel; exact O
                    | intros _].
  apply obeys_bind; [apply obeys_alloc | intros positions_ref].
  apply obeys_bind; [apply respects_obeys; apply tables_read_or_cancel | intros _].
  apply obeys_bind; [apply obeys_alloc | intros orders_ref].
  apply obeys_bind; [apply respects_obeys; apply tables_read_or_cancel | intros _].
  apply obeys_bind; [apply obeys_alloc | intros history_ref].
  apply respects_obeys. apply tables_read_or_cancel.
Qed.

(** X20. [show_trading_data] never places an order: whatever the backend
    answers and whatever the user ticks, the requests it sends are reads
    and cancellations only, and the objects that existed before are left
    as they were. *)
Theorem display_never_places_orders (w : world B) :
  let w' := snd (show_trading_data backend clock orders_editor cancel_clicked w) in
  firstn (List.length (objects w)) (objects w') = objects w /\
  forallb reads_or_cancels (requests_of (new_events w w')) = true /\
  (forall kwargs, ~ In (PlaceOrder kwargs) (requests_of (new_events w w'))).
Proof.
  intros w'. subst w'.
  destruct (grows_new_events _ _ _ (show_trading_data_obeys w)) as [Ho Hr].
  split; [exact Ho|]. split; [exact Hr|].
  intros kwargs Hin. rewrite forallb_forall in Hr.
  specialize (Hr _ Hin). discriminate Hr.
Qed.

(** [show_trading_data] is its guard, then the market data, then the
    rest, which reads and cancels only. *)
Lemma show_trading_data_steps (w : world B) (market : list (pyval * pyval)) :
  selected_market (session w) = PDict market ->
  let connector := field_or PNone "connector" market in
  let trading_pair := field_or PNone "trading_pair" market in
  exists rest : pyval * pyval -> M B unit,
    (forall a, obeys reads_or_cancels (rest a)) /\
    show_trading_data backend clock orders_editor cancel_clicked w =
    (if negb (truthy connector) || negb (truthy trading_pair)
     then ui st_warning "Please select an account and trading pair" []
     else bind (get_market_data backend clock connector trading_pair
                  (chart_interval (session w)) (max_candles (session w))
                  (candles_connector (session w))) rest) w.
Proof.
  intros Hmarket connector trading_pair.
  eexists. split.
  2:{ unfold show_trading_data.
      unfold bind at 1. unfold get_session at 1.
      unfold bind at 1. unfold lift at 1. rewrite Hmarket. simpl py_get.
      unfold bind at 1. unfold lift at 1.
      reflexivity. }
  intros market0. cbv beta.
  apply obeys_bind; [apply respects_obeys; frames | intros quoted].
  apply obeys_bind; [apply respects_obeys; frames | intros _].
  apply obeys_bind; [apply respects_obeys; frames | intros _].
  apply obeys_bind; [apply respects_obeys; frames | intros _].
  apply obeys_bind; [apply respects_obeys; frames | intros st'].
  apply obeys_bind;
    [apply respects_obeys; destruct (last_fetch_time st'); frames | intros _].
  apply obeys_bind; [apply respects_obeys; frames | intros fig].
  apply obeys_bind; [apply respects_obeys; apply get_positions_reads
                    | intros positions].
  apply obeys_bind; [apply respects_obeys; apply get_active_orders_reads
                    | intros orders].
  apply obeys_bind;
    [apply respects_obeys; apply get_order_history_reads | intros order_history].
  apply obeys_bind; [apply respects_obeys; apply tables_read_or_cancel; exact O
                    | intros _].
  apply obeys_bind; [apply obeys_alloc | intros positions_ref].
  apply obeys_bind; [apply respects_obeys; apply tables_read_or_cancel | intros _].
  apply obeys_bind; [apply obeys_alloc | intros orders_ref].
  apply obeys_bind; [apply respects_obeys; apply tables_read_or_cancel | intros _].
  apply obeys_bind; [apply obeys_alloc | intros history_ref].
  apply respects_obeys. apply tables_read_or_cancel.
Qed.

(** The requests among the events of [get_market_data]. *)
Lemma market_data_events_requests (rq1 rq2 : request) (o1 o2 : outcome)
    (later : list event) :
  requests_of
    (Request rq1 o1 :: warning_of "Could not fetch candles: " (candles_failure o1) ++
     Request rq2 o2 :: warning_of "Could not fetch prices: " (prices_failure o2) ++
     later) = rq1 :: rq2 :: requests_of later.
Proof.
  assert (Hw : forall text failure tail,
             requests_of (warning_of text failure ++ tail) = requests_of tail).
  { intros text [e|] tail; reflexivity. }
  simpl. rewrite Hw. simpl. rewrite Hw. reflexivity.
Qed.

(** X21. Without a connector or a trading pair in the selected market
    [show_trading_data] shows one warning and asks the backend nothing.
    With both, it first asks for the candles (from the candles source, or
    from the trading connector when none is set) and then for the price of
    the pair, with the interval and the number of candles of the
    session. *)
Theorem display_starts_with_market_data (w : world B) (market : list (pyval * pyval)) :
  selected_market (session w) = PDict market ->
  let connector := field_or PNone "connector" market in
  let trading_pair := field_or PNone "trading_pair" market in
  let run := show_trading_data backend clock orders_editor cancel_clicked w in
  (truthy connector && truthy trading_pair = false ->
   run = (Ok tt, advance w (backend_state w)
                   [Ui st_warning "Please select an account and trading pair" []])) /\
  (truthy connector && truthy trading_pair = true ->
   exists later,
     requests_of (new_events w (snd run)) =
     GetCandles (if truthy (candles_connector (session w))
                 then candles_connector (session w) else connector)
                trading_pair (chart_interval (session w)) (max_candles (session w))
     :: GetPrices connector (PList [trading_pair]) :: later).
Proof.
  intros Hmarket connector trading_pair run. subst run.
  destruct (show_trading_data_steps w market Hmarket) as (rest & Hrest & ->).
  fold connector trading_pair.
  destruct (truthy connector); destruct (truthy trading_pair); simpl.
  2-4: split; [intros _; reflexivity | discriminate].
  split; [discriminate|]. intros _.
  unfold bind.
  pose proof (get_market_data_run B backend clock w connector trading_pair
                (chart_interval (session w)) (max_candles (session w))
                (candles_connector (session w))) as Hrun.
  cbv zeta in Hrun.
  destruct (get_market_data backend clock connector trading_pair
              (chart_interval (session w)) (max_candles (session w))
              (candles_connector (session w)) w) as [r w1].
  destruct (backend (backend_state w) _) as [o1 b1].
  destruct (backend b1 _) as [o2 b2].
  injection Hrun as -> Hw1.
  destruct (Hrest (candles_of_answer o1, prices_of_answer o2) w1)
    as [_ (evs & Ht & _)].
  exists (requests_of evs).
  unfold new_events. rewrite Ht, Hw1. simpl trace.
  rewrite <- !app_assoc, skipn_past. simpl app.
  rewrite <- !app_assoc. simpl app.
  apply market_data_events_requests.
Qed.

End Display.

(** ** The page as a whole *)

Section WholePage.

Variable B : Type.
Variable backend : B -> request -> outcome * B.
Variable clock : nat -> spec_float.
Context {pandas : Pandas} {plotting : Plotting}.
Variable orders_editor : DataFrame -> DataFrame.
Variable cancel_clicked : bool.
Variable st_selectbox : string -> pyval -> pyval -> result pyval.

Lemma get_accounts_and_credentials_lists :
  respects lists_only (get_accounts_and_credentials backend).
Proof.
  assert (Hloop : forall accounts credentials_list,
             respects lists_only
               (fetch_credentials backend accounts credentials_list)).
  { induction accounts as [|account rest IH]; intros credentials_list; simpl.
    - apply respects_ret.
    - apply respects_bind; [apply respects_call; reflexivity | intros credentials].
      apply respects_bind; [apply respects_lift | intros d]. apply IH. }
  unfold get_accounts_and_credentials.
  apply respects_try; [|intros e; frames].
  apply respects_bind; [apply respects_call; reflexivity | intros accounts_list].
  apply respects_bind; [apply respects_lift | intros accounts].
  apply respects_bind; [apply Hloop | intros d]. apply respects_ret.
Qed.

Lemma get_candles_connectors_lists :
  respects lists_only (get_candles_connectors backend).
Proof. unfold get_candles_connectors. frames. Qed.

Lemma bind_run {A C : Type} (m : M B A) (k : A -> M B C)
    (w w1 : world B) (a : A) :
  m w = (Ok a, w1) -> bind m k w = k a w1.
Proof. intros Hm. unfold bind. rewrite Hm. reflexivity. Qed.

(** X22. When the accounts come back empty (the backend has none, or
    listing them or any of their credentials failed), the page shows "No
    accounts found" and stops there: it has only asked for the accounts,
    their credentials and the candles feeds, and neither the trade block
    nor the market data is reached. *)
Theorem no_accounts_stops_the_page (w : world B) (inp : page_inputs)
    (accounts_list credentials_dict : pyval) :
  fst (get_accounts_and_credentials backend w) = Ok (accounts_list, credentials_dict) ->
  truthy accounts_list = false ->
  let run := run_page backend clock orders_editor cancel_clicked st_selectbox inp w in
  fst run = Ctl Stop /\
  In (Ui st_error "No accounts found" []) (new_events w (snd run)) /\
  forallb lists_only (requests_of (new_events w (snd run))) = true /\
  session (snd run) = session w.
Proof.
  intros Haccounts Hnone.
  pose proof (get_accounts_and_credentials_lists w) as Hk1.
  destruct (get_accounts_and_credentials backend w) as [r1 w1] eqn:Hrun1.
  simpl in Haccounts, Hk1. subst r1.
  pose proof (get_candles_connectors_lists w1) as Hk2.
  destruct (get_candles_connectors backend w1) as [r2 w2] eqn:Hrun2.
  simpl in Hk2.
  assert (Hok : exists connectors, r2 = Ok connectors).
  { rewrite get_candles_connectors_run in Hrun2.
    destruct (backend (backend_state w1) GetAvailableCandlesFeed) as [[r|e] b2];
      inversion Hrun2; eauto. }
  destruct Hok as [connectors ->].
  assert (Hrun : run_page backend clock orders_editor cancel_clicked
                   st_selectbox inp w =
                 (Ctl Stop, advance w2 (backend_state w2)
                              [Ui st_subheader "Account & Market Selection" [];
                               Ui st_error "No accounts found" []])).
  { unfold run_page.
    rewrite (bind_run _ _ _ _ _ Hrun1).
    rewrite (bind_run _ _ _ _ _ Hrun2).
    unfold select_account; simpl fst; rewrite Hnone.
    unfold bind, ui, emit, st_stop, advance. simpl.
    rewrite <- app_assoc. reflexivity. }
  intros run. subst run. rewrite Hrun. simpl fst. simpl snd.
  assert (Hk : keeps lists_only w
                 (advance w2 (backend_state w2)
                    [Ui st_subheader "Account & Market Selection" [];
                     Ui st_error "No accounts found" []])).
  { apply (keeps_trans _ _ _ _ Hk1). apply (keeps_trans _ _ _ _ Hk2).
    split; [reflexivity|]. eexists. split; [reflexivity | reflexivity]. }
  split; [reflexivity|]. split; [|split].
  - destruct Hk1 as (_ & evs1 & Ht1 & _). destruct Hk2 as (_ & evs2 & Ht2 & _).
    unfold new_events, advance. simpl. rewrite Ht2, Ht1.
    rewrite <- !app_assoc, skipn_past.
    apply in_or_app; right. apply in_or_app; right. simpl; auto.
  - apply (keeps_new_events _ _ _ Hk).
  - destruct (get_accounts_and_credentials_outcome B backend w)
      as (b1 & evs1 & Hsnd1 & _).
    simpl in Hsnd1. rewrite Hrun1 in Hsnd1. simpl in Hsnd1.
    rewrite get_candles_connectors_run in Hrun2.
    destruct (backend (backend_state w1) GetAvailableCandlesFeed) as [[r|e] b2];
      inversion Hrun2; subst; reflexivity.
Qed.

Lemma lists_read :
  forall rq, lists_only rq = true -> reads_or_cancels rq = true.
Proof. intros rq; destruct rq; simpl; auto; discriminate. Qed.

Lemma execute_trade_idle (wd : trade_widgets) :
  place_clicked wd = false ->
  respects reads_or_cancels (execute_trade backend wd).
Proof.
  intros Hidle. unfold execute_trade. rewrite Hidle.
  apply respects_bind; [auto with frame | intros st]. frames.
Qed.

Lemma selection_reads (accounts_list credentials_dict candles_connectors : pyval)
    (inp : page_inputs) :
  respects (B := B) reads_or_cancels (select_account st_selectbox accounts_list) /\
  (forall selected,
      respects (B := B) reads_or_cancels
        (select_connector st_selectbox selected credentials_dict)) /\
  (forall connector,
      respects (B := B) reads_or_cancels
        (update_selected_market connector (trading_pair_text inp))) /\
  respects (B := B) reads_or_cancels (chart_settings st_selectbox candles_connectors inp).
Proof.
  split; [|split; [|split]].
  - unfold select_account. destruct (truthy accounts_list); [|frames].
    apply respects_bind; [auto with frame | intros st].
    apply respects_bind; [destruct (selected_account st); frames | intros u].
    frames.
  - intros selected. unfold select_connector.
    apply respects_bind; [frames | intros available].
    destruct available; [|frames].
    apply respects_bind; [frames | intros credentials].
    apply respects_bind; [frames | intros creds].
    apply respects_bind; [frames | intros btc_credentials].
    apply respects_bind; [destruct btc_credentials; frames | intros default_cred].
    frames.
  - intros connector. unfold update_selected_market. frames.
  - unfold chart_settings. frames.
Qed.

(** X23. A run of the page in which the "Place Order" button was not
    pressed sends no order to the backend, whatever is selected, typed or
    ticked elsewhere on the page and whatever the backend answers. *)
Theorem no_press_no_order (w : world B) (inp : page_inputs) :
  place_clicked (trade inp) = false ->
  let run := run_page backend clock orders_editor cancel_clicked st_selectbox inp w in
  forallb reads_or_cancels (requests_of (new_events w (snd run))) = true /\
  forall order_data, ~ In (PlaceOrder order_data) (requests_of (new_events w (snd run))).
Proof.
  intros Hidle run. subst run.
  assert (Hall : forallb reads_or_cancels
                   (requests_of
                      (new_events w
                         (snd (run_page backend clock orders_editor cancel_clicked
                                 st_selectbox inp w)))) = true).
  { apply (grows_new_events reads_or_cancels).
    unfold run_page.
    apply obeys_bind;
      [apply respects_obeys;
       apply (respects_weaken lists_only); [exact lists_read|];
       apply get_accounts_and_credentials_lists | intros fetched].
    cbv zeta.
    apply obeys_bind;
      [apply respects_obeys;
       apply (respects_weaken lists_only); [exact lists_read|];
       apply get_candles_connectors_lists | intros candles_connectors].
    destruct (selection_reads (fst fetched) (snd fetched) candles_connectors inp)
      as (Haccount & Hconnector & Hmarket & Hchart).
    apply obeys_bind; [apply respects_obeys; frames | intros u1].
    apply obeys_bind; [apply respects_obeys; exact Haccount | intros selected].
    apply obeys_bind; [apply respects_obeys; apply Hconnector | intros connector].
    apply obeys_bind; [apply respects_obeys; apply Hmarket | intros u2].
    apply obeys_bind; [apply respects_obeys; exact Hchart | intros u3].
    apply obeys_bind; [apply respects_obeys; frames | intros u4].
    apply obeys_bind;
      [apply respects_obeys; apply execute_trade_idle; exact Hidle | intros u5].
    apply show_trading_data_obeys. }
  split; [exact Hall|].
  intros order_data Hin. rewrite forallb_forall in Hall.
  specialize (Hall _ Hin). discriminate Hall.
Qed.

End WholePage.

Lemma no_accounts_stops_the_page_witness :
  let run := run_page backend_down frozen_clock (fun df => df) false untouched
                      idle_inputs fresh_world in
  fst run = Ctl Stop /\
  requests_of (new_events fresh_world (snd run)) = [ListAccounts; GetAvailableCandlesFeed].
Proof.
  intros run.
  destruct (no_accounts_stops_the_page unit backend_down frozen_clock
              (pandas := record_frames) (plotting := record_plotting)
              (fun df => df) false untouched fresh_world idle_inputs
              (PList []) (PDict []) eq_refl eq_refl) as (Hstop & _).
  split; [exact Hstop | reflexivity].
Defined.

Lemma display_starts_with_market_data_witness :
  exists later,
    requests_of
      (new_events trading_world
         (snd (show_trading_data backend_down frozen_clock
                 (pandas := record_frames) (plotting := record_plotting)
                 (fun df => df) false trading_world))) =
    GetCandles (PStr "binance") (PStr "BTC-USDT") (PStr "1m") (PInt 100)
    :: GetPrices (PStr "binance") (PList [PStr "BTC-USDT"]) :: later.
Proof.
  apply (display_starts_with_market_data unit backend_down frozen_clock
           (pandas := record_frames) (plotting := record_plotting)
           (fun df => df) false trading_world
           [(PStr "connector", PStr "binance");
            (PStr "trading_pair", PStr "BTC-USDT")] eq_refl).
  reflexivity.
Defined.

Lemma candles_connectors_as_answered_witness :
  fst (get_candles_connectors backend_down fresh_world) = Ok (PList []) /\
  List.length (messages_of
                 (new_events fresh_world
                    (snd (get_candles_connectors backend_down fresh_world)))) = 1%nat.
Proof.
  destruct (candles_connectors_as_answered unit backend_down fresh_world)
    as [_ Hraise].
  destruct (answer backend_down tt GetAvailableCandlesFeed) as [r|e] eqn:Hanswer;
    [discriminate Hanswer|].
  destruct (Hraise e Hanswer) as [Hfst Hmsg].
  split; [exact Hfst|]. rewrite Hmsg. reflexivity.
Defined.

Lemma balances_always_a_list_witness :
  snd (get_balances backend_down fresh_world) = fresh_world.
Proof.
  apply (balances_always_a_list unit backend_down fresh_world). reflexivity.
Defined.

Lemma no_press_no_order_witness :
  forallb reads_or_cancels
    (requests_of
       (new_events trading_world
          (snd (run_page (scripted two_accounts) frozen_clock
                  (pandas := record_frames) (plotting := record_plotting)
                  (fun df => df) true untouched idle_inputs trading_world)))) = true.
Proof.
  apply (no_press_no_order unit (scripted two_accounts) frozen_clock
           (pandas := record_frames) (plotting := record_plotting)
           (fun df => df) true untouched trading_world idle_inputs).
  reflexivity.
Defined.

Lemma display_never_places_orders_witness :
  forallb reads_or_cancels
    (requests_of
       (new_events trading_world
          (snd (show_trading_data (scripted two_accounts) frozen_clock
                  (pandas := record_frames) (plotting := record_plotting)
                  (fun df => df) true trading_world)))) = true.
Proof.
  apply (display_never_places_orders unit (scripted two_accounts) frozen_clock
           (pandas := record_frames) (plotting := record_plotting)
           (fun df => df) true trading_world).
Defined.
